(** * The conversational loop of the Interview screen

    A shallow embedding of the React component [Interview]
    (components/Interview: the turn-taking loop of speech capture, silence
    timer, speech playback and the three remote calls) and the properties of
    its specification; then of the two components that lead to it, the setup
    screen [InterviewSetup] and the shell [App], and properties of the code
    beyond the specification.

    The component is callback driven.  Every callback of the source is a
    function on an explicit [State]; the browser (timers, the speech
    recogniser, the speech synthesiser, the network) is the environment that
    chooses the next [Event]. *)

From Stdlib Require Import String Ascii List Bool Arith Lia.
Import ListNotations.

#[local] Open Scope string_scope.
#[local] Open Scope list_scope.
#[local] Open Scope nat_scope.

(** ** JavaScript strings

    A string is the sequence of the bytes of its UTF-8 encoding.

    [toLowerCase] folds the ASCII letters.  The component uses it for tests
    against ASCII phrases only, and a character outside ASCII is made of
    bytes outside ASCII before and after the method, the two exceptions
    (U+212A, which becomes k, and U+0130, which becomes i and U+0307) having
    no bearing on these phrases.

    [trim] removes what [String.prototype.trim] removes: the white space and
    the line terminators of ECMAScript, in and outside ASCII. *)

Module Js.

Definition isUpper (c : ascii) : bool :=
  let n := nat_of_ascii c in (65 <=? n) && (n <=? 90).

Definition toLowerCaseChar (c : ascii) : ascii :=
  if isUpper c then ascii_of_nat (nat_of_ascii c + 32) else c.

Fixpoint toLowerCase (s : string) : string :=
  match s with
  | EmptyString => EmptyString
  | String c s' => String (toLowerCaseChar c) (toLowerCase s')
  end.

(** [sub] occurs at the very start of [s]. *)
Fixpoint startsWith (s sub : string) : bool :=
  match sub, s with
  | EmptyString, _ => true
  | String _ _, EmptyString => false
  | String a sub', String b s' => Ascii.eqb a b && startsWith s' sub'
  end.

(** [String.prototype.includes]: [sub] occurs somewhere in [s]. *)
Fixpoint includes (s sub : string) : bool :=
  startsWith s sub ||
  match s with
  | EmptyString => false
  | String _ s' => includes s' sub
  end.

(** The white space and the line terminators of ASCII: U+0009 to U+000D and
    U+0020. *)
Definition isWhiteSpace (c : ascii) : bool :=
  let n := nat_of_ascii c in ((9 <=? n) && (n <=? 13)) || (n =? 32).

(** Those of two bytes: U+00A0. *)
Definition isWhiteSpace2 (a b : ascii) : bool :=
  (nat_of_ascii a =? 194) && (nat_of_ascii b =? 160).

(** Those of three bytes: U+1680; U+2000 to U+200A, U+2028, U+2029 and
    U+202F; U+205F; U+3000; U+FEFF. *)
Definition isWhiteSpace3 (a b c : ascii) : bool :=
  let x := nat_of_ascii a in
  let y := nat_of_ascii b in
  let z := nat_of_ascii c in
  ((x =? 225) && (y =? 154) && (z =? 128))
  || ((x =? 226) && (y =? 128)
      && (((128 <=? z) && (z <=? 138)) || (z =? 168) || (z =? 169) || (z =? 175)))
  || ((x =? 226) && (y =? 129) && (z =? 159))
  || ((x =? 227) && (y =? 128) && (z =? 128))
  || ((x =? 239) && (y =? 187) && (z =? 191)).

Fixpoint trimStart (s : string) : string :=
  match s with
  | EmptyString => EmptyString
  | String a s1 =>
      if isWhiteSpace a then trimStart s1
      else
        match s1 with
        | EmptyString => s
        | String b s2 =>
            if isWhiteSpace2 a b then trimStart s2
            else
              match s2 with
              | EmptyString => s
              | String c s3 => if isWhiteSpace3 a b c then trimStart s3 else s
              end
        end
  end.

(** What is white space from some byte to the end is dropped.  (The first
    byte of a character occurs nowhere else in a character, so the bytes
    dropped are whole characters.) *)
Fixpoint trimEnd (s : string) : string :=
  match s with
  | EmptyString => EmptyString
  | String c s' =>
      match trimStart s with
      | EmptyString => EmptyString
      | String _ _ => String c (trimEnd s')
      end
  end.

Definition trim (s : string) : string := trimEnd (trimStart s).

(** The string of the bytes [l]. *)
Definition ofBytes (l : list nat) : string :=
  fold_right (fun n s => String (ascii_of_nat n) s) EmptyString l.

(** Truthiness of a string: only the empty string is falsy. *)
Definition truthy (s : string) : bool :=
  match s with EmptyString => false | String _ _ => true end.

(** [a || b] on strings. *)
Definition orElse (a b : string) : string := if truthy a then a else b.

(** [String.prototype.endsWith]: [sub] is [s] or the end of a tail of [s]. *)
Fixpoint endsWith (s sub : string) : bool :=
  String.eqb s sub ||
  match s with
  | EmptyString => false
  | String _ s' => endsWith s' sub
  end.

End Js.

(** ** Data model *)

(** An entry of [conversationHistory].  A text read from [questions] out of
    range, or from a reply without a [response] field, is [undefined]. *)
Inductive Turn : Type :=
| question (text : option string) (index : nat)
| answer (text : string) (questionIndex : nat)
| ai_response (text : option string) (questionIndex : nat).

(** The values given to [setStatusMessage]. *)
Inductive Status : Type :=
| StatusEmpty
| StatusListening          (* Listening... Speak naturally! *)
| StatusImListening        (* I'm listening... speak when ready *)
| StatusThinking           (* AI is thinking... *)
| StatusAnalyzing.         (* Analyzing your interview... *)

(** The React state of the component (the [useState] cells). *)
Record Ui : Type := MkUi {
  currentQuestion : nat;
  isListening : bool;
  transcript : string;
  isSpeaking : bool;
  loading : bool;
  statusMessage : Status;
  conversationHistory : list Turn;
  waitingForResponse : bool
}.

(** What the callbacks of one render read: [questions], [currentQuestion] and
    [isListening] are constants of a render, and every callback closes over
    the constants of the render that created it. *)
Module Render.
Record t : Type := Make {
  questions : list string;
  currentQuestion : nat;
  isListening : bool
}.
End Render.

(** The requests sent to the remote service. *)
Inductive Request : Type :=
| SubmitAnswer (question : option string) (answer : string)
| GenerateAIResponse (question : option string) (answer : string)
                     (question_number total_questions : nat)
| CompleteInterview.

(** The [onComplete] argument of the calls of [speakAndWait]. *)
Inductive OnComplete : Type :=
| AfterGreeting                                  (* startInterview *)
| AfterQuestion                                  (* askQuestion *)
| AfterRepeat                                    (* processUserResponse *)
| AfterAIResponse (aiResponse userAnswer : string)  (* generateAIResponse, try *)
| AfterFallback                                  (* generateAIResponse, catch *)
| AfterTransition (nextQ : nat)                  (* handleNextQuestion, then *)
| AfterClosing                                   (* handleNextQuestion, else *)
| AfterFarewell.                                 (* completeInterview *)

(** The functions given to [setTimeout]. *)
Inductive Callback : Type :=
| CbStartInterview
| CbAskQuestion (questionIndex : nat)
| CbStartContinuousListening
| CbRecognitionStart
| CbSilence
| CbHandleNextQuestion (userAnswer : string)
| CbCompleteInterview
| CbSpeak (text : string) (onComplete : option OnComplete)
| CbSetCurrentViewHistory.

Record Timer : Type := MkTimer { delay : nat; callback : Callback }.

(** What runs in [processUserResponse] after [await saveCurrentAnswer]. *)
Inductive AfterSave : Type := ThenComplete | ThenGenerate.

(** An [async] function suspended at the [await] of its request. *)
Inductive Await : Type :=
| AwaitSave (answerText : string) (next : AfterSave)
| AwaitGenerate (userAnswer : string)
| AwaitComplete.

(** The body of a reply as [response.json()] gives it: not JSON (the promise
    rejects), [null], or an object with or without a [response] string. *)
Inductive Body : Type :=
| BodyInvalid
| BodyNull
| BodyObject (response : option string).

(** How a [fetch] settles: the promise rejects (no connection), or a reply
    arrives with its [ok] flag. *)
Inductive Outcome : Type :=
| Rejected
| Responded (ok : bool) (body : Body).

(** The recogniser: [start()] and [stop()] are requests, [onstart] and
    [onend] report them later. *)
Inductive Recognition : Type :=
| RecInactive | RecStarting | RecActive | RecStopping.

Record Utterance : Type := MkUtterance {
  utteranceText : string;
  utteranceOnComplete : option OnComplete
}.

(** The refs of the component and [finalTranscriptBuffer], the variable the
    recognition callbacks share. *)
Record Refs : Type := MkRefs {
  recognitionRef : bool;
  silenceTimerRef : option nat;
  finalTranscriptBuffer : string
}.

(** The browser: the recogniser, the queue of [speechSynthesis] (its head is
    the utterance being spoken once [speaking]), the pending timeouts and the
    requests in flight. *)
Record Browser : Type := MkBrowser {
  recognition : Recognition;
  utterances : list Utterance;
  speaking : bool;
  timers : list (nat * Timer);
  nextTimer : nat;
  fetches : list (nat * Await);
  nextFetch : nat
}.

(** What left the component: requests, [alert]s, calls of [setCurrentView],
    and the [onComplete] continuations that were invoked. *)
Record Log : Type := MkLog {
  requests : list Request;
  alerts : list string;
  views : list string;
  completed : list OnComplete
}.

Record State : Type := MkState {
  ui : Ui;
  refs : Refs;
  browser : Browser;
  log : Log;
  mounted : bool
}.

(** *** Field updates *)

Definition withUi (f : Ui -> Ui) (s : State) : State :=
  MkState (f (ui s)) (refs s) (browser s) (log s) (mounted s).
Definition withRefs (f : Refs -> Refs) (s : State) : State :=
  MkState (ui s) (f (refs s)) (browser s) (log s) (mounted s).
Definition withBrowser (f : Browser -> Browser) (s : State) : State :=
  MkState (ui s) (refs s) (f (browser s)) (log s) (mounted s).
Definition withLog (f : Log -> Log) (s : State) : State :=
  MkState (ui s) (refs s) (browser s) (f (log s)) (mounted s).
Definition setMounted (b : bool) (s : State) : State :=
  MkState (ui s) (refs s) (browser s) (log s) b.

Definition setCurrentQuestion (n : nat) : State -> State :=
  withUi (fun u => MkUi n (isListening u) (transcript u) (isSpeaking u)
    (loading u) (statusMessage u) (conversationHistory u) (waitingForResponse u)).
Definition setIsListening (b : bool) : State -> State :=
  withUi (fun u => MkUi (currentQuestion u) b (transcript u) (isSpeaking u)
    (loading u) (statusMessage u) (conversationHistory u) (waitingForResponse u)).
Definition setTranscript (t : string) : State -> State :=
  withUi (fun u => MkUi (currentQuestion u) (isListening u) t (isSpeaking u)
    (loading u) (statusMessage u) (conversationHistory u) (waitingForResponse u)).
Definition setIsSpeaking (b : bool) : State -> State :=
  withUi (fun u => MkUi (currentQuestion u) (isListening u) (transcript u) b
    (loading u) (statusMessage u) (conversationHistory u) (waitingForResponse u)).
Definition setLoading (b : bool) : State -> State :=
  withUi (fun u => MkUi (currentQuestion u) (isListening u) (transcript u)
    (isSpeaking u) b (statusMessage u) (conversationHistory u)
    (waitingForResponse u)).
Definition setStatusMessage (m : Status) : State -> State :=
  withUi (fun u => MkUi (currentQuestion u) (isListening u) (transcript u)
    (isSpeaking u) (loading u) m (conversationHistory u) (waitingForResponse u)).
(** [setConversationHistory(prev => [...prev, turn])] *)
Definition appendConversationHistory (turn : Turn) : State -> State :=
  withUi (fun u => MkUi (currentQuestion u) (isListening u) (transcript u)
    (isSpeaking u) (loading u) (statusMessage u)
    (conversationHistory u ++ [turn]) (waitingForResponse u)).
Definition setWaitingForResponse (b : bool) : State -> State :=
  withUi (fun u => MkUi (currentQuestion u) (isListening u) (transcript u)
    (isSpeaking u) (loading u) (statusMessage u) (conversationHistory u) b).

Definition setRecognitionRef (b : bool) : State -> State :=
  withRefs (fun x => MkRefs b (silenceTimerRef x) (finalTranscriptBuffer x)).
Definition setSilenceTimerRef (o : option nat) : State -> State :=
  withRefs (fun x => MkRefs (recognitionRef x) o (finalTranscriptBuffer x)).
Definition setFinalTranscriptBuffer (b : string) : State -> State :=
  withRefs (fun x => MkRefs (recognitionRef x) (silenceTimerRef x) b).

Definition setRecognition (v : Recognition) : State -> State :=
  withBrowser (fun b => MkBrowser v (utterances b) (speaking b) (timers b)
    (nextTimer b) (fetches b) (nextFetch b)).
Definition setUtterances (us : list Utterance) (sp : bool) : State -> State :=
  withBrowser (fun b => MkBrowser (recognition b) us sp (timers b)
    (nextTimer b) (fetches b) (nextFetch b)).
Definition setTimers (ts : list (nat * Timer)) (n : nat) : State -> State :=
  withBrowser (fun b => MkBrowser (recognition b) (utterances b) (speaking b)
    ts n (fetches b) (nextFetch b)).
Definition setFetches (fs : list (nat * Await)) (n : nat) : State -> State :=
  withBrowser (fun b => MkBrowser (recognition b) (utterances b) (speaking b)
    (timers b) (nextTimer b) fs n).

Definition logRequest (q : Request) : State -> State :=
  withLog (fun l => MkLog (requests l ++ [q]) (alerts l) (views l) (completed l)).
Definition alert (msg : string) : State -> State :=
  withLog (fun l => MkLog (requests l) (alerts l ++ [msg]) (views l) (completed l)).
Definition logView (v : string) : State -> State :=
  withLog (fun l => MkLog (requests l) (alerts l) (views l ++ [v]) (completed l)).
Definition logCompleted (k : OnComplete) : State -> State :=
  withLog (fun l => MkLog (requests l) (alerts l) (views l) (completed l ++ [k])).

(** ** The browser interfaces the component calls *)

Fixpoint lookup {A : Type} (id : nat) (l : list (nat * A)) : option A :=
  match l with
  | [] => None
  | (i, a) :: l' => if i =? id then Some a else lookup id l'
  end.

Definition discard {A : Type} (id : nat) (l : list (nat * A)) : list (nat * A) :=
  filter (fun p => negb (fst p =? id)) l.

(** [setTimeout(callback, delay)]; the identifier it returns is
    [nextTimer (browser s)] of the state it is called in. *)
Definition setTimeout (d : nat) (cb : Callback) (s : State) : State :=
  let b := browser s in
  setTimers (timers b ++ [(nextTimer b, MkTimer d cb)]) (S (nextTimer b)) s.

Definition clearTimeout (id : nat) (s : State) : State :=
  setTimers (discard id (timers (browser s))) (nextTimer (browser s)) s.

(** [speechSynthesis.cancel()] empties the queue; the utterances removed
    report neither [onend] nor [onerror]. *)
Definition synthCancel (s : State) : State := setUtterances [] false s.

(** [speechSynthesis.speak(utterance)] appends to the queue. *)
Definition synthSpeak (u : Utterance) (s : State) : State :=
  setUtterances (utterances (browser s) ++ [u]) (speaking (browser s)) s.

(** [recognition.stop()]: stop listening to further audio; a result for the
    audio already captured and [onend] may still follow. *)
Definition recognitionStop (s : State) : State :=
  match recognition (browser s) with
  | RecStarting | RecActive => setRecognition RecStopping s
  | RecInactive | RecStopping => s
  end.

(** [recognition.start()] throws [InvalidStateError] unless the recogniser is
    inactive; [None] is the exception. *)
Definition recognitionStart (s : State) : option State :=
  match recognition (browser s) with
  | RecInactive => Some (setRecognition RecStarting s)
  | _ => None
  end.

(** [fetch(...)] of request [q] by an [async] function that awaits it. *)
Definition fetch (q : Request) (k : Await) (s : State) : State :=
  let b := browser s in
  setFetches (fetches b ++ [(nextFetch b, k)]) (S (nextFetch b)) (logRequest q s).

(** The state a callback leaves when its last call threw: what it did before
    stays, nothing follows. *)
Definition orAbort (o : option State) (s : State) : State :=
  match o with Some s' => s' | None => s end.

(** ** The component *)

Definition greeting : string :=
  "Hello! I'm your AI interviewer today. I'll be asking you questions and we'll have a natural conversation. Feel free to elaborate on your answers. Let me start with the first question.".
Definition fallbackLine : string :=
  "Thank you for that answer. Would you like to elaborate, or shall we move to the next question?".
Definition transitionLine : string := "Alright, moving on to the next question.".
Definition closingLine : string :=
  "That was the last question. Let me complete your interview and generate your feedback.".
Definition farewellLine : string :=
  "Interview complete! Check your history to see your detailed results. Thank you!".

Section Component.

(** The render whose callbacks are running. *)
Variable r : Render.t.

Definition cleanupSpeech (s : State) : State :=
  let s1 := if recognitionRef (refs s) then recognitionStop s else s in
  synthCancel s1.

(** [text.substring(0, 50)] throws when [text] is [undefined]; otherwise the
    queue is cancelled and the utterance is spoken 100 ms later. *)
Definition speakAndWait (text : option string) (onComplete : option OnComplete)
    (s : State) : option State :=
  match text with
  | None => None
  | Some t => Some (setTimeout 100 (CbSpeak t onComplete) (synthCancel s))
  end.

Definition startInterview (s : State) : State :=
  orAbort (speakAndWait (Some greeting) (Some AfterGreeting) s) s.

Definition askQuestion (questionIndex : nat) (s : State) : State :=
  let questionText := nth_error (Render.questions r) questionIndex in
  let s1 := appendConversationHistory (question questionText questionIndex) s in
  orAbort (speakAndWait questionText (Some AfterQuestion) s1) s1.

Definition startContinuousListening (s : State) : State :=
  let s1 := setStatusMessage StatusImListening s in
  if recognitionRef (refs s1) then
    let s2 := if Render.isListening r then recognitionStop s1 else s1 in
    setTimeout 300 CbRecognitionStart s2
  else s1.

Definition stopListening (s : State) : State :=
  let s1 :=
    match silenceTimerRef (refs s) with
    | Some id => setSilenceTimerRef None (clearTimeout id s)
    | None => s
    end in
  if recognitionRef (refs s1) then setIsListening false (recognitionStop s1)
  else s1.

(** [saveCurrentAnswer] up to its [await]; [next] is what its caller does
    once it returns. *)
Definition saveCurrentAnswer (answerText : string) (next : AfterSave)
    (s : State) : State :=
  fetch (SubmitAnswer (nth_error (Render.questions r) (Render.currentQuestion r))
                      answerText)
        (AwaitSave answerText next) s.

(** [generateAIResponse] up to its [await]. *)
Definition generateAIResponse (userAnswer : string) (s : State) : State :=
  fetch (GenerateAIResponse
           (nth_error (Render.questions r) (Render.currentQuestion r))
           userAnswer (Render.currentQuestion r + 1)
           (length (Render.questions r)))
        (AwaitGenerate userAnswer) s.

Definition handleNextQuestion (currentAnswer : string) (s : State) : State :=
  if Render.currentQuestion r <? length (Render.questions r) - 1 then
    let nextQ := Render.currentQuestion r + 1 in
    let s1 := setCurrentQuestion nextQ s in
    orAbort (speakAndWait (Some transitionLine) (Some (AfterTransition nextQ)) s1) s1
  else
    orAbort (speakAndWait (Some closingLine) (Some AfterClosing) s) s.

(** [completeInterview] up to its [await]. *)
Definition completeInterview (s : State) : State :=
  let s1 := setLoading true s in
  let s2 := stopListening s1 in
  let s3 := setStatusMessage StatusAnalyzing s2 in
  fetch CompleteInterview AwaitComplete s3.

Definition processUserResponse (userText : string) (s : State) : State :=
  let s1 := stopListening s in
  let s2 := setWaitingForResponse true s1 in
  let s3 := setStatusMessage StatusThinking s2 in
  let s4 := setTranscript EmptyString s3 in
  let lowerText := Js.toLowerCase userText in
  if Js.includes lowerText "next question" || Js.includes lowerText "move on" then
    handleNextQuestion userText s4
  else if Js.includes lowerText "repeat" || Js.includes lowerText "say that again" then
    let lastQuestion := nth_error (Render.questions r) (Render.currentQuestion r) in
    orAbort (speakAndWait lastQuestion (Some AfterRepeat) s4) s4
  else if Js.includes lowerText "complete" || Js.includes lowerText "finish"
          || Js.includes lowerText "done" then
    saveCurrentAnswer userText ThenComplete s4
  else
    saveCurrentAnswer userText ThenGenerate s4.

(** The rest of [saveCurrentAnswer] and of its caller, from the [await]. *)
Definition resumeSave (answerText : string) (next : AfterSave) (o : Outcome)
    (s : State) : State :=
  let s1 :=
    match o with
    | Responded _ _ =>
        appendConversationHistory (answer answerText (Render.currentQuestion r)) s
    | Rejected => s                      (* catch: console.error only *)
    end in
  match next with
  | ThenComplete => completeInterview s1
  | ThenGenerate => generateAIResponse answerText s1
  end.

(** The [catch] of [generateAIResponse]. *)
Definition generateFallback (s : State) : State :=
  orAbort (speakAndWait (Some fallbackLine) (Some AfterFallback) s) s.

(** The rest of [generateAIResponse], from the [await]. *)
Definition resumeGenerate (userAnswer : string) (o : Outcome) (s : State) : State :=
  match o with
  | Responded true (BodyObject aiResponse) =>
      let s1 := appendConversationHistory
                  (ai_response aiResponse (Render.currentQuestion r)) s in
      match aiResponse with
      | Some a =>
          orAbort (speakAndWait (Some a) (Some (AfterAIResponse a userAnswer)) s1) s1
      | None => generateFallback s1   (* speakAndWait(undefined) throws in the try *)
      end
  | Responded true BodyNull          (* data.response throws *)
  | Responded true BodyInvalid       (* response.json() rejects *)
  | Responded false _                (* throw new Error(...) *)
  | Rejected => generateFallback s
  end.

(** The rest of [completeInterview], from the [await]. *)
Definition resumeComplete (o : Outcome) (s : State) : State :=
  match o with
  | Responded _ (BodyNull | BodyObject _) =>
      orAbort (speakAndWait (Some farewellLine) (Some AfterFarewell) s) s
  | Responded _ BodyInvalid
  | Rejected =>
      setLoading false (alert "Error completing interview. Please try again." s)
  end.

Definition resume (k : Await) (o : Outcome) (s : State) : State :=
  match k with
  | AwaitSave answerText next => resumeSave answerText next o s
  | AwaitGenerate userAnswer => resumeGenerate userAnswer o s
  | AwaitComplete => resumeComplete o s
  end.

(** The [onComplete] functions. *)
Definition onComplete (k : OnComplete) (s : State) : State :=
  let s0 := logCompleted k s in
  match k with
  | AfterGreeting => setTimeout 2000 (CbAskQuestion 0) s0
  | AfterQuestion => setTimeout 1500 CbStartContinuousListening s0
  | AfterRepeat =>
      setTimeout 1000 CbStartContinuousListening (setWaitingForResponse false s0)
  | AfterAIResponse aiResponse userAnswer =>
      let s1 := setWaitingForResponse false s0 in
      if Js.includes (Js.toLowerCase aiResponse) "next question"
         || Js.includes (Js.toLowerCase aiResponse) "let's move"
      then setTimeout 1500 (CbHandleNextQuestion userAnswer) s1
      else setTimeout 1500 CbStartContinuousListening s1
  | AfterFallback =>
      setTimeout 1500 CbStartContinuousListening (setWaitingForResponse false s0)
  | AfterTransition nextQ => setTimeout 1000 (CbAskQuestion nextQ) s0
  | AfterClosing => setTimeout 2000 CbCompleteInterview s0
  | AfterFarewell => setTimeout 2000 CbSetCurrentViewHistory s0
  end.

(** [if (onComplete) onComplete()] *)
Definition callOnComplete (k : option OnComplete) (s : State) : State :=
  match k with Some k' => onComplete k' s | None => s end.

(** The cleanup of the effect.  (React drops the state of a screen that is
    gone; [ui] then records what the setters are called with.) *)
Definition unmount (s : State) : State :=
  if mounted s then
    let s1 := cleanupSpeech (setMounted false s) in
    match silenceTimerRef (refs s1) with
    | Some id => clearTimeout id s1
    | None => s1
    end
  else s.

(** The text a silence-timer expiry hands to [processUserResponse], if any. *)
Definition bufferedAnswer (s : State) : option string :=
  let t := Js.trim (finalTranscriptBuffer (refs s)) in
  if Js.truthy t then Some t else None.

Definition silenceExpired (s : State) : State :=
  match bufferedAnswer s with
  | Some t => setFinalTranscriptBuffer EmptyString (processUserResponse t s)
  | None => s
  end.

(** The function of a timeout. *)
Definition fire (cb : Callback) (s : State) : State :=
  match cb with
  | CbStartInterview => startInterview s
  | CbAskQuestion i => askQuestion i s
  | CbStartContinuousListening => startContinuousListening s
  | CbRecognitionStart => orAbort (recognitionStart s) s
  | CbSilence => silenceExpired s
  | CbHandleNextQuestion userAnswer => handleNextQuestion userAnswer s
  | CbCompleteInterview => completeInterview s
  | CbSpeak text k => synthSpeak (MkUtterance text k) s
  | CbSetCurrentViewHistory => unmount (logView "history" s)
  end.

(** *** The recognition callbacks *)

(** The loop of [recognition.onresult] over the results of the event, each
    with its transcript and its [isFinal] flag: the pair
    [(interimTranscript, finalTranscript)]. *)
Fixpoint collect (results : list (string * bool)) (interim final : string)
    : string * string :=
  match results with
  | [] => (interim, final)
  | (t, true) :: rest => collect rest interim (final ++ (t ++ " "))%string
  | (t, false) :: rest => collect rest (interim ++ t)%string final
  end.

Definition onresult (results : list (string * bool)) (s : State) : State :=
  let '(interimTranscript, finalTranscript) :=
    collect results EmptyString EmptyString in
  let s1 :=
    if Js.truthy finalTranscript then
      let s2 := setFinalTranscriptBuffer
                  (finalTranscriptBuffer (refs s) ++ finalTranscript)%string s in
      let s3 := match silenceTimerRef (refs s2) with
                | Some id => clearTimeout id s2
                | None => s2
                end in
      setTimeout 2000 CbSilence
        (setSilenceTimerRef (Some (nextTimer (browser s3))) s3)
    else s in
  setTranscript (Js.orElse interimTranscript (finalTranscriptBuffer (refs s1))) s1.

Definition onstart (s : State) : State :=
  setStatusMessage StatusListening (setIsListening true s).

Definition onerror (error : string) (s : State) : State :=
  if String.eqb error "network"
  then alert "Network error. Please check your connection." s
  else s.

Definition onend (s : State) : State := setIsListening false s.

End Component.

(** ** The event loop *)

(** What the browser can deliver to the component. *)
Inductive Event : Type :=
| Timeout (id : nat)                              (* a pending timeout expires *)
| UtteranceStart                                  (* utterance.onstart *)
| UtteranceEnd                                    (* utterance.onend *)
| UtteranceError                                  (* utterance.onerror *)
| RecognitionStart                                (* recognition.onstart *)
| RecognitionResult (results : list (string * bool))  (* recognition.onresult *)
| RecognitionError (error : string)               (* recognition.onerror *)
| RecognitionEnd                                  (* recognition.onend *)
| Settled (id : nat) (o : Outcome)                (* a request settles *)
| Unmount.                                        (* the screen is left *)

(** One turn of the event loop.  An event the browser cannot deliver in [s]
    (no such timeout, nothing being spoken, ...) leaves [s] as it is.

    - Results are delivered while the recogniser is active and, for the audio
      captured before [stop()], until it reports [onend].
    - The speech queue reports [onstart] and then [onend], or [onerror], for
      the utterance at its head.
    - A request settles once: the reply and its body arrive as one event.
    - There is no clock: any pending timeout may expire.  What holds for
      every run holds for the runs the delays allow. *)
Definition step (r : Render.t) (e : Event) (s : State) : State :=
  match e with
  | Timeout id =>
      match lookup id (timers (browser s)) with
      | Some t => fire r (callback t) (clearTimeout id s)
      | None => s
      end
  | UtteranceStart =>
      match utterances (browser s) with
      | u :: us =>
          if speaking (browser s) then s
          else setIsSpeaking true (setUtterances (u :: us) true s)
      | [] => s
      end
  | UtteranceEnd =>
      match utterances (browser s) with
      | u :: us =>
          if speaking (browser s) then
            callOnComplete (utteranceOnComplete u)
              (setIsSpeaking false (setUtterances us false s))
          else s
      | [] => s
      end
  | UtteranceError =>
      match utterances (browser s) with
      | u :: us =>
          callOnComplete (utteranceOnComplete u)
            (setIsSpeaking false (setUtterances us false s))
      | [] => s
      end
  | RecognitionStart =>
      match recognition (browser s) with
      | RecStarting => onstart (setRecognition RecActive s)
      | _ => s
      end
  | RecognitionResult results =>
      match recognition (browser s) with
      | RecActive | RecStopping => onresult results s
      | _ => s
      end
  | RecognitionError error =>
      match recognition (browser s) with
      | RecInactive => s
      | _ => onerror error (setRecognition RecStopping s)
      end
  | RecognitionEnd =>
      match recognition (browser s) with
      | RecInactive => s
      | _ => onend (setRecognition RecInactive s)
      end
  | Settled id o =>
      match lookup id (fetches (browser s)) with
      | Some k =>
          resume r k o
            (setFetches (discard id (fetches (browser s))) (nextFetch (browser s)) s)
      | None => s
      end
  | Unmount => unmount s
  end.

Definition run (r : Render.t) (events : list Event) (s : State) : State :=
  fold_left (fun s' e => step r e s') events s.

(** *** Mounting *)

(** [useState(initialQuestions || [])] and the other initial values. *)
Definition initialState (initialQuestions : option (list string)) : State :=
  MkState
    (MkUi 0 false EmptyString false
          (match initialQuestions with Some _ => false | None => true end)
          StatusEmpty [] false)
    (MkRefs false None EmptyString)
    (MkBrowser RecInactive [] false [] 1 [] 1)
    (MkLog [] [] [] [])
    true.

(** The effect has no dependencies: it runs once, after the first render, and
    every callback it installs or schedules is a function of that render. *)
Definition firstRender (initialQuestions : option (list string)) : Render.t :=
  Render.Make
    (match initialQuestions with Some qs => qs | None => [] end) 0 false.

(** [supported]: the browser has [SpeechRecognition]. *)
Definition initializeSpeechRecognition (supported : bool) (s : State) : State :=
  if supported then setRecognitionRef true s
  else alert "Speech recognition requires Chrome or Edge browser" s.

(** The effect of the first render. *)
Definition mount (supported : bool) (initialQuestions : option (list string))
    : State :=
  let s1 := initializeSpeechRecognition supported (initialState initialQuestions) in
  match initialQuestions with
  | Some qs =>
      if 0 <? length qs
      then setTimeout 2000 CbStartInterview (setLoading false s1)
      else s1
  | None => s1
  end.

(** The states of a session. *)
Inductive reachable (supported : bool) (initialQuestions : option (list string))
    : State -> Prop :=
| reachable_mount : reachable supported initialQuestions
                      (mount supported initialQuestions)
| reachable_step (s : State) (e : Event) :
    reachable supported initialQuestions s ->
    reachable supported initialQuestions (step (firstRender initialQuestions) e s).

(** ** The control phrases, as the specification words them *)

Inductive Command : Type := Advance | Repeat | Finish | NormalAnswer.

Definition advancePhrases : list string := ["next question"; "move on"].
Definition repeatPhrases : list string := ["repeat"; "say that again"].
Definition finishPhrases : list string := ["complete"; "finish"; "done"].

(** Two characters are the same up to case: they are equal, or one is a
    capital letter and the other is its small letter. *)
Definition sameLetter (a b : ascii) : Prop :=
  a = b
  \/ (Js.isUpper a = true /\ nat_of_ascii b = nat_of_ascii a + 32)
  \/ (Js.isUpper b = true /\ nat_of_ascii a = nat_of_ascii b + 32).

Inductive equalIgnoringCase : string -> string -> Prop :=
| eic_empty : equalIgnoringCase EmptyString EmptyString
| eic_letter (a b : ascii) (u v : string) :
    sameLetter a b -> equalIgnoringCase u v ->
    equalIgnoringCase (String a u) (String b v).

(** [phrase] is a substring of [text], case aside. *)
Definition occursIgnoringCase (phrase text : string) : Prop :=
  exists pre mid post,
    text = (pre ++ mid ++ post)%string /\ equalIgnoringCase mid phrase.

Definition mentions (phrases : list string) (text : string) : Prop :=
  exists phrase, In phrase phrases /\ occursIgnoringCase phrase text.

(** First match in the order advance, repeat, finish; else a normal answer. *)
Inductive classified (text : string) : Command -> Prop :=
| classified_advance :
    mentions advancePhrases text -> classified text Advance
| classified_repeat :
    ~ mentions advancePhrases text -> mentions repeatPhrases text ->
    classified text Repeat
| classified_finish :
    ~ mentions advancePhrases text -> ~ mentions repeatPhrases text ->
    mentions finishPhrases text -> classified text Finish
| classified_normal :
    ~ mentions advancePhrases text -> ~ mentions repeatPhrases text ->
    ~ mentions finishPhrases text -> classified text NormalAnswer.

(** ** Notions the properties are stated with *)

(** The start of [processUserResponse], before the text is looked at. *)
Definition thinking (s : State) : State :=
  setTranscript EmptyString
    (setStatusMessage StatusThinking
       (setWaitingForResponse true (stopListening s))).

(** The command the tests of [processUserResponse] select. *)
Definition commandOf (userText : string) : Command :=
  let lowerText := Js.toLowerCase userText in
  if Js.includes lowerText "next question" || Js.includes lowerText "move on"
  then Advance
  else if Js.includes lowerText "repeat" || Js.includes lowerText "say that again"
  then Repeat
  else if Js.includes lowerText "complete" || Js.includes lowerText "finish"
          || Js.includes lowerText "done"
  then Finish
  else NormalAnswer.

(** Identifiers handed out so far are below the next one. *)
Definition freshIds {A : Type} (next : nat) (l : list (nat * A)) : bool :=
  forallb (fun p => fst p <? next) l.

Definition wellFormed (s : State) : bool :=
  freshIds (nextTimer (browser s)) (timers (browser s))
  && freshIds (nextFetch (browser s)) (fetches (browser s)).

(** The state after a timeout has been taken off the list. *)
Definition bump (s : State) : State :=
  setTimers (timers (browser s)) (S (nextTimer (browser s))) s.

(** The silence timer is pending: the ref holds a timeout of two seconds
    whose function is the silence callback. *)
Definition armed (s : State) : Prop :=
  exists id, silenceTimerRef (refs s) = Some id
             /\ lookup id (timers (browser s)) = Some (MkTimer 2000 CbSilence).

(** The state once request [q], sent from [s], has settled. *)
Definition settled (q : Request) (s : State) : State :=
  setFetches (fetches (browser s)) (S (nextFetch (browser s))) (logRequest q s).

(** How the browser ends an utterance that nothing pre-empts: it is spoken
    to its end, or playback fails before or after it began. *)
Inductive Playback : Type := PlayedToEnd | FailedBeforeStart | FailedWhileSpeaking.

Definition playback (p : Playback) : list Event :=
  match p with
  | PlayedToEnd => [UtteranceStart; UtteranceEnd]
  | FailedBeforeStart => [UtteranceError]
  | FailedWhileSpeaking => [UtteranceStart; UtteranceError]
  end.

(** A follow-up request failed: the promise rejected or the reply is not OK. *)
Definition failedFollowUp (o : Outcome) : bool :=
  match o with
  | Rejected => true
  | Responded ok _ => negb ok
  end.

(** The transcripts of the final results of one [onresult] event, and of a
    sequence of events, in the order they arrive. *)
Definition finalsOf (results : list (string * bool)) : list string :=
  map fst (filter snd results).

Definition finalFragments (events : list (list (string * bool))) : list string :=
  flat_map finalsOf events.

Definition concatenation (l : list string) : string :=
  fold_right append EmptyString l.

(** Every fragment followed by one space, concatenated. *)
Definition spaced (l : list string) : string :=
  concatenation (map (fun f => (f ++ " ")%string) l).

(** ** One thing at a time

    The notions for the sessions in which the recogniser delivers no result
    once [stop()] was called. *)

(** The recogniser is neither starting nor active. *)
Definition atRest (v : Recognition) : bool :=
  match v with RecInactive | RecStopping => true | RecStarting | RecActive => false end.

(** The timeouts only a component with a recogniser sets. *)
Definition forRecognition (t : Timer) : bool :=
  match callback t with CbRecognitionStart | CbSilence => true | _ => false end.

(** The ref holds timeout [id]. *)
Definition holdsTimer (ref : option nat) (id : nat) : bool :=
  match ref with Some i => i =? id | None => false end.

(** At most one of: a timeout, an utterance, a request.  A pending silence
    timeout is the one the ref holds; anything else pending means that the
    recogniser is at rest and the flag of the other side is off. *)
Definition oneAtATime (s : State) : bool :=
  let il := isListening (ui s) in
  let sp := isSpeaking (ui s) in
  let v := recognition (browser s) in
  match timers (browser s), utterances (browser s), fetches (browser s) with
  | [], [], [] => atRest v || negb sp
  | [(id, t)], [], [] =>
      match callback t with
      | CbSilence => negb sp && holdsTimer (silenceTimerRef (refs s)) id
      | _ => atRest v && negb sp && negb il
      end
  | [], [_], [] => atRest v && negb il
  | [], [], [_] => atRest v && negb il && negb sp
  | _, _, _ => false
  end.

(** The invariant of the orderly sessions: the two flags are not both on;
    without a recogniser nothing of capture is pending; and one thing at a
    time. *)
Definition oneThread (s : State) : bool :=
  negb (isListening (ui s) && isSpeaking (ui s))
  && (recognitionRef (refs s)
      || (match recognition (browser s) with RecInactive => true | _ => false end
          && negb (isListening (ui s))
          && forallb (fun p => negb (forRecognition (snd p))) (timers (browser s))))
  && oneAtATime s.

(** A result is delivered only while the recogniser is active. *)
Definition orderly (e : Event) (s : State) : Prop :=
  match e with
  | RecognitionResult _ => recognition (browser s) = RecActive
  | _ => True
  end.

(** The sessions in which every result arrives while the recogniser is
    active. *)
Inductive reachableOrderly (supported : bool) (qs : option (list string))
    : State -> Prop :=
| orderly_mount : reachableOrderly supported qs (mount supported qs)
| orderly_step (s : State) (e : Event) :
    reachableOrderly supported qs s -> orderly e s ->
    reachableOrderly supported qs (step (firstRender qs) e s).

(** ** A session used in the examples *)

Definition sampleQuestions : option (list string) :=
  Some ["Tell me about yourself."; "Why do you want this role?";
        "Do you have questions for us?"].

Definition sampleRender : Render.t := firstRender sampleQuestions.

(** The greeting and the first question are spoken, each after its delay,
    and capture starts. *)
Definition untilListening : list Event :=
  [Timeout 1;                              (* startInterview *)
   Timeout 2; UtteranceStart; UtteranceEnd;   (* the greeting *)
   Timeout 3;                              (* askQuestion(0) *)
   Timeout 4; UtteranceStart; UtteranceEnd;   (* the question *)
   Timeout 5;                              (* startContinuousListening *)
   Timeout 6; RecognitionStart].           (* recognition.start() *)

Definition listening : State :=
  run sampleRender untilListening (mount true sampleQuestions).

(** One fragment is recognised and two seconds of silence follow. *)
Definition says (text : string) : list Event :=
  [RecognitionResult [(text, true)]; Timeout 7].

(** A turn is being handled when the recogniser returns one more final result
    for audio it captured before [stop()].  The result arms the silence timer
    again, so a second turn starts while the first one is still running; the
    first turn ends by restarting capture, and the follow-up of the second is
    spoken into it.  The times, in ms after the first silence expiry, show an
    order of the timeouts that respects their delays. *)
Definition overlappingTurns : list Event :=
  untilListening
  ++ says "I worked on compilers"        (* 0: turn 1, stop(), save *)
  ++ [RecognitionResult [("for three years", true)];
                                         (* 50: timeout 8, due at 2050 *)
      RecognitionEnd;
      Settled 1 (Responded true (BodyObject None));
      Settled 2 (Responded true (BodyObject (Some "Interesting.")));
                                         (* 300: timeout 9, due at 400 *)
      Timeout 9; UtteranceStart;
      UtteranceEnd;                      (* 1400: timeout 10, due at 2900 *)
      Timeout 8;                         (* 2050: turn 2, save *)
      Timeout 10;                        (* 2900: timeout 11, due at 3200 *)
      Timeout 11; RecognitionStart;      (* 3250: turn 1 is capturing again *)
      Settled 3 (Responded true (BodyObject None));
      Settled 4 (Responded true (BodyObject (Some "Go on.")));
                                         (* 3500: timeout 12, due at 3600 *)
      Timeout 12; UtteranceStart].       (* 3650: follow-up of turn 2 *)

(** ** Further notions

    What the properties of the turns, of the sessions as a whole and of the
    two callers of the component are stated with. *)


(** The transcripts of the results of one [onresult] event that are not
    final. *)
Definition interimsOf (results : list (string * bool)) : list string :=
  map fst (filter (fun p => negb (snd p)) results).

Definition isSilence (cb : Callback) : bool :=
  match cb with CbSilence => true | _ => false end.

(** The pending timeouts whose function is the silence callback. *)
Definition silenceTimers (s : State) : list (nat * Timer) :=
  filter (fun p => isSilence (callback (snd p))) (timers (browser s)).

(** No silence timeout is pending, or one is: the one [silenceTimerRef]
    holds, set for two seconds. *)
Definition oneSilenceTimer (s : State) : Prop :=
  silenceTimers s = []
  \/ exists id, silenceTimerRef (refs s) = Some id
                /\ silenceTimers s = [(id, MkTimer 2000 CbSilence)].

(** *** The clock

    [setTimeout(f, d)], called at time [t], runs [f] at time [t + d].  The
    times are in milliseconds. *)

(** The identifiers of the timeouts set between [s] and [s']. *)
Definition timeoutsSet (s s' : State) : list nat :=
  seq (nextTimer (browser s)) (nextTimer (browser s') - nextTimer (browser s)).

(** [calls] gives, for the timeouts set since the clock started, the time of
    the call of [setTimeout]; a pending timeout of [calls] is due at that
    time plus its delay. *)
Definition dueAt (calls : list (nat * nat)) (p : nat * Timer) : option nat :=
  match lookup (fst p) calls with
  | Some t => Some (t + delay (snd p))
  | None => None
  end.

(** A pending timeout was due before [now]. *)
Definition overdue (now : nat) (calls : list (nat * nat)) (s : State) : bool :=
  existsb (fun p => match dueAt calls p with
                    | Some due => due <? now
                    | None => false
                    end)
          (timers (browser s)).

(** The event is the expiry of a timeout that is not due yet. *)
Definition early (now : nat) (calls : list (nat * nat)) (e : Event) (s : State)
    : bool :=
  match e with
  | Timeout id =>
      match lookup id (timers (browser s)) with
      | Some t =>
          match dueAt calls (id, t) with
          | Some due => now <? due
          | None => false
          end
      | None => false
      end
  | _ => false
  end.

(** A run whose events come with their times.  It is [None] when the times
    cannot be: they go back, a timeout expires before it is due, or
    something happens while a timeout that was due earlier is still
    pending. *)
Fixpoint runAt (r : Render.t) (events : list (nat * Event)) (now : nat)
    (s : State) (calls : list (nat * nat)) : option (State * list (nat * nat)) :=
  match events with
  | [] => Some (s, calls)
  | (t, e) :: rest =>
      if (t <? now) || overdue t calls s || early t calls e s then None
      else
        let s' := step r e s in
        runAt r rest t s' (calls ++ map (fun id => (id, t)) (timeoutsSet s s'))
  end.

(** The results of [events] with their times, as events. *)
Definition resultsAt (events : list (nat * list (string * bool)))
    : list (nat * Event) :=
  map (fun p => (fst p, RecognitionResult (snd p))) events.

(** The time of the latest event with a final result, [latest] being the one
    so far. *)
Fixpoint latestFinal (latest : option nat)
    (events : list (nat * list (string * bool))) : option nat :=
  match events with
  | [] => latest
  | (t, e) :: rest =>
      latestFinal (match finalsOf e with [] => latest | _ :: _ => Some t end) rest
  end.

(** The gaps are shorter than the silence window: the times do not go back,
    and every event arrives less than two seconds after the latest final
    result before it. *)
Fixpoint withinWindow (latest : option nat) (now : nat)
    (events : list (nat * list (string * bool))) : Prop :=
  match events with
  | [] => True
  | (t, e) :: rest =>
      now <= t
      /\ match latest with Some l => t < l + 2000 | None => True end
      /\ withinWindow (match finalsOf e with [] => latest | _ :: _ => Some t end)
           t rest
  end.

(** The invariant of the results that arrive on time, [first] being the
    first identifier of the run: the timeouts of [calls] are those set in
    the run, they are silence timeouts, and the one pending was set at the
    latest final result. *)
Definition onTime (first : nat) (latest : option nat) (calls : list (nat * nat))
    (s : State) : Prop :=
  recognition (browser s) = RecActive
  /\ wellFormed s = true
  /\ first <= nextTimer (browser s)
  /\ freshIds (nextTimer (browser s)) calls = true
  /\ (forall i t, In (i, t) calls -> first <= i)
  /\ (forall p, In p (timers (browser s)) -> first <= fst p ->
        isSilence (callback (snd p)) = true)
  /\ match latest with
     | None => silenceTimers s = []
     | Some l =>
         exists id, silenceTimerRef (refs s) = Some id
                    /\ silenceTimers s = [(id, MkTimer 2000 CbSilence)]
                    /\ lookup id calls = Some l
     end.

(** The test [generateAIResponse] makes on the reply to decide whether to
    move to the next question. *)
Definition movesOn (aiResponse : string) : bool :=
  Js.includes (Js.toLowerCase aiResponse) "next question"
  || Js.includes (Js.toLowerCase aiResponse) "let's move".

(** The continuations that restart capture. *)
Definition resumesCapture (k : OnComplete) : bool :=
  match k with
  | AfterQuestion | AfterRepeat | AfterFallback => true
  | AfterAIResponse aiResponse _ => negb (movesOn aiResponse)
  | _ => false
  end.

(** The delay after which they do. *)
Definition pause (k : OnComplete) : nat :=
  match k with AfterRepeat => 1000 | _ => 1500 end.

(** An utterance is played and capture starts again: the timeout of
    [speakAndWait], the playback, the timeout of the continuation, the one of
    [startContinuousListening], and [onstart]. *)
Definition spokenThenListening (t : nat) (p : Playback) : list Event :=
  [Timeout t] ++ playback p ++ [Timeout (S t); Timeout (S (S t)); RecognitionStart].

(** The transition line is played, [askQuestion] runs a second later, the
    question is played and capture starts again. *)
Definition nextQuestionThenListening (t : nat) (p1 p2 : Playback) : list Event :=
  Timeout t :: playback p1 ++ [Timeout (S t)] ++ spokenThenListening (S (S t)) p2.

(** A request that names the first question: [question] is [questions[0]]
    and [question_number] is 1. *)
Definition namesFirstQuestion (qs : list string) (q : Request) : Prop :=
  match q with
  | SubmitAnswer asked _ => asked = nth_error qs 0
  | GenerateAIResponse asked _ n total =>
      asked = nth_error qs 0 /\ n = 1 /\ total = length qs
  | CompleteInterview => True
  end.

(** Nothing is pending, nothing was said or sent, and capture is off. *)
Definition quiet (s : State) : bool :=
  match timers (browser s), utterances (browser s), fetches (browser s),
        recognition (browser s), requests (log s), conversationHistory (ui s) with
  | [], [], [], RecInactive, [], [] => negb (isListening (ui s))
  | _, _, _, _, _, _ => false
  end.

(** The timeouts and continuations of the opening: the greeting and a
    question, up to the call of [startContinuousListening]. *)
Definition opening (k : option OnComplete) : bool :=
  match k with Some AfterGreeting | Some AfterQuestion => true | _ => false end.

Definition opens (cb : Callback) : bool :=
  match cb with
  | CbStartInterview | CbAskQuestion _ | CbStartContinuousListening => true
  | CbSpeak _ k => opening k
  | _ => false
  end.

(** The states of a session in a browser without [SpeechRecognition]: no
    recogniser, no capture, nothing sent, and one timeout or utterance of the
    opening at most. *)
Definition mute (s : State) : bool :=
  negb (recognitionRef (refs s))
  && match recognition (browser s) with RecInactive => true | _ => false end
  && negb (isListening (ui s))
  && match requests (log s), fetches (browser s), silenceTimerRef (refs s) with
     | [], [], None => true
     | _, _, _ => false
     end
  && match timers (browser s), utterances (browser s) with
     | [], [] => true
     | [(_, t)], [] => opens (callback t)
     | [], [u] => opening (utteranceOnComplete u)
     | _, _ => false
     end.

(** Nothing is pending and the recogniser is at rest. *)
Definition stalled (s : State) : bool :=
  match timers (browser s), utterances (browser s), fetches (browser s) with
  | [], [], [] => atRest (recognition (browser s))
  | _, _, _ => false
  end.

(** Every result of the run arrives while the recogniser is active. *)
Fixpoint orderlyRun (r : Render.t) (events : list Event) (s : State) : Prop :=
  match events with
  | [] => True
  | e :: rest => orderly e s /\ orderlyRun r rest (step r e s)
  end.

(** ** The setup screen

    The component [InterviewSetup] (components/interviewSetup.jsx): the
    choice of a mode, the check of the resume file and the two requests that
    start an interview. *)

Module InterviewSetup.

(** The values given to [setMode]. *)
Inductive Mode : Type := ModeResume | ModeCustom | ModeDefault.

(** A file of the file input; the component reads its name. *)
Record File : Type := MkFile { name : string }.

(** The [useState] cells. *)
Record State : Type := MkState {
  mode : option Mode;
  role : string;
  resume : option File;
  loading : bool;
  error : string
}.

Definition initialState : State := MkState None EmptyString None false EmptyString.

Definition setMode (m : Mode) (s : State) : State :=
  MkState (Some m) (role s) (resume s) (loading s) (error s).
Definition setRole (x : string) (s : State) : State :=
  MkState (mode s) x (resume s) (loading s) (error s).
Definition setResume (f : File) (s : State) : State :=
  MkState (mode s) (role s) (Some f) (loading s) (error s).
Definition setLoading (b : bool) (s : State) : State :=
  MkState (mode s) (role s) (resume s) b (error s).
Definition setError (e : string) (s : State) : State :=
  MkState (mode s) (role s) (resume s) (loading s) e.

(** [files] is [e.target.files]. *)
Definition handleResumeUpload (files : list File) (s : State) : State :=
  match files with
  | [] => s
  | file :: _ =>
      if negb (Js.endsWith (name file) ".pdf")
         && negb (Js.endsWith (name file) ".txt")
      then setError "Please upload a PDF or TXT file" s
      else setError EmptyString (setResume file s)
  end.

(** The [disabled] attribute of the start button. *)
Definition disabled (s : State) : bool :=
  match mode s with
  | None => true
  | Some ModeResume => match resume s with None => true | Some _ => false end
  | Some ModeCustom => negb (Js.truthy (Js.trim (role s)))
  | Some ModeDefault => false
  end.

(** A value that may be [null] or [undefined]. *)
Inductive Nullable (A : Type) : Type :=
| IsNull
| IsUndefined
| Is (a : A).
Arguments IsNull {A}.
Arguments IsUndefined {A}.
Arguments Is {A} a.

(** The two requests; the second with the fields of [startData]. *)
Inductive Request : Type :=
| UploadResume (file : File)
| StartInterview (mode : Mode) (role : option string) (resume_text : Nullable string).

(** The body of a reply as [response.json()] gives it: not JSON (the promise
    rejects with an error of that message), [null], or an object. *)
Inductive Parsed (A : Type) : Type :=
| NotJson (message : string)
| JsonNull
| JsonObject (a : A).
Arguments NotJson {A} message.
Arguments JsonNull {A}.
Arguments JsonObject {A} a.

(** How a [fetch] settles: the promise rejects with an error of that message,
    or a reply arrives. *)
Inductive Settles (A : Type) : Type :=
| Rejects (message : string)
| Responds (ok : bool) (body : Parsed A).
Arguments Rejects {A} message.
Arguments Responds {A} ok body.

(** The fields read of the two replies; a missing field is [undefined]. *)
Record UploadData : Type := MkUploadData {
  upload_questions : option (list string);
  resume_text : option string
}.

Record StartData : Type := MkStartData {
  interview_id : option nat;
  start_questions : option (list string)
}.

(** The argument of [onStart]. *)
Record InterviewData : Type := MkInterviewData {
  interviewId : option nat;
  questions : option (list string)
}.

(** What a call of [startInterview] leaves: the state, the requests it sent
    and the argument it called [onStart] with, if it did. *)
Record Result : Type := MkResult {
  final : State;
  sent : list Request;
  started : option InterviewData
}.

Section StartInterview.

(** The message of the [TypeError] raised by reading a field of [null]. *)
Variable typeError : string.

(** [catch (err) { setError(err.message) } finally { setLoading(false) }] *)
Definition failed (message : string) (sent : list Request) (s : State) : Result :=
  MkResult (setLoading false (setError message s)) sent None.

(** From [const startData] on. *)
Definition start (resumeText : Nullable string) (sent : list Request)
    (startReply : Settles StartData) (s : State) : Result :=
  let startData :=
    StartInterview
      (match mode s with Some m => m | None => ModeDefault end)
      (match mode s with Some ModeCustom => Some (role s) | _ => None end)
      resumeText in
  let sent' := sent ++ [startData] in
  match startReply with
  | Rejects message => failed message sent' s
  | Responds false _ => failed "Failed to start interview" sent' s
  | Responds true (NotJson message) => failed message sent' s
  | Responds true JsonNull => failed typeError sent' s
  | Responds true (JsonObject data) =>
      MkResult (setLoading false s) sent'
        (Some (MkInterviewData (interview_id data) (start_questions data)))
  end.

(** [uploadReply] and [startReply] are how the two requests settle, should
    they be sent.  While they are awaited the component shows its spinner
    and no control of it can be used. *)
Definition startInterview (uploadReply : Settles UploadData)
    (startReply : Settles StartData) (s : State) : Result :=
  let s1 := setError EmptyString (setLoading true s) in
  match mode s1 with
  | Some ModeResume =>
      match resume s1 with
      | None =>
          MkResult
            (setLoading false (setLoading false (setError "Please upload a resume" s1)))
            [] None
      | Some file =>
          let sent := [UploadResume file] in
          match uploadReply with
          | Rejects message => failed message sent s1
          | Responds false _ => failed "Failed to upload resume" sent s1
          | Responds true (NotJson message) => failed message sent s1
          | Responds true JsonNull => failed typeError sent s1
          | Responds true (JsonObject uploadData) =>
              start (match resume_text uploadData with
                     | Some text => Is text
                     | None => IsUndefined
                     end) sent startReply s1
          end
      end
  | _ => start IsNull [] startReply s1
  end.

End StartInterview.

End InterviewSetup.

(** ** The shell

    The component [App]: the token, the view and the data of the interview
    that was started. *)

Module App.

Record State : Type := MkState {
  token : option string;
  currentView : string;
  interviewData : option InterviewSetup.InterviewData;
  localStorage : option string            (* the item 'token' *)
}.

(** The state of a page that was just loaded. *)
Definition initialState (stored : option string) : State :=
  MkState None "login" None stored.

Definition setToken (t : option string) (s : State) : State :=
  MkState t (currentView s) (interviewData s) (localStorage s).
Definition setCurrentView (v : string) (s : State) : State :=
  MkState (token s) v (interviewData s) (localStorage s).
Definition setInterviewData (d : option InterviewSetup.InterviewData) (s : State)
    : State :=
  MkState (token s) (currentView s) d (localStorage s).
Definition setItem (t : string) (s : State) : State :=
  MkState (token s) (currentView s) (interviewData s) (Some t).
Definition removeItem (s : State) : State :=
  MkState (token s) (currentView s) (interviewData s) None.

(** Truthiness of a value that is a string or [null]. *)
Definition truthy (t : option string) : bool :=
  match t with Some x => Js.truthy x | None => false end.

(** The effect of the first render. *)
Definition mount (s : State) : State :=
  let savedToken := localStorage s in
  if truthy savedToken then setCurrentView "home" (setToken savedToken s) else s.

Definition handleSetToken (newToken : option string) (s : State) : State :=
  let s1 := setToken newToken s in
  match newToken with
  | Some t => if Js.truthy t then setItem t s1 else s1
  | None => s1
  end.

Definition logout (s : State) : State :=
  setInterviewData None (setCurrentView "login" (setToken None (removeItem s))).

Definition handleStartInterview (data : InterviewSetup.InterviewData) (s : State)
    : State :=
  setCurrentView "interview" (setInterviewData (Some data) s).

(** The Home button of the navigation bar. *)
Definition home (s : State) : State :=
  setInterviewData None (setCurrentView "home" s).

(** What [App] renders below the navigation bar, or instead of it. *)
Inductive Screen : Type :=
| ShowLogin
| ShowHome
| ShowSetup
| ShowInterview (data : InterviewSetup.InterviewData)
| ShowHistory
| ShowNothing.

Definition screen (s : State) : Screen :=
  if negb (truthy (token s)) || String.eqb (currentView s) "login" then ShowLogin
  else if String.eqb (currentView s) "home" then ShowHome
  else if String.eqb (currentView s) "setup" then ShowSetup
  else if String.eqb (currentView s) "interview" then
    match interviewData s with
    | Some data => ShowInterview data
    | None => ShowNothing
    end
  else if String.eqb (currentView s) "history" then ShowHistory
  else ShowNothing.

End App.

(** * Properties *)

(** ** Strings *)

Module JsFacts.
Import Js.

Lemma append_assoc (a b c : string) : ((a ++ b) ++ c = a ++ (b ++ c))%string.
Proof. induction a as [|x a IH]; simpl; [reflexivity | now rewrite IH]. Qed.

Lemma append_empty_r (a : string) : (a ++ EmptyString)%string = a.
Proof. induction a as [|x a IH]; simpl; [reflexivity | now rewrite IH]. Qed.

Lemma startsWith_spec (s sub : string) :
  startsWith s sub = true <-> exists post, s = (sub ++ post)%string.
Proof.
  revert s; induction sub as [|a sub IH]; intros s; simpl.
  - split; [intros _; now exists s | intros _; destruct s; reflexivity].
  - destruct s as [|b s].
    + split; [discriminate | intros [post H]; discriminate].
    + simpl. rewrite andb_true_iff, Ascii.eqb_eq, IH. split.
      * intros [-> [post ->]]. now exists post.
      * intros [post H]. injection H as -> ->. split; [reflexivity | now exists post].
Qed.

Lemma includes_spec (s sub : string) :
  includes s sub = true <-> exists pre post, s = (pre ++ sub ++ post)%string.
Proof.
  induction s as [|b s IH].
  - cbn [includes]. rewrite orb_false_r, startsWith_spec. split.
    + intros [post H]. now exists EmptyString, post.
    + intros [pre [post H]]. destruct pre; [now exists post | discriminate].
  - cbn [includes]. rewrite orb_true_iff, startsWith_spec, IH. split.
    + intros [[post H] | [pre [post H]]].
      * now exists EmptyString, post.
      * exists (String b pre), post. simpl. now rewrite H.
    + intros [pre [post H]]. destruct pre as [|c pre].
      * left. now exists post.
      * right. simpl in H. injection H as _ H. now exists pre, post.
Qed.

Lemma toLowerCase_append (a b : string) :
  toLowerCase (a ++ b) = (toLowerCase a ++ toLowerCase b)%string.
Proof. induction a as [|x a IH]; simpl; [reflexivity | now rewrite IH]. Qed.

Lemma toLowerCase_split (t a b : string) :
  toLowerCase t = (a ++ b)%string ->
  exists t1 t2, t = (t1 ++ t2)%string /\ toLowerCase t1 = a /\ toLowerCase t2 = b.
Proof.
  revert t; induction a as [|x a IH]; intros t H; simpl in H.
  - now exists EmptyString, t.
  - destruct t as [|c t]; [discriminate|]. simpl in H. injection H as Hc H.
    destruct (IH _ H) as [t1 [t2 [-> [H1 H2]]]].
    exists (String c t1), t2. simpl. now rewrite Hc, H1.
Qed.

Lemma isUpper_range (c : ascii) :
  isUpper c = true <-> 65 <= nat_of_ascii c <= 90.
Proof.
  unfold isUpper. cbv zeta.
  rewrite andb_true_iff, !Nat.leb_le. reflexivity.
Qed.

Lemma nat_of_lower (c : ascii) :
  isUpper c = true -> nat_of_ascii (toLowerCaseChar c) = nat_of_ascii c + 32.
Proof.
  intros H. unfold toLowerCaseChar. rewrite H.
  apply nat_ascii_embedding. apply isUpper_range in H. lia.
Qed.

Lemma lower_not_upper (c : ascii) : isUpper c = false -> toLowerCaseChar c = c.
Proof. intros H. unfold toLowerCaseChar. now rewrite H. Qed.

Lemma nat_of_ascii_inj (a b : ascii) : nat_of_ascii a = nat_of_ascii b -> a = b.
Proof.
  intros H. rewrite <- (ascii_nat_embedding a), <- (ascii_nat_embedding b).
  now rewrite H.
Qed.

End JsFacts.

(** ** Substring tests up to case *)

Section Classification.
Import Js JsFacts.

Lemma sameLetter_lower (a b : ascii) :
  toLowerCaseChar a = toLowerCaseChar b <-> sameLetter a b.
Proof.
  unfold sameLetter.
  destruct (isUpper a) eqn:Ha, (isUpper b) eqn:Hb.
  - pose proof (nat_of_lower a Ha) as Ea. pose proof (nat_of_lower b Hb) as Eb.
    apply isUpper_range in Ha, Hb. split.
    + intros H. left. apply nat_of_ascii_inj. rewrite H in Ea. lia.
    + intros [-> | [[_ H] | [_ H]]]; [reflexivity | lia | lia].
  - pose proof (nat_of_lower a Ha) as Ea. rewrite (lower_not_upper b Hb).
    split.
    + intros H. right. left. split; [reflexivity|]. now rewrite <- H.
    + intros [-> | [[_ H] | [H _]]]; [congruence | | discriminate].
      apply nat_of_ascii_inj. lia.
  - pose proof (nat_of_lower b Hb) as Eb. rewrite (lower_not_upper a Ha).
    split.
    + intros H. right. right. split; [reflexivity|]. now rewrite H.
    + intros [-> | [[H _] | [_ H]]]; [congruence | discriminate |].
      apply nat_of_ascii_inj. lia.
  - rewrite (lower_not_upper a Ha), (lower_not_upper b Hb). split.
    + now left.
    + intros [H | [[H _] | [H _]]]; [assumption | discriminate | discriminate].
Qed.

Lemma equalIgnoringCase_lower (u v : string) :
  toLowerCase u = toLowerCase v <-> equalIgnoringCase u v.
Proof.
  split.
  - revert v; induction u as [|a u IH]; intros [|b v] H; simpl in H;
      try discriminate; [constructor|].
    injection H as Hc H. constructor; [now apply sameLetter_lower | now apply IH].
  - induction 1 as [|a b u v Hab _ IH]; simpl; [reflexivity|].
    apply sameLetter_lower in Hab. now rewrite Hab, IH.
Qed.

(** The test of the code, [lowerText.includes(phrase)], is the substring test
    up to case whenever [phrase] is written in small letters. *)
Lemma includes_toLowerCase (phrase text : string) :
  toLowerCase phrase = phrase ->
  (includes (toLowerCase text) phrase = true <-> occursIgnoringCase phrase text).
Proof.
  intros Hp. rewrite includes_spec. unfold occursIgnoringCase. split.
  - intros [pre [post H]].
    apply toLowerCase_split in H. destruct H as [t1 [t2 [-> [H1 H2]]]].
    apply toLowerCase_split in H2. destruct H2 as [t3 [t4 [-> [H3 H4]]]].
    exists t1, t3, t4. split; [reflexivity|].
    apply equalIgnoringCase_lower. congruence.
  - intros [pre [mid [post [-> H]]]].
    apply equalIgnoringCase_lower in H. rewrite Hp in H.
    exists (toLowerCase pre), (toLowerCase post).
    now rewrite !toLowerCase_append, H.
Qed.

Lemma mentions_advance (text : string) :
  includes (toLowerCase text) "next question"
  || includes (toLowerCase text) "move on" = true
  <-> mentions advancePhrases text.
Proof.
  rewrite orb_true_iff, !includes_toLowerCase by reflexivity.
  unfold mentions, advancePhrases. simpl. split.
  - intros [H | H]; eauto.
  - intros [p [[<- | [<- | []]] H]]; auto.
Qed.

Lemma mentions_repeat (text : string) :
  includes (toLowerCase text) "repeat"
  || includes (toLowerCase text) "say that again" = true
  <-> mentions repeatPhrases text.
Proof.
  rewrite orb_true_iff, !includes_toLowerCase by reflexivity.
  unfold mentions, repeatPhrases. simpl. split.
  - intros [H | H]; eauto.
  - intros [p [[<- | [<- | []]] H]]; auto.
Qed.

Lemma mentions_finish (text : string) :
  includes (toLowerCase text) "complete" || includes (toLowerCase text) "finish"
  || includes (toLowerCase text) "done" = true
  <-> mentions finishPhrases text.
Proof.
  rewrite !orb_true_iff, !includes_toLowerCase by reflexivity.
  unfold mentions, finishPhrases. simpl. split.
  - intros [[H | H] | H]; eauto 6.
  - intros [p [[<- | [<- | [<- | []]]] H]]; auto.
Qed.

End Classification.

(** ** Identifiers of timeouts and requests *)

Lemma lookup_fresh {A : Type} (next : nat) (l : list (nat * A)) (a : A) :
  freshIds next l = true -> lookup next (l ++ [(next, a)]) = Some a.
Proof.
  induction l as [|[i x] l IH]; simpl.
  - now rewrite Nat.eqb_refl.
  - rewrite andb_true_iff, Nat.ltb_lt. intros [Hi Hl].
    destruct (Nat.eqb_spec i next); [lia | now apply IH].
Qed.

Lemma discard_fresh {A : Type} (next : nat) (l : list (nat * A)) (a : A) :
  freshIds next l = true -> discard next (l ++ [(next, a)]) = l.
Proof.
  unfold discard. induction l as [|[i x] l IH]; simpl.
  - now rewrite Nat.eqb_refl.
  - rewrite andb_true_iff, Nat.ltb_lt. intros [Hi Hl].
    destruct (Nat.eqb_spec i next); [lia | simpl; now rewrite IH].
Qed.

Lemma freshIds_S {A : Type} (n : nat) (l : list (nat * A)) :
  freshIds n l = true -> freshIds (S n) l = true.
Proof.
  unfold freshIds. rewrite !forallb_forall. intros H x Hx.
  specialize (H x Hx). apply Nat.ltb_lt in H. apply Nat.ltb_lt. lia.
Qed.

Lemma freshIds_discard {A : Type} (n id : nat) (l : list (nat * A)) :
  freshIds n l = true -> freshIds n (discard id l) = true.
Proof.
  unfold freshIds, discard. rewrite !forallb_forall. intros H x Hx.
  apply filter_In in Hx. now apply H.
Qed.

Lemma freshIds_app {A : Type} (n : nat) (l : list (nat * A)) (a : A) :
  freshIds n l = true -> freshIds (S n) (l ++ [(n, a)]) = true.
Proof.
  intros H. unfold freshIds. rewrite forallb_app.
  apply andb_true_intro. split.
  - now apply freshIds_S.
  - cbn [forallb fst]. rewrite andb_true_r. apply Nat.ltb_lt. lia.
Qed.

Lemma lookup_discard {A : Type} (id : nat) (l : list (nat * A)) :
  lookup id (discard id l) = None.
Proof.
  unfold discard. induction l as [|[i a] l IH]; simpl; [reflexivity|].
  destruct (Nat.eqb_spec i id); simpl; [exact IH|].
  destruct (Nat.eqb_spec i id); [contradiction | exact IH].
Qed.

Lemma wellFormed_fetches (s : State) :
  wellFormed s = true ->
  freshIds (nextFetch (browser s)) (fetches (browser s)) = true.
Proof. unfold wellFormed. now rewrite andb_true_iff. Qed.

Lemma wellFormed_timers (s : State) :
  wellFormed s = true ->
  freshIds (nextTimer (browser s)) (timers (browser s)) = true.
Proof. unfold wellFormed. now rewrite andb_true_iff. Qed.

Section WellFormed.

Lemma wf_withUi (f : Ui -> Ui) (s : State) :
  wellFormed s = true -> wellFormed (withUi f s) = true.
Proof. exact (fun H => H). Qed.

Lemma wf_withRefs (f : Refs -> Refs) (s : State) :
  wellFormed s = true -> wellFormed (withRefs f s) = true.
Proof. exact (fun H => H). Qed.

Lemma wf_withLog (f : Log -> Log) (s : State) :
  wellFormed s = true -> wellFormed (withLog f s) = true.
Proof. exact (fun H => H). Qed.

Lemma wf_setMounted (b : bool) (s : State) :
  wellFormed s = true -> wellFormed (setMounted b s) = true.
Proof. exact (fun H => H). Qed.

Lemma wf_setRecognition (v : Recognition) (s : State) :
  wellFormed s = true -> wellFormed (setRecognition v s) = true.
Proof. exact (fun H => H). Qed.

Lemma wf_setUtterances (us : list Utterance) (sp : bool) (s : State) :
  wellFormed s = true -> wellFormed (setUtterances us sp s) = true.
Proof. exact (fun H => H). Qed.

Lemma wf_setTimeout (d : nat) (cb : Callback) (s : State) :
  wellFormed s = true -> wellFormed (setTimeout d cb s) = true.
Proof.
  intros H. pose proof (wellFormed_timers _ H) as Ht.
  pose proof (wellFormed_fetches _ H) as Hf.
  unfold wellFormed, setTimeout. cbn -[freshIds].
  now rewrite Hf, (freshIds_app _ _ _ Ht).
Qed.

Lemma wf_clearTimeout (id : nat) (s : State) :
  wellFormed s = true -> wellFormed (clearTimeout id s) = true.
Proof.
  intros H. pose proof (wellFormed_timers _ H) as Ht.
  pose proof (wellFormed_fetches _ H) as Hf.
  unfold wellFormed, clearTimeout. cbn -[freshIds].
  now rewrite Hf, (freshIds_discard _ id _ Ht).
Qed.

Lemma wf_fetch (q : Request) (k : Await) (s : State) :
  wellFormed s = true -> wellFormed (fetch q k s) = true.
Proof.
  intros H. pose proof (wellFormed_timers _ H) as Ht.
  pose proof (wellFormed_fetches _ H) as Hf.
  unfold wellFormed, fetch. cbn -[freshIds].
  now rewrite Ht, (freshIds_app _ _ _ Hf).
Qed.

Lemma wf_settle (id : nat) (s : State) :
  wellFormed s = true ->
  wellFormed (setFetches (discard id (fetches (browser s)))
                (nextFetch (browser s)) s) = true.
Proof.
  intros H. pose proof (wellFormed_timers _ H) as Ht.
  pose proof (wellFormed_fetches _ H) as Hf.
  unfold wellFormed. cbn -[freshIds].
  now rewrite Ht, (freshIds_discard _ id _ Hf).
Qed.

Ltac wf :=
  repeat first
    [ assumption
    | apply wf_setTimeout | apply wf_clearTimeout | apply wf_fetch
    | apply wf_settle
    | apply wf_withUi | apply wf_withRefs | apply wf_withLog
    | apply wf_setMounted | apply wf_setRecognition | apply wf_setUtterances
    | match goal with
      | |- context [match ?x with _ => _ end] =>
          lazymatch x with
          | context [match _ with _ => _ end] => fail
          | _ => destruct x; cbv beta iota
          end
      end ].

Ltac unfold_component :=
  unfold fire, resume, resumeSave, resumeGenerate, resumeComplete,
    generateFallback, silenceExpired, processUserResponse, handleNextQuestion,
    completeInterview, saveCurrentAnswer, generateAIResponse, stopListening,
    startContinuousListening, askQuestion, startInterview, unmount,
    cleanupSpeech, callOnComplete, onComplete, onresult, onstart, onerror,
    onend, orAbort, speakAndWait, recognitionStart, recognitionStop,
    synthCancel, synthSpeak, bufferedAnswer, alert, logRequest, logView,
    logCompleted, setCurrentQuestion, setIsListening, setTranscript,
    setIsSpeaking, setLoading, setStatusMessage, appendConversationHistory,
    setWaitingForResponse, setRecognitionRef, setSilenceTimerRef,
    setFinalTranscriptBuffer.

Lemma wf_step (r : Render.t) (e : Event) (s : State) :
  wellFormed s = true -> wellFormed (step r e s) = true.
Proof.
  intros H. destruct e; unfold step; unfold_component; cbv zeta; wf.
Qed.

Lemma wf_mount (supported : bool) (qs : option (list string)) :
  wellFormed (mount supported qs) = true.
Proof.
  unfold mount, initializeSpeechRecognition, initialState.
  destruct qs as [l|], supported; cbn -[Nat.ltb freshIds];
    try destruct (0 <? length l); reflexivity.
Qed.

(** In every state of a session the next identifiers are fresh. *)
Lemma reachable_wellFormed
    (supported : bool) (qs : option (list string)) (s : State) :
  reachable supported qs s -> wellFormed s = true.
Proof.
  induction 1 as [|s e _ IH]; [apply wf_mount | now apply wf_step].
Qed.

End WellFormed.

(** ** One event at a time *)

Lemma run_app (r : Render.t) (es fs : list Event) (s : State) :
  run r (es ++ fs) s = run r fs (run r es s).
Proof. unfold run. apply fold_left_app. Qed.

Lemma reachable_run (supported : bool) (qs : option (list string))
    (es : list Event) (s : State) :
  reachable supported qs s -> reachable supported qs (run (firstRender qs) es s).
Proof.
  revert s; induction es as [|e es IH]; intros s H; simpl; [exact H|].
  apply IH. now apply reachable_step.
Qed.

Lemma step_Settled (r : Render.t) (s : State) (id : nat) (k : Await) (o : Outcome) :
  lookup id (fetches (browser s)) = Some k ->
  step r (Settled id o) s
  = resume r k o
      (setFetches (discard id (fetches (browser s))) (nextFetch (browser s)) s).
Proof. intros H. unfold step. now rewrite H. Qed.

Lemma step_Timeout (r : Render.t) (s : State) (id : nat) (t : Timer) :
  lookup id (timers (browser s)) = Some t ->
  step r (Timeout id) s = fire r (callback t) (clearTimeout id s).
Proof. intros H. unfold step. now rewrite H. Qed.

(** The timeout set last expires. *)
Lemma step_Timeout_fresh
    (r : Render.t) (s : State) (d : nat) (cb : Callback) (id : nat) :
  id = nextTimer (browser s) ->
  freshIds id (timers (browser s)) = true ->
  step r (Timeout id) (setTimeout d cb s) = fire r cb (bump s).
Proof.
  intros -> H. unfold step, setTimeout. cbn -[lookup discard].
  rewrite (lookup_fresh _ _ _ H). unfold clearTimeout. cbn -[lookup discard].
  rewrite (discard_fresh _ _ _ H). reflexivity.
Qed.

Lemma step_Settled_fresh
    (r : Render.t) (s : State) (q : Request) (k : Await) (o : Outcome) (id : nat) :
  id = nextFetch (browser s) ->
  freshIds id (fetches (browser s)) = true ->
  step r (Settled id o) (fetch q k s) = resume r k o (settled q s).
Proof.
  intros -> H. unfold step, fetch. cbn -[lookup discard].
  rewrite (lookup_fresh _ _ _ H), (discard_fresh _ _ _ H). reflexivity.
Qed.

(** The utterance at the head of the queue, not begun yet, is played. *)
Lemma run_playback
    (r : Render.t) (p : Playback) (s : State) (u : Utterance)
    (us : list Utterance) :
  utterances (browser s) = u :: us ->
  speaking (browser s) = false ->
  run r (playback p) s
  = callOnComplete (utteranceOnComplete u)
      (setIsSpeaking false (setUtterances us false s)).
Proof.
  intros Hu Hs. destruct s as [ui0 rf [rec q sp ts nt fs nf] lg m].
  cbn in Hu, Hs. subst q sp. destruct p; reflexivity.
Qed.

Lemma step_RecognitionStart (r : Render.t) (s : State) :
  recognition (browser s) = RecStarting ->
  step r RecognitionStart s = onstart (setRecognition RecActive s).
Proof. intros H. unfold step. now rewrite H. Qed.

(** [onend] leaves everything but the recogniser and [isListening]. *)
Lemma RecognitionEnd_keeps (r : Render.t) (s : State) :
  let s' := step r RecognitionEnd s in
  recognition (browser s') = RecInactive
  /\ timers (browser s') = timers (browser s)
  /\ nextTimer (browser s') = nextTimer (browser s)
  /\ fetches (browser s') = fetches (browser s)
  /\ nextFetch (browser s') = nextFetch (browser s)
  /\ refs s' = refs s
  /\ log s' = log s.
Proof.
  cbv zeta. unfold step.
  destruct (recognition (browser s)) eqn:E; cbn; rewrite ?E; repeat split; reflexivity.
Qed.


(** ** What the functions of the component change *)

Lemma stopListening_fetches (s : State) :
  fetches (browser (stopListening s)) = fetches (browser s)
  /\ nextFetch (browser (stopListening s)) = nextFetch (browser s)
  /\ log (stopListening s) = log s.
Proof.
  unfold stopListening.
  destruct (silenceTimerRef (refs s)); cbn;
    destruct (recognitionRef (refs s)); cbn; unfold recognitionStop; cbn;
    destruct (recognition (browser s)); cbn; auto.
Qed.

Lemma stopListening_log (s : State) : log (stopListening s) = log s.
Proof. apply stopListening_fetches. Qed.

(** [stopListening] touches the silence timer, the recogniser and
    [isListening], nothing else. *)
Lemma stopListening_keeps (s : State) :
  log (stopListening s) = log s
  /\ fetches (browser (stopListening s)) = fetches (browser s)
  /\ nextFetch (browser (stopListening s)) = nextFetch (browser s)
  /\ utterances (browser (stopListening s)) = utterances (browser s)
  /\ loading (ui (stopListening s)) = loading (ui s)
  /\ statusMessage (ui (stopListening s)) = statusMessage (ui s)
  /\ conversationHistory (ui (stopListening s)) = conversationHistory (ui s)
  /\ mounted (stopListening s) = mounted s.
Proof.
  unfold stopListening.
  destruct (silenceTimerRef (refs s)); cbn;
    destruct (recognitionRef (refs s)); cbn; unfold recognitionStop; cbn;
    destruct (recognition (browser s)); cbn; repeat split; reflexivity.
Qed.

Lemma stopListening_not_listening (s : State) :
  recognitionRef (refs s) = true -> isListening (ui (stopListening s)) = false.
Proof.
  intros H. unfold stopListening.
  destruct (silenceTimerRef (refs s)); cbn; rewrite H; reflexivity.
Qed.

Lemma stopListening_history (t : Turn) (s : State) :
  stopListening (appendConversationHistory t s)
  = appendConversationHistory t (stopListening s).
Proof.
  unfold stopListening. cbn.
  destruct (silenceTimerRef (refs s)); cbn;
    destruct (recognitionRef (refs s)); cbn; try reflexivity;
    unfold recognitionStop; cbn; destruct (recognition (browser s)); reflexivity.
Qed.

Lemma thinking_fetches (s : State) :
  fetches (browser (thinking s)) = fetches (browser s)
  /\ nextFetch (browser (thinking s)) = nextFetch (browser s)
  /\ log (thinking s) = log s.
Proof. unfold thinking. cbn. apply stopListening_fetches. Qed.

Lemma history_append (t : Turn) (s : State) :
  conversationHistory (ui (appendConversationHistory t s))
  = conversationHistory (ui s) ++ [t].
Proof. reflexivity. Qed.

Lemma completeInterview_history (t : Turn) (s : State) :
  completeInterview (appendConversationHistory t s)
  = appendConversationHistory t (completeInterview s).
Proof.
  unfold completeInterview. cbv zeta.
  change (setLoading true (appendConversationHistory t s))
    with (appendConversationHistory t (setLoading true s)).
  now rewrite stopListening_history.
Qed.

Lemma completeInterview_sends (s : State) :
  requests (log (completeInterview s)) = requests (log s) ++ [CompleteInterview]
  /\ alerts (log (completeInterview s)) = alerts (log s)
  /\ fetches (browser (completeInterview s))
     = fetches (browser s) ++ [(nextFetch (browser s), AwaitComplete)]
  /\ loading (ui (completeInterview s)) = true
  /\ statusMessage (ui (completeInterview s)) = StatusAnalyzing
  /\ conversationHistory (ui (completeInterview s)) = conversationHistory (ui s).
Proof.
  unfold completeInterview. cbv zeta.
  destruct (stopListening_keeps (setLoading true s))
    as [Hl [Hf [Hn [_ [Hld [_ [Hh _]]]]]]].
  unfold fetch. cbn -[stopListening]. rewrite Hl, Hf, Hn, Hld, Hh.
  repeat split; reflexivity.
Qed.

Lemma startContinuousListening_inactive (r : Render.t) (s : State) :
  recognitionRef (refs s) = true ->
  recognition (browser s) = RecInactive ->
  startContinuousListening r s
  = setTimeout 300 CbRecognitionStart (setStatusMessage StatusImListening s).
Proof.
  intros Href Hrec. unfold startContinuousListening. cbn.
  rewrite Href. destruct (Render.isListening r); [|reflexivity].
  unfold recognitionStop. cbn. now rewrite Hrec.
Qed.

Lemma recognitionStart_inactive (s : State) :
  recognition (browser s) = RecInactive ->
  recognitionStart s = Some (setRecognition RecStarting s).
Proof. intros H. unfold recognitionStart. now rewrite H. Qed.


(** ** Checking an instance by computation *)

Ltac computed := vm_compute; reflexivity.

(** Close [b = v] with [H : a = v], where [a] and [b] compute to the same
    value. *)
Ltac by_value H :=
  match type of H with
  | ?a = ?v =>
      match goal with
      | |- ?b = _ => apply (eq_trans (y := a)); [computed | exact H]
      end
  end.

(** ** Classification of a buffered answer *)

Section ClassificationOfAnswers.
Import Js.

Lemma classified_commandOf (text : string) : classified text (commandOf text).
Proof.
  unfold commandOf. cbv zeta.
  destruct (includes (toLowerCase text) "next question"
            || includes (toLowerCase text) "move on") eqn:Ha.
  { apply classified_advance, mentions_advance, Ha. }
  assert (Na : ~ mentions advancePhrases text)
    by (rewrite <- mentions_advance, Ha; discriminate).
  destruct (includes (toLowerCase text) "repeat"
            || includes (toLowerCase text) "say that again") eqn:Hr.
  { apply classified_repeat; [exact Na | apply mentions_repeat, Hr]. }
  assert (Nr : ~ mentions repeatPhrases text)
    by (rewrite <- mentions_repeat, Hr; discriminate).
  destruct (includes (toLowerCase text) "complete"
            || includes (toLowerCase text) "finish"
            || includes (toLowerCase text) "done") eqn:Hf.
  { apply classified_finish; [exact Na | exact Nr | apply mentions_finish, Hf]. }
  apply classified_normal; [exact Na | exact Nr |].
  rewrite <- mentions_finish, Hf; discriminate.
Qed.

Lemma classified_unique (text : string) (c d : Command) :
  classified text c -> classified text d -> c = d.
Proof. intros Hc Hd. destruct Hc; destruct Hd; try reflexivity; contradiction. Qed.

Lemma classified_iff (text : string) (c : Command) :
  classified text c <-> commandOf text = c.
Proof.
  split.
  - intros H. exact (classified_unique _ _ _ (classified_commandOf text) H).
  - intros <-. apply classified_commandOf.
Qed.

(** [processUserResponse] does what the command it selects asks for. *)
Lemma processUserResponse_commandOf (r : Render.t) (text : string) (s : State) :
  processUserResponse r text s =
    match commandOf text with
    | Advance => handleNextQuestion r text (thinking s)
    | Repeat =>
        orAbort (speakAndWait
                   (nth_error (Render.questions r) (Render.currentQuestion r))
                   (Some AfterRepeat) (thinking s)) (thinking s)
    | Finish => saveCurrentAnswer r text ThenComplete (thinking s)
    | NormalAnswer => saveCurrentAnswer r text ThenGenerate (thinking s)
    end.
Proof.
  unfold processUserResponse, commandOf, thinking. cbv zeta.
  destruct (includes (toLowerCase text) "next question"
            || includes (toLowerCase text) "move on"); [reflexivity|].
  destruct (includes (toLowerCase text) "repeat"
            || includes (toLowerCase text) "say that again"); [reflexivity|].
  destruct (includes (toLowerCase text) "complete"
            || includes (toLowerCase text) "finish"
            || includes (toLowerCase text) "done"); reflexivity.
Qed.

(** C1. At silence-timer expiry the buffered text is handed to
    [processUserResponse], which sorts it by case-insensitive substring tests
    in a fixed order, first match wins: an advance phrase moves on, else a
    repeat phrase has the question spoken again, else a finish phrase saves
    the answer and completes, else the text is a normal answer: the
    submit-answer request is sent and, once it settles, the follow-up
    request. *)
Theorem processUserResponse_classifies
    (r : Render.t) (text : string) (c : Command) (s : State) :
  classified text c ->
  bufferedAnswer s = Some text ->
  let asked := nth_error (Render.questions r) (Render.currentQuestion r) in
  silenceExpired r s
    = setFinalTranscriptBuffer EmptyString (processUserResponse r text s)
  /\ processUserResponse r text s =
     match c with
     | Advance => handleNextQuestion r text (thinking s)
     | Repeat =>
         orAbort (speakAndWait asked (Some AfterRepeat) (thinking s)) (thinking s)
     | Finish => saveCurrentAnswer r text ThenComplete (thinking s)
     | NormalAnswer => saveCurrentAnswer r text ThenGenerate (thinking s)
     end
  /\ (c = NormalAnswer -> wellFormed s = true ->
      requests (log (processUserResponse r text s))
        = requests (log s) ++ [SubmitAnswer asked text]
      /\ forall o : Outcome,
          requests (log (step r (Settled (nextFetch (browser s)) o)
                           (processUserResponse r text s)))
            = requests (log s)
              ++ [SubmitAnswer asked text;
                  GenerateAIResponse asked text (Render.currentQuestion r + 1)
                    (length (Render.questions r))]).
Proof.
  intros Hc Hb asked.
  assert (E : processUserResponse r text s =
     match c with
     | Advance => handleNextQuestion r text (thinking s)
     | Repeat =>
         orAbort (speakAndWait asked (Some AfterRepeat) (thinking s)) (thinking s)
     | Finish => saveCurrentAnswer r text ThenComplete (thinking s)
     | NormalAnswer => saveCurrentAnswer r text ThenGenerate (thinking s)
     end).
  { apply classified_iff in Hc. subst c. apply processUserResponse_commandOf. }
  split; [unfold silenceExpired; now rewrite Hb|].
  split; [exact E|].
  intros -> Hwf. rewrite E.
  destruct (thinking_fetches s) as [Hf [Hn Hl]].
  apply wellFormed_fetches in Hwf.
  split.
  - unfold saveCurrentAnswer, fetch. cbn -[thinking]. now rewrite Hl.
  - intros o. unfold step, saveCurrentAnswer, fetch. cbn -[thinking].
    rewrite Hf, Hn, (lookup_fresh _ _ _ Hwf).
    destruct o; cbn -[thinking]; rewrite Hl, <- app_assoc; reflexivity.
Qed.

End ClassificationOfAnswers.

(** A normal answer to the first question. *)
Lemma processUserResponse_classifies_witness :
  let text := "I led the migration of our billing service" in
  let s := step sampleRender (RecognitionResult [(text, true)]) listening in
  classified text NormalAnswer
  /\ bufferedAnswer s = Some text
  /\ wellFormed s = true
  /\ requests (log (processUserResponse sampleRender text s))
     = [SubmitAnswer (Some "Tell me about yourself.") text].
Proof.
  cbv zeta.
  set (text := "I led the migration of our billing service").
  set (s := step sampleRender (RecognitionResult [(text, true)]) listening).
  assert (Hc : classified text NormalAnswer) by (apply classified_iff; computed).
  assert (Hb : bufferedAnswer s = Some text) by computed.
  assert (Hw : wellFormed s = true) by computed.
  split; [exact Hc|]. split; [exact Hb|]. split; [exact Hw|].
  destruct (processUserResponse_classifies sampleRender text NormalAnswer s Hc Hb)
    as [_ [_ H]].
  destruct (H eq_refl Hw) as [H1 _].
  by_value H1.
Defined.

(** ** An advance phrase *)

(** On an advance phrase nothing is sent: neither the answer nor a request
    for a follow-up. *)
Lemma advance_phrase_sends_no_request (r : Render.t) (text : string) (s : State) :
  mentions advancePhrases text ->
  requests (log (processUserResponse r text s)) = requests (log s)
  /\ fetches (browser (processUserResponse r text s)) = fetches (browser s).
Proof.
  intros H. apply mentions_advance in H.
  destruct (thinking_fetches s) as [Hf [_ Hl]].
  unfold processUserResponse. cbv zeta. rewrite H.
  fold (thinking s). unfold handleNextQuestion.
  destruct (Render.currentQuestion r <? length (Render.questions r) - 1);
    cbn -[thinking]; now rewrite Hf, Hl.
Qed.

(** C2. The candidate answers the first of three questions and ends with
    "next question".  The turn runs to the point where the second question is
    asked and capture is back: the answer was never submitted and is not in
    the conversation either, no follow-up was requested, and the question
    index moved from 0 to 1. *)
Theorem advance_answer_is_not_submitted :
  let text := "I have led two teams so far. Next question" in
  let turn :=
    says text
    ++ [RecognitionEnd;
        Timeout 8; UtteranceStart; UtteranceEnd;     (* the transition line *)
        Timeout 9;                                   (* askQuestion(1) *)
        Timeout 10; UtteranceStart; UtteranceEnd;    (* the question *)
        Timeout 11; Timeout 12; RecognitionStart] in
  let s := run sampleRender turn listening in
  mentions advancePhrases text
  /\ bufferedAnswer (step sampleRender (RecognitionResult [(text, true)]) listening)
     = Some text
  /\ requests (log s) = []
  /\ fetches (browser s) = []
  /\ conversationHistory (ui s)
     = [question (Some "Tell me about yourself.") 0;
        question (Some "Why do you want this role?") 1]
  /\ currentQuestion (ui s) = 1
  /\ isListening (ui s) = true.
Proof.
  cbv zeta. split; [apply mentions_advance; reflexivity|].
  repeat split; vm_compute; reflexivity.
Qed.

(** The index [handleNextQuestion] reads is the one of the first render: a
    second "next question" asks the second question again, and the third
    question is never reached this way. *)
Lemma second_advance_asks_the_same_question :
  let first :=
    says "Next question"
    ++ [RecognitionEnd; Timeout 8; UtteranceStart; UtteranceEnd; Timeout 9;
        Timeout 10; UtteranceStart; UtteranceEnd;
        Timeout 11; Timeout 12; RecognitionStart] in
  let second :=
    [RecognitionResult [("Next question", true)]; Timeout 13;
     RecognitionEnd; Timeout 14; UtteranceStart; UtteranceEnd; Timeout 15] in
  let s := run sampleRender (first ++ second) listening in
  currentQuestion (ui s) = 1
  /\ conversationHistory (ui s)
     = [question (Some "Tell me about yourself.") 0;
        question (Some "Why do you want this role?") 1;
        question (Some "Why do you want this role?") 1].
Proof. cbv zeta. split; vm_compute; reflexivity. Qed.

(** ** Capture and playback *)

(** C3. A session reaches a state in which [isListening] and [isSpeaking]
    are both true. *)
Theorem listening_and_speaking_overlap :
  exists s : State,
    reachable true sampleQuestions s
    /\ isListening (ui s) = true
    /\ isSpeaking (ui s) = true
    /\ recognition (browser s) = RecActive
    /\ speaking (browser s) = true.
Proof.
  exists (run sampleRender overlappingTurns (mount true sampleQuestions)).
  split; [apply reachable_run, reachable_mount|].
  repeat split; vm_compute; reflexivity.
Qed.

(** ** Sessions without a result after [stop()]

    When every result arrives while the recogniser is active there is one
    thread of control: a single timeout, utterance or request is pending at
    any time, and it is never pending while the recogniser captures. *)

Lemma oneThread_oneAtATime (s : State) : oneThread s = true -> oneAtATime s = true.
Proof. unfold oneThread. rewrite !andb_true_iff. tauto. Qed.

Ltac split_ifs :=
  repeat match goal with
  | |- context [if ?c then _ else _] =>
      lazymatch c with
      | context [if _ then _ else _] => fail
      | context [match _ with _ => _ end] => fail
      | _ => destruct c eqn:?
      end
  | |- context [match ?c with _ => _ end] =>
      lazymatch c with
      | context [if _ then _ else _] => fail
      | context [match _ with _ => _ end] => fail
      | _ => destruct c eqn:?
      end
  end.

Ltac reduce :=
  unfold fire, resume, resumeSave, resumeGenerate, resumeComplete,
    generateFallback, silenceExpired, processUserResponse, handleNextQuestion,
    completeInterview, saveCurrentAnswer, generateAIResponse, stopListening,
    startContinuousListening, askQuestion, startInterview, unmount,
    cleanupSpeech, callOnComplete, onComplete, onresult, onstart, onerror,
    onend, orAbort, speakAndWait, recognitionStart, recognitionStop,
    bufferedAnswer, clearTimeout, discard, setTimeout, synthCancel,
    synthSpeak, fetch in *;
  cbn -[Js.includes Js.toLowerCase Js.trim Nat.eqb Nat.ltb nth_error length
        collect greeting fallbackLine farewellLine transitionLine closingLine] in *.

Ltac eqbs :=
  repeat match goal with
  | H : context [?a =? ?b] |- _ =>
      destruct (Nat.eqb_spec a b); [subst; rewrite ?Nat.eqb_refl in * | ]
  | |- context [?a =? ?b] =>
      destruct (Nat.eqb_spec a b); [subst; rewrite ?Nat.eqb_refl in * | ]
  end.

Ltac close H :=
  reduce; rewrite ?Nat.eqb_refl in *;
  first [ reflexivity | discriminate H | exact H | congruence
        | (rewrite ?andb_true_r, ?andb_false_r, ?orb_true_r, ?orb_false_r in *;
           first [ reflexivity | discriminate H | exact H | congruence ]) ].

Ltac finish H :=
  reduce; eqbs; reduce; split_ifs; reduce; eqbs; close H.

Lemma step_Timeout_only
    (r : Render.t) (u : Ui) (rf : Refs) (v : Recognition) (us : list Utterance)
    (spk : bool) (id tid : nat) (t : Timer) (nt : nat) (fs : list (nat * Await))
    (nf : nat) (lg : Log) (m : bool) :
  step r (Timeout tid) (MkState u rf (MkBrowser v us spk [(id, t)] nt fs nf) lg m)
  = if id =? tid
    then fire r (callback t) (MkState u rf (MkBrowser v us spk [] nt fs nf) lg m)
    else MkState u rf (MkBrowser v us spk [(id, t)] nt fs nf) lg m.
Proof.
  unfold step, clearTimeout, discard. cbn.
  destruct (id =? tid); reflexivity.
Qed.

Lemma oneThread_step (r : Render.t) (e : Event) (s : State) :
  oneThread s = true -> orderly e s -> oneThread (step r e s) = true.
Proof.
  intros H Ho.
  destruct s as [[cq il tr sp ld sm ch wr] [rr st fb] [v us spk ts nt fs nf] lg m].
  destruct ts as [|[id [d cb]] [|? ?]], us as [|[ut uk] [|? ?]], fs as [|[fid k] [|? ?]];
    try (apply oneThread_oneAtATime in H; discriminate H).
  - (* nothing pending *)
    destruct e as [tid| | | | | results | error | | sid o | ]; try exact H.
    + (* RecognitionStart *) destruct v, il, sp, rr; finish H.
    + (* RecognitionResult *)
      cbn in Ho. subst v. unfold step, onresult. reduce.
      destruct (collect results EmptyString EmptyString) as [i f].
      destruct (Js.truthy f), il, sp, rr, st; finish H.
    + (* RecognitionError *)
      destruct v, il, sp, rr; unfold step, onerror; reduce;
        try destruct (String.eqb error "network"); finish H.
    + (* RecognitionEnd *) destruct v, il, sp, rr; finish H.
    + (* Unmount *) destruct m, v, il, sp, rr, st; finish H.
  - (* a request in flight *)
    destruct e as [tid| | | | | results | error | | sid o | ]; try exact H.
    + destruct v, il, sp, rr; finish H.
    + cbn in Ho. subst v. destruct il, sp, rr; finish H.
    + destruct v, il, sp, rr; unfold step, onerror; reduce;
        try destruct (String.eqb error "network"); finish H.
    + destruct v, il, sp, rr; finish H.
    + (* Settled *)
      destruct r as [qs q0 l0].
      destruct v, il, sp, rr; try (cbn in H; discriminate H);
        unfold step; reduce; destruct (fid =? sid); try exact H;
        destruct k as [a [|]| a |], o as [|ok [| |[x|]]]; try destruct ok;
        destruct st; finish H.
    + destruct m, v, il, sp, rr, st; finish H.
  - (* an utterance queued or being spoken *)
    destruct e as [tid| | | | | results | error | | sid o | ]; try exact H.
    + (* UtteranceStart *) destruct v, il, sp, rr, spk; finish H.
    + (* UtteranceEnd *)
      destruct v, il, sp, rr, spk; try (cbn in H; discriminate H); try exact H;
        destruct uk as [[]|]; finish H.
    + (* UtteranceError *)
      destruct v, il, sp, rr; try (cbn in H; discriminate H);
        destruct uk as [[]|]; finish H.
    + destruct v, il, sp, rr; finish H.
    + cbn in Ho. subst v. destruct il, sp, rr; finish H.
    + destruct v, il, sp, rr; unfold step, onerror; reduce;
        try destruct (String.eqb error "network"); finish H.
    + destruct v, il, sp, rr; finish H.
    + destruct m, v, il, sp, rr, st; finish H.
  - (* a timeout pending *)
    destruct e as [tid| | | | | results | error | | sid o | ]; try exact H.
    + (* Timeout *)
      destruct r as [qs q0 l0].
      rewrite step_Timeout_only. destruct (id =? tid); [|exact H].
      destruct cb, v, il, sp, rr; try (cbn in H; discriminate H);
        try destruct l0; destruct st as [i|]; destruct m; finish H.
    + destruct v, il, sp, rr; destruct cb; finish H.
    + (* RecognitionResult *)
      cbn in Ho. subst v. unfold step, onresult. reduce.
      destruct (collect results EmptyString EmptyString) as [i f].
      destruct cb, (Js.truthy f), il, sp, rr, st; finish H.
    + destruct v, il, sp, rr, cb; unfold step, onerror; reduce;
        try destruct (String.eqb error "network"); finish H.
    + destruct v, il, sp, rr, cb; finish H.
    + destruct m, v, il, sp, rr, st, cb; finish H.
Qed.

Lemma oneThread_mount (supported : bool) (qs : option (list string)) :
  oneThread (mount supported qs) = true.
Proof.
  unfold mount, initializeSpeechRecognition, initialState.
  destruct qs as [l|], supported; cbn -[Nat.ltb];
    try destruct (0 <? length l); reflexivity.
Qed.

(** In such a session [isListening] and [isSpeaking] are never both true. *)
Lemma orderly_never_both (supported : bool) (qs : option (list string)) (s : State) :
  reachableOrderly supported qs s ->
  isListening (ui s) && isSpeaking (ui s) = false.
Proof.
  intros H.
  assert (Ho : oneThread s = true).
  { induction H as [|s e _ IH Ho]; [apply oneThread_mount | now apply oneThread_step]. }
  unfold oneThread in Ho. rewrite !andb_true_iff in Ho.
  destruct Ho as [[Hn _] _]. now apply negb_true_iff in Hn.
Qed.

(** ** Failure of the completion request *)

(** A completion request that is rejected, or answered by something that is
    not JSON, is reported by an alert; the loading view is left, nothing is
    scheduled and the view does not change. *)
Lemma completion_failure_is_reported
    (r : Render.t) (s : State) (id : nat) (o : Outcome) :
  lookup id (fetches (browser s)) = Some AwaitComplete ->
  (o = Rejected \/ exists ok, o = Responded ok BodyInvalid) ->
  let s' := step r (Settled id o) s in
  alerts (log s') = alerts (log s) ++ ["Error completing interview. Please try again."]
  /\ loading (ui s') = false
  /\ views (log s') = views (log s)
  /\ timers (browser s') = timers (browser s)
  /\ utterances (browser s') = utterances (browser s)
  /\ mounted s' = mounted s.
Proof.
  intros Hl Ho. cbv zeta. unfold step. rewrite Hl.
  destruct Ho as [-> | [ok ->]]; cbn; repeat split; reflexivity.
Qed.

(** [completeInterview] never reads [response.ok]. *)
Lemma completion_reply_ignores_ok
    (r : Render.t) (s : State) (id : nat) (ok : bool) (body : Body) :
  lookup id (fetches (browser s)) = Some AwaitComplete ->
  step r (Settled id (Responded ok body)) s
  = step r (Settled id (Responded true body)) s.
Proof. intros Hl. unfold step. rewrite Hl. reflexivity. Qed.

(** C4. The candidate says "I am done"; the answer is saved and the
    completion request is sent.  The service answers it with an error status
    and a JSON body.  No alert is raised: the closing line is spoken and the
    screen moves to the history view. *)
Theorem failed_completion_reply_reaches_history :
  let completing :=
    run sampleRender
      (says "I am done" ++ [RecognitionEnd; Settled 1 (Responded true BodyNull)])
      listening in
  let s :=
    run sampleRender
      [Settled 2 (Responded false (BodyObject None));
       Timeout 8; UtteranceStart; UtteranceEnd;       (* the closing line *)
       Timeout 9]                                     (* setCurrentView *)
      completing in
  lookup 2 (fetches (browser completing)) = Some AwaitComplete
  /\ requests (log completing)
     = [SubmitAnswer (Some "Tell me about yourself.") "I am done"; CompleteInterview]
  /\ alerts (log s) = []
  /\ completed (log s) = [AfterGreeting; AfterQuestion; AfterFarewell]
  /\ views (log s) = ["history"]
  /\ mounted s = false.
Proof. cbv zeta. repeat split; vm_compute; reflexivity. Qed.

(** ** Failure of the follow-up request *)

(** After a failed follow-up request, with capture reported over. *)
Lemma fallback_after_capture_ended
    (r : Render.t) (s : State) (id : nat) (userAnswer : string)
    (o : Outcome) (p : Playback) :
  wellFormed s = true ->
  lookup id (fetches (browser s)) = Some (AwaitGenerate userAnswer) ->
  failedFollowUp o = true ->
  recognitionRef (refs s) = true ->
  recognition (browser s) = RecInactive ->
  let t := nextTimer (browser s) in
  let s1 := step r (Settled id o) s in
  let s2 := step r (Timeout t) s1 in
  let s3 := run r (playback p) s2 in
  let s4 := step r (Timeout (S t)) s3 in
  let s5 := run r [Timeout (S (S t)); RecognitionStart] s4 in
  timers (browser s1)
    = timers (browser s)
      ++ [(t, MkTimer 100 (CbSpeak fallbackLine (Some AfterFallback)))]
  /\ utterances (browser s2) = [MkUtterance fallbackLine (Some AfterFallback)]
  /\ utterances (browser s3) = []
  /\ timers (browser s3)
     = timers (browser s) ++ [(S t, MkTimer 1500 CbStartContinuousListening)]
  /\ timers (browser s4)
     = timers (browser s) ++ [(S (S t), MkTimer 300 CbRecognitionStart)]
  /\ isListening (ui s5) = true
  /\ recognition (browser s5) = RecActive
  /\ waitingForResponse (ui s5) = false
  /\ timers (browser s5) = timers (browser s)
  /\ requests (log s5) = requests (log s)
  /\ completed (log s5) = completed (log s) ++ [AfterFallback].
Proof.
  intros Hwf Hl Ho Href Hrec t.
  pose proof (wellFormed_timers _ Hwf) as Ht. fold t in Ht.
  pose proof (freshIds_S _ _ Ht) as Ht1.
  pose proof (freshIds_S _ _ Ht1) as Ht2.
  cbv zeta.
  rewrite (step_Settled r s id _ o Hl).
  set (s0 := setFetches _ _ s).
  assert (E1 : resume r (AwaitGenerate userAnswer) o s0
               = setTimeout 100 (CbSpeak fallbackLine (Some AfterFallback))
                   (synthCancel s0)).
  { destruct o as [|[|] b]; try discriminate; reflexivity. }
  rewrite E1. clear E1.
  rewrite (step_Timeout_fresh r (synthCancel s0) _ _ t eq_refl Ht).
  cbn [fire].
  erewrite run_playback; [ | reflexivity | reflexivity ].
  cbn [callOnComplete utteranceOnComplete onComplete].
  erewrite step_Timeout_fresh; [ | reflexivity | exact Ht1 ].
  cbn [fire].
  erewrite startContinuousListening_inactive; [ | exact Href | exact Hrec ].
  unfold run. cbn [fold_left].
  erewrite step_Timeout_fresh; [ | reflexivity | exact Ht2 ].
  cbn [fire].
  erewrite recognitionStart_inactive; [ | exact Hrec ].
  cbn [orAbort].
  erewrite step_RecognitionStart; [ | reflexivity ].
  repeat split; reflexivity.
Qed.

(** C5. When the follow-up request fails (the promise rejects or the reply is
    not OK), the recogniser having reported the end of the capture that the
    turn stopped, the fixed fallback line is queued after 100 ms; however its
    playback ends, capture is requested again after 1500 ms and 300 ms, and
    once the recogniser has started the session is listening.  One utterance
    is spoken and no request is sent on the way. *)
Theorem followup_failure_returns_to_listening
    (r : Render.t) (s : State) (id : nat) (userAnswer : string)
    (o : Outcome) (p : Playback) :
  wellFormed s = true ->
  lookup id (fetches (browser s)) = Some (AwaitGenerate userAnswer) ->
  failedFollowUp o = true ->
  recognitionRef (refs s) = true ->
  let t := nextTimer (browser s) in
  let s1 := run r [RecognitionEnd; Settled id o] s in
  let s2 := step r (Timeout t) s1 in
  let s3 := run r (playback p) s2 in
  let s4 := step r (Timeout (S t)) s3 in
  let s5 := run r [Timeout (S (S t)); RecognitionStart] s4 in
  timers (browser s1)
    = timers (browser s)
      ++ [(t, MkTimer 100 (CbSpeak fallbackLine (Some AfterFallback)))]
  /\ utterances (browser s2) = [MkUtterance fallbackLine (Some AfterFallback)]
  /\ utterances (browser s3) = []
  /\ timers (browser s3)
     = timers (browser s) ++ [(S t, MkTimer 1500 CbStartContinuousListening)]
  /\ timers (browser s4)
     = timers (browser s) ++ [(S (S t), MkTimer 300 CbRecognitionStart)]
  /\ isListening (ui s5) = true
  /\ recognition (browser s5) = RecActive
  /\ waitingForResponse (ui s5) = false
  /\ timers (browser s5) = timers (browser s)
  /\ requests (log s5) = requests (log s)
  /\ completed (log s5) = completed (log s) ++ [AfterFallback].
Proof.
  intros Hwf Hl Ho Href.
  destruct (RecognitionEnd_keeps r s) as [Hrec [Ht [Hn [Hf [_ [Hr Hlg]]]]]].
  set (s' := step r RecognitionEnd s) in *.
  assert (Hwf' : wellFormed s' = true).
  { unfold wellFormed. rewrite Ht, Hn, Hf.
    destruct (RecognitionEnd_keeps r s) as [_ [_ [_ [_ [Hnf _]]]]].
    fold s' in Hnf. rewrite Hnf. exact Hwf. }
  assert (Hl' : lookup id (fetches (browser s')) = Some (AwaitGenerate userAnswer))
    by (now rewrite Hf).
  assert (Href' : recognitionRef (refs s') = true) by (now rewrite Hr).
  pose proof (fallback_after_capture_ended r s' id userAnswer o p
                Hwf' Hl' Ho Href' Hrec) as H.
  cbv zeta in H. rewrite Hn, Ht, Hlg in H.
  exact H.
Qed.

(** The follow-up request of the first answer is answered with an error
    status. *)
Lemma followup_failure_returns_to_listening_witness :
  let s :=
    run sampleRender
      (says "I worked on compilers" ++ [Settled 1 (Responded true BodyNull)])
      listening in
  let o := Responded false BodyNull in
  wellFormed s = true
  /\ lookup 2 (fetches (browser s)) = Some (AwaitGenerate "I worked on compilers")
  /\ failedFollowUp o = true
  /\ recognitionRef (refs s) = true
  /\ isListening
       (ui (run sampleRender
              [RecognitionEnd; Settled 2 o; Timeout 8; UtteranceStart;
               UtteranceEnd; Timeout 9; Timeout 10; RecognitionStart] s)) = true.
Proof.
  cbv zeta.
  set (s := run sampleRender _ listening).
  assert (Hw : wellFormed s = true) by computed.
  assert (Hl : lookup 2 (fetches (browser s))
               = Some (AwaitGenerate "I worked on compilers")) by computed.
  assert (Hr : recognitionRef (refs s) = true) by computed.
  split; [exact Hw|]. split; [exact Hl|]. split; [reflexivity|].
  split; [exact Hr|].
  pose proof (followup_failure_returns_to_listening sampleRender s 2
                "I worked on compilers" (Responded false BodyNull) PlayedToEnd
                Hw Hl eq_refl Hr) as H.
  cbv zeta in H. destruct H as [_ [_ [_ [_ [_ [H _]]]]]].
  by_value H.
Defined.

(** ** The silence timer *)

Section SilenceTimer.

Lemma silenceTimers_setTimeout (d : nat) (cb : Callback) (s : State) :
  silenceTimers (setTimeout d cb s)
  = silenceTimers s ++ (if isSilence cb then [(nextTimer (browser s), MkTimer d cb)] else []).
Proof.
  unfold silenceTimers, setTimeout. cbn. rewrite filter_app. cbn.
  now destruct (isSilence cb).
Qed.

Lemma silenceTimers_clearTimeout (id : nat) (s : State) :
  silenceTimers (clearTimeout id s) = discard id (silenceTimers s).
Proof.
  unfold silenceTimers, clearTimeout, discard. cbn.
  induction (timers (browser s)) as [|[i t] l IH]; [reflexivity|].
  cbn. destruct (i =? id) eqn:E; cbn.
  - rewrite IH. destruct (isSilence (callback t)); cbn; [now rewrite E | reflexivity].
  - destruct (isSilence (callback t)); cbn; [now rewrite E, IH | exact IH].
Qed.

(** Clearing the timeout the ref holds leaves no silence timeout. *)
Lemma silenceTimers_cleared (id : nat) (s : State) :
  oneSilenceTimer s -> silenceTimerRef (refs s) = Some id ->
  silenceTimers (clearTimeout id s) = [].
Proof.
  intros [H | [i [Hi H]]] Hid; rewrite silenceTimers_clearTimeout, H; [reflexivity|].
  assert (i = id) by congruence. subst i.
  unfold discard. cbn. now rewrite Nat.eqb_refl.
Qed.

Lemma silenceTimers_none (s : State) :
  oneSilenceTimer s -> silenceTimerRef (refs s) = None -> silenceTimers s = [].
Proof. intros [H | [i [Hi _]]] Hn; [exact H | congruence]. Qed.

Lemma ost_withUi (f : Ui -> Ui) (s : State) :
  oneSilenceTimer s -> oneSilenceTimer (withUi f s).
Proof. exact (fun H => H). Qed.

Lemma ost_withLog (f : Log -> Log) (s : State) :
  oneSilenceTimer s -> oneSilenceTimer (withLog f s).
Proof. exact (fun H => H). Qed.

Lemma ost_setMounted (b : bool) (s : State) :
  oneSilenceTimer s -> oneSilenceTimer (setMounted b s).
Proof. exact (fun H => H). Qed.

Lemma ost_setRecognition (v : Recognition) (s : State) :
  oneSilenceTimer s -> oneSilenceTimer (setRecognition v s).
Proof. exact (fun H => H). Qed.

Lemma ost_setUtterances (us : list Utterance) (sp : bool) (s : State) :
  oneSilenceTimer s -> oneSilenceTimer (setUtterances us sp s).
Proof. exact (fun H => H). Qed.

Lemma ost_setFetches (fs : list (nat * Await)) (n : nat) (s : State) :
  oneSilenceTimer s -> oneSilenceTimer (setFetches fs n s).
Proof. exact (fun H => H). Qed.

Lemma ost_setFinalTranscriptBuffer (b : string) (s : State) :
  oneSilenceTimer s -> oneSilenceTimer (setFinalTranscriptBuffer b s).
Proof. exact (fun H => H). Qed.

Lemma ost_setTimeout (d : nat) (cb : Callback) (s : State) :
  isSilence cb = false -> oneSilenceTimer s -> oneSilenceTimer (setTimeout d cb s).
Proof.
  intros Hcb H. unfold oneSilenceTimer.
  rewrite silenceTimers_setTimeout, Hcb, app_nil_r. exact H.
Qed.

Lemma ost_clearTimeout (id : nat) (s : State) :
  oneSilenceTimer s -> oneSilenceTimer (clearTimeout id s).
Proof.
  intros [H | [i [Hi H]]]; unfold oneSilenceTimer;
    rewrite silenceTimers_clearTimeout, H; [now left|].
  unfold discard. cbn. destruct (i =? id); cbn; [now left|].
  right. now exists i.
Qed.

Lemma ost_stopListening (s : State) :
  oneSilenceTimer s -> oneSilenceTimer (stopListening s).
Proof.
  intros H.
  assert (H1 : oneSilenceTimer
                 match silenceTimerRef (refs s) with
                 | Some id => setSilenceTimerRef None (clearTimeout id s)
                 | None => s
                 end).
  { destruct (silenceTimerRef (refs s)) as [id|] eqn:E; [|exact H].
    left. exact (silenceTimers_cleared id s H E). }
  unfold stopListening. cbv zeta.
  set (s1 := match silenceTimerRef (refs s) with Some _ => _ | None => _ end) in *.
  clearbody s1. unfold recognitionStop.
  destruct (recognitionRef (refs s1)); [|exact H1].
  destruct (recognition (browser s1)); exact H1.
Qed.

Lemma ost_onresult (results : list (string * bool)) (s : State) :
  oneSilenceTimer s -> oneSilenceTimer (onresult results s).
Proof.
  intros H. unfold onresult.
  destruct (collect results EmptyString EmptyString) as [i f].
  destruct (Js.truthy f); [|exact H].
  apply ost_withUi. right. cbn [refs setTimeout].
  destruct (silenceTimerRef (refs s)) as [id|] eqn:E.
  - exists (nextTimer (browser s)). split; [cbn; now rewrite E|].
    rewrite silenceTimers_setTimeout. cbn -[silenceTimers].
    rewrite E. cbn -[silenceTimers].
    change (silenceTimers _) with (silenceTimers (clearTimeout id s)).
    now rewrite (silenceTimers_cleared id s H E).
  - exists (nextTimer (browser s)). split; [cbn; now rewrite E|].
    rewrite silenceTimers_setTimeout. cbn -[silenceTimers].
    rewrite E. cbn -[silenceTimers].
    change (silenceTimers _) with (silenceTimers s).
    now rewrite (silenceTimers_none s H E).
Qed.

Ltac ost :=
  repeat first
    [ assumption
    | apply ost_stopListening | apply ost_onresult
    | apply ost_setTimeout; [reflexivity|]
    | apply ost_clearTimeout | apply ost_setFinalTranscriptBuffer
    | apply ost_setFetches
    | apply ost_withUi | apply ost_withLog
    | apply ost_setMounted | apply ost_setRecognition | apply ost_setUtterances
    | match goal with
      | |- context [match ?x with _ => _ end] =>
          lazymatch x with
          | context [match _ with _ => _ end] => fail
          | _ => destruct x; cbv beta iota
          end
      end ].

Lemma ost_step (r : Render.t) (e : Event) (s : State) :
  oneSilenceTimer s -> oneSilenceTimer (step r e s).
Proof.
  intros H. destruct e; unfold step;
    unfold fire, resume, resumeSave, resumeGenerate, resumeComplete,
      generateFallback, silenceExpired, processUserResponse, handleNextQuestion,
      completeInterview, saveCurrentAnswer, generateAIResponse,
      startContinuousListening, askQuestion, startInterview, unmount,
      cleanupSpeech, callOnComplete, onComplete, onstart, onerror,
      onend, orAbort, speakAndWait, recognitionStart, recognitionStop,
      synthCancel, synthSpeak, bufferedAnswer, fetch, alert, logRequest, logView,
      logCompleted, setCurrentQuestion, setIsListening, setTranscript,
      setIsSpeaking, setLoading, setStatusMessage, appendConversationHistory,
      setWaitingForResponse;
    cbv zeta; ost.
Qed.

Lemma ost_mount (supported : bool) (qs : option (list string)) :
  oneSilenceTimer (mount supported qs).
Proof.
  left. unfold mount, initializeSpeechRecognition, initialState.
  destruct qs as [l|], supported; cbn -[Nat.ltb];
    try destruct (0 <? length l); reflexivity.
Qed.

End SilenceTimer.

(** ** The transcript buffer *)

Section Buffer.
Import JsFacts.

Lemma concatenation_app (l1 l2 : list string) :
  concatenation (l1 ++ l2) = (concatenation l1 ++ concatenation l2)%string.
Proof.
  induction l1 as [|a l1 IH]; simpl; [reflexivity|].
  now rewrite IH, append_assoc.
Qed.

Lemma spaced_app (l1 l2 : list string) :
  spaced (l1 ++ l2) = (spaced l1 ++ spaced l2)%string.
Proof. unfold spaced. now rewrite map_app, concatenation_app. Qed.

Lemma truthy_spaced (l : list string) :
  Js.truthy (spaced l) = match l with [] => false | _ :: _ => true end.
Proof. destruct l as [|[|c a] l]; reflexivity. Qed.

(** The loop of [onresult] appends every final transcript and a space to
    [finalTranscript], in the order of the results. *)
Lemma collect_final (results : list (string * bool)) (interim final : string) :
  snd (collect results interim final) = (final ++ spaced (finalsOf results))%string.
Proof.
  revert interim final; induction results as [|[t [|]] rest IH]; intros i f.
  - simpl. now rewrite append_empty_r.
  - cbn [collect]. rewrite IH. unfold finalsOf, spaced. cbn.
    now rewrite !append_assoc.
  - cbn [collect]. now rewrite IH.
Qed.

Lemma onresult_buffer (results : list (string * bool)) (s : State) :
  finalTranscriptBuffer (refs (onresult results s))
  = (finalTranscriptBuffer (refs s) ++ spaced (finalsOf results))%string.
Proof.
  unfold onresult.
  pose proof (collect_final results EmptyString EmptyString) as Hc.
  destruct (collect results EmptyString EmptyString) as [i f].
  cbn in Hc. subst f. rewrite truthy_spaced.
  destruct (finalsOf results) as [|a l].
  - cbn. now rewrite append_empty_r.
  - cbn. destruct (silenceTimerRef (refs s)); reflexivity.
Qed.

Lemma onresult_recognition (results : list (string * bool)) (s : State) :
  recognition (browser (onresult results s)) = recognition (browser s).
Proof.
  unfold onresult.
  destruct (collect results EmptyString EmptyString) as [i f].
  destruct (Js.truthy f); [|reflexivity].
  cbn. destruct (silenceTimerRef (refs s)); reflexivity.
Qed.

Lemma onresult_wellFormed (results : list (string * bool)) (s : State) :
  wellFormed s = true -> wellFormed (onresult results s) = true.
Proof.
  intros H. pose proof (wellFormed_timers _ H) as Ht.
  pose proof (wellFormed_fetches _ H) as Hf.
  unfold onresult.
  destruct (collect results EmptyString EmptyString) as [i f].
  destruct (Js.truthy f); [|exact H].
  unfold wellFormed. cbn -[freshIds].
  destruct (silenceTimerRef (refs s)) as [old|]; cbn -[freshIds];
    rewrite Hf, andb_true_r; apply freshIds_app; [|exact Ht].
  now apply freshIds_discard.
Qed.

Lemma onresult_arms (results : list (string * bool)) (s : State) :
  wellFormed s = true -> finalsOf results <> [] -> armed (onresult results s).
Proof.
  intros H Hne. pose proof (wellFormed_timers _ H) as Ht.
  exists (nextTimer (browser s)).
  unfold onresult.
  pose proof (collect_final results EmptyString EmptyString) as Hc.
  destruct (collect results EmptyString EmptyString) as [i f].
  cbn in Hc. subst f. rewrite truthy_spaced.
  destruct (finalsOf results) as [|a l]; [contradiction|].
  cbn -[lookup discard spaced].
  destruct (silenceTimerRef (refs s)) as [old|]; cbn -[lookup discard spaced].
  - split; [reflexivity|]. apply lookup_fresh. now apply freshIds_discard.
  - split; [reflexivity|]. now apply lookup_fresh.
Qed.

Lemma onresult_keeps_armed (results : list (string * bool)) (s : State) :
  finalsOf results = [] -> armed s -> armed (onresult results s).
Proof.
  intros He [id [H1 H2]]. exists id.
  unfold onresult.
  pose proof (collect_final results EmptyString EmptyString) as Hc.
  destruct (collect results EmptyString EmptyString) as [i f].
  cbn in Hc. subst f. rewrite truthy_spaced, He. cbn. now split.
Qed.

Lemma run_results (r : Render.t) (events : list (list (string * bool))) (s : State) :
  recognition (browser s) = RecActive ->
  wellFormed s = true ->
  let s' := run r (map RecognitionResult events) s in
  finalTranscriptBuffer (refs s')
  = (finalTranscriptBuffer (refs s) ++ spaced (finalFragments events))%string
  /\ (finalFragments events <> [] \/ armed s -> armed s').
Proof.
  revert s; induction events as [|e events IH]; intros s Hrec Hwf; cbn zeta.
  - cbn. rewrite append_empty_r. split; [reflexivity|]. intros [H | H]; [easy | exact H].
  - change (run r (map RecognitionResult (e :: events)) s)
      with (run r (map RecognitionResult events) (step r (RecognitionResult e) s)).
    assert (E : step r (RecognitionResult e) s = onresult e s)
      by (unfold step; now rewrite Hrec).
    rewrite E.
    destruct (IH (onresult e s)) as [Hb Ha].
    { now rewrite onresult_recognition. }
    { now apply onresult_wellFormed. }
    split.
    + rewrite Hb, onresult_buffer. cbn [finalFragments flat_map].
      fold (finalFragments events). now rewrite spaced_app, append_assoc.
    + intros H. apply Ha.
      destruct (finalsOf e) as [|a l] eqn:He.
      * destruct H as [H | H].
        -- left. cbn [finalFragments flat_map] in H. now rewrite He in H.
        -- right. now apply onresult_keeps_armed.
      * right. apply onresult_arms; [exact Hwf | now rewrite He].
Qed.

Lemma collect_interim (results : list (string * bool)) (interim final : string) :
  fst (collect results interim final)
  = (interim ++ concatenation (interimsOf results))%string.
Proof.
  revert interim final; induction results as [|[t [|]] rest IH]; intros i f.
  - simpl. now rewrite append_empty_r.
  - cbn [collect]. now rewrite IH.
  - cbn [collect]. rewrite IH. unfold interimsOf. cbn.
    now rewrite append_assoc.
Qed.

Lemma onresult_interim (results : list (string * bool)) (s : State) :
  finalsOf results = [] ->
  onresult results s
  = setTranscript
      (Js.orElse (concatenation (interimsOf results)) (finalTranscriptBuffer (refs s)))
      s.
Proof.
  intros He. unfold onresult.
  pose proof (collect_final results EmptyString EmptyString) as Hf.
  pose proof (collect_interim results EmptyString EmptyString) as Hi.
  destruct (collect results EmptyString EmptyString) as [i f].
  cbn in Hf, Hi. subst i f. rewrite truthy_spaced, He. reflexivity.
Qed.

Lemma lookup_In {A : Type} (id : nat) (l : list (nat * A)) (a : A) :
  lookup id l = Some a -> In (id, a) l.
Proof.
  induction l as [|[i x] l IH]; simpl; [discriminate|].
  destruct (Nat.eqb_spec i id) as [->|].
  - intros H. injection H as <-. now left.
  - intros H. right. now apply IH.
Qed.

Lemma silenceTimers_In (s : State) (p : nat * Timer) :
  In p (timers (browser s)) -> isSilence (callback (snd p)) = true ->
  In p (silenceTimers s).
Proof. intros H1 H2. unfold silenceTimers. apply filter_In. now split. Qed.


(** What a final result does to the silence timer. *)
Lemma onresult_final (results : list (string * bool)) (s : State) :
  finalsOf results <> [] ->
  oneSilenceTimer s ->
  let s' := onresult results s in
  nextTimer (browser s') = S (nextTimer (browser s))
  /\ silenceTimerRef (refs s') = Some (nextTimer (browser s))
  /\ silenceTimers s' = [(nextTimer (browser s), MkTimer 2000 CbSilence)]
  /\ (forall p, In p (timers (browser s')) ->
        In p (timers (browser s)) \/ p = (nextTimer (browser s), MkTimer 2000 CbSilence)).
Proof.
  intros Hne Hone. cbv zeta. unfold onresult.
  pose proof (collect_final results EmptyString EmptyString) as Hc.
  destruct (collect results EmptyString EmptyString) as [i f].
  cbn in Hc. subst f. rewrite truthy_spaced.
  destruct (finalsOf results) as [|a l]; [contradiction|].
  unfold silenceTimers. cbn -[spaced discard].
  destruct (silenceTimerRef (refs s)) as [id|] eqn:E; cbn -[spaced discard].
  - pose proof (silenceTimers_cleared id s Hone E) as Hcl.
    unfold silenceTimers in Hcl. cbn -[discard] in Hcl.
    split; [reflexivity|]. split; [reflexivity|].
    split; [rewrite filter_app, Hcl; reflexivity|].
    intros p Hp. apply in_app_or in Hp. destruct Hp as [Hp | [Hp | []]].
    + left. unfold discard in Hp. now apply filter_In in Hp.
    + right. now symmetry.
  - pose proof (silenceTimers_none s Hone E) as Hcl.
    unfold silenceTimers in Hcl.
    split; [reflexivity|]. split; [reflexivity|].
    split; [rewrite filter_app, Hcl; reflexivity|].
    intros p Hp. apply in_app_or in Hp. destruct Hp as [Hp | [Hp | []]].
    + now left.
    + right. now symmetry.
Qed.

Lemma onTime_oneSilenceTimer first latest calls s :
  onTime first latest calls s -> oneSilenceTimer s.
Proof.
  intros [_ [_ [_ [_ [_ [_ H]]]]]]. destruct latest as [l|].
  - destruct H as [id [H1 [H2 _]]]. right. now exists id.
  - now left.
Qed.

Lemma onTime_not_overdue first latest calls s (t : nat) :
  onTime first latest calls s ->
  (forall l, latest = Some l -> t <= l + 2000) ->
  overdue t calls s = false.
Proof.
  intros [_ [_ [_ [_ [H5 [H6 H7]]]]]] Ht.
  unfold overdue.
  destruct (existsb _ (timers (browser s))) eqn:E; [|reflexivity].
  apply existsb_exists in E. destruct E as [p [Hp Hf]].
  unfold dueAt in Hf.
  destruct (lookup (fst p) calls) as [b|] eqn:L; [|discriminate Hf].
  pose proof (lookup_In _ _ _ L) as Hin.
  pose proof (silenceTimers_In s p Hp (H6 p Hp (H5 _ _ Hin))) as Hs.
  destruct latest as [l|].
  - destruct H7 as [id [_ [H2 H3]]]. rewrite H2 in Hs.
    destruct Hs as [<- | []]. cbn in L, Hf.
    rewrite H3 in L. injection L as <-.
    apply Nat.ltb_lt in Hf. specialize (Ht l eq_refl). lia.
  - rewrite H7 in Hs. destruct Hs.
Qed.

Lemma onTime_onresult first latest calls s (t : nat) (e : list (string * bool)) :
  onTime first latest calls s ->
  let s' := onresult e s in
  onTime first (match finalsOf e with [] => latest | _ :: _ => Some t end)
    (calls ++ map (fun id => (id, t)) (timeoutsSet s s')) s'.
Proof.
  intros H. pose proof (onTime_oneSilenceTimer _ _ _ _ H) as Hone.
  destruct H as [H1 [H2 [H3 [H4 [H5 [H6 H7]]]]]]. cbv zeta.
  destruct (finalsOf e) as [|a l] eqn:He.
  - rewrite (onresult_interim e s He). unfold timeoutsSet. cbn [browser setTranscript withUi nextTimer].
    rewrite Nat.sub_diag. cbn [seq map]. rewrite app_nil_r.
    repeat split; assumption.
  - assert (Hne : finalsOf e <> []) by (rewrite He; discriminate).
    destruct (onresult_final e s Hne Hone) as [F1 [F2 [F3 F4]]].
    unfold timeoutsSet. rewrite F1.
    replace (S (nextTimer (browser s)) - nextTimer (browser s)) with 1 by lia.
    cbn [seq map].
    split; [now rewrite onresult_recognition|].
    split; [now apply onresult_wellFormed|].
    split; [lia|].
    split; [rewrite F1; now apply freshIds_app|].
    split.
    { intros i t' Hin. apply in_app_or in Hin.
      destruct Hin as [Hin | [Hin | []]]; [now apply (H5 i t')|].
      injection Hin as <- _. exact H3. }
    split.
    { intros p Hp Hle. destruct (F4 p Hp) as [Hold | ->]; [now apply H6 | reflexivity]. }
    exists (nextTimer (browser s)).
    split; [exact F2|]. split; [exact F3|]. now apply lookup_fresh.
Qed.

Lemma latestFinal_Some (l : nat) (events : list (nat * list (string * bool))) :
  exists last, latestFinal (Some l) events = Some last.
Proof.
  revert l; induction events as [|[t e] events IH]; intros l; cbn.
  - now exists l.
  - destruct (finalsOf e); apply IH.
Qed.

Lemma latestFinal_fragments (latest : option nat)
    (events : list (nat * list (string * bool))) :
  finalFragments (map snd events) <> [] ->
  exists last, latestFinal latest events = Some last.
Proof.
  revert latest; induction events as [|[t e] events IH]; intros latest Hne.
  - now contradiction Hne.
  - change (finalFragments (map snd ((t, e) :: events)))
      with (finalsOf e ++ finalFragments (map snd events)) in Hne.
    cbn [latestFinal]. destruct (finalsOf e) as [|a l].
    + apply IH. exact Hne.
    + apply latestFinal_Some.
Qed.

(** Results whose gaps are shorter than the window arrive on time: no silence
    timeout expires among them. *)
Lemma results_on_time (r : Render.t) (first : nat)
    (events : list (nat * list (string * bool))) :
  forall (s : State) (now : nat) (calls : list (nat * nat)) (latest : option nat),
  onTime first latest calls s ->
  (forall l, latest = Some l -> now < l + 2000) ->
  withinWindow latest now events ->
  let s' := run r (map RecognitionResult (map snd events)) s in
  exists calls' now',
    (forall rest, runAt r (resultsAt events ++ rest) now s calls
                  = runAt r rest now' s' calls')
    /\ onTime first (latestFinal latest events) calls' s'
    /\ (forall l, latestFinal latest events = Some l -> now' < l + 2000).
Proof.
  induction events as [|[t e] events IH]; intros s now calls latest Hon Hnow Hw.
  - exists calls, now. split; [intros rest; reflexivity|].
    split; [exact Hon | exact Hnow].
  - cbn in Hw. destruct Hw as [Hle [Hlt Hw]].
    assert (Hrec : recognition (browser s) = RecActive) by apply Hon.
    assert (Estep : step r (RecognitionResult e) s = onresult e s)
      by (unfold step; now rewrite Hrec).
    pose proof (onTime_onresult first latest calls s t e Hon) as Hon'.
    cbv zeta in Hon'.
    assert (Hnow' : forall l,
              match finalsOf e with [] => latest | _ :: _ => Some t end = Some l ->
              t < l + 2000).
    { intros l Hl. destruct (finalsOf e).
      - subst latest. exact Hlt.
      - injection Hl as <-. lia. }
    destruct (IH (onresult e s) t _ _ Hon' Hnow' Hw) as [calls' [now' [R [I E]]]].
    cbv zeta.
    change (run r (map RecognitionResult (map snd ((t, e) :: events))) s)
      with (run r (map RecognitionResult (map snd events))
              (step r (RecognitionResult e) s)).
    rewrite Estep.
    exists calls', now'. split; [|split; [exact I | exact E]].
    intros rest. cbn [resultsAt map app runAt fst snd].
    assert (C1 : (t <? now) = false) by (apply Nat.ltb_ge; exact Hle).
    assert (C2 : overdue t calls s = false).
    { apply (onTime_not_overdue first latest); [exact Hon|].
      intros l Hl. subst latest. lia. }
    rewrite C1, C2. cbn [orb early]. rewrite Estep.
    apply R.
Qed.

(** C6, as the code has it.  Results arrive while the recogniser is active,
    into an empty buffer, no silence timeout pending, with gaps shorter than
    the silence window: each less than two seconds after the latest final
    result before it.  Then no silence timeout expires among them, for every
    final result replaces the timeout that is pending: at the end one
    silence timeout is pending, set at the latest final result and due two
    seconds after it.  When it expires the text handed to
    [processUserResponse] is the final fragments in arrival order, each
    followed by one space, with the white space at both ends removed
    (nothing is handed over when that text is empty). *)
Theorem buffered_answer_joins_fragments
    (r : Render.t) (events : list (nat * list (string * bool))) (s : State) :
  recognition (browser s) = RecActive ->
  wellFormed s = true ->
  finalTranscriptBuffer (refs s) = EmptyString ->
  silenceTimers s = [] ->
  finalFragments (map snd events) <> [] ->
  withinWindow None 0 events ->
  let s' := run r (map RecognitionResult (map snd events)) s in
  let text := Js.trim (spaced (finalFragments (map snd events))) in
  exists id last calls,
    runAt r (resultsAt events) 0 s [] = Some (s', calls)
    /\ latestFinal None events = Some last
    /\ silenceTimerRef (refs s') = Some id
    /\ silenceTimers s' = [(id, MkTimer 2000 CbSilence)]
    /\ lookup id (timers (browser s')) = Some (MkTimer 2000 CbSilence)
    /\ lookup id calls = Some last
    /\ bufferedAnswer s' = (if Js.truthy text then Some text else None)
    /\ (exists calls',
          runAt r (resultsAt events ++ [(last + 2000, Timeout id)]) 0 s []
          = Some (step r (Timeout id) s', calls'))
    /\ step r (Timeout id) s'
       = if Js.truthy text
         then setFinalTranscriptBuffer EmptyString
                (processUserResponse r text (clearTimeout id s'))
         else clearTimeout id s'.
Proof.
  intros Hrec Hwf Hb Hnone Hne Hw. cbv zeta.
  assert (Hon : onTime (nextTimer (browser s)) None [] s).
  { split; [exact Hrec|]. split; [exact Hwf|]. split; [apply le_n|].
    split; [reflexivity|]. split; [intros i t []|]. split; [|exact Hnone].
    intros p Hp Hle. exfalso.
    pose proof (wellFormed_timers _ Hwf) as Hf. unfold freshIds in Hf.
    rewrite forallb_forall in Hf. specialize (Hf p Hp).
    apply Nat.ltb_lt in Hf. lia. }
  destruct (results_on_time r _ events s 0 [] None Hon
              ltac:(discriminate) Hw) as [calls [now' [R [I E]]]].
  destruct (latestFinal_fragments None events Hne) as [last Hlast].
  rewrite Hlast in I, E. specialize (E last eq_refl).
  destruct (run_results r (map snd events) s Hrec Hwf) as [Hbuf Harm].
  rewrite Hb in Hbuf. cbn in Hbuf.
  set (s' := run r (map RecognitionResult (map snd events)) s) in *.
  assert (Ha : bufferedAnswer s'
               = if Js.truthy (Js.trim (spaced (finalFragments (map snd events))))
                 then Some (Js.trim (spaced (finalFragments (map snd events))))
                 else None).
  { unfold bufferedAnswer. now rewrite Hbuf. }
  destruct (Harm (or_introl Hne)) as [id [A1 A2]].
  pose proof I as [_ [_ [_ [_ [_ [_ [id' [I1 [I2 I3]]]]]]]]].
  assert (id' = id) by congruence. subst id'.
  assert (Estep : step r (Timeout id) s'
                  = if Js.truthy (Js.trim (spaced (finalFragments (map snd events))))
                    then setFinalTranscriptBuffer EmptyString
                           (processUserResponse r
                              (Js.trim (spaced (finalFragments (map snd events))))
                              (clearTimeout id s'))
                    else clearTimeout id s').
  { rewrite (step_Timeout _ _ _ _ A2). cbn [callback fire].
    unfold silenceExpired.
    change (bufferedAnswer (clearTimeout id s')) with (bufferedAnswer s').
    rewrite Ha.
    destruct (Js.truthy (Js.trim (spaced (finalFragments (map snd events)))));
      reflexivity. }
  exists id, last, calls.
  split.
  { specialize (R []). rewrite app_nil_r in R. exact R. }
  split; [exact Hlast|]. split; [exact A1|]. split; [exact I2|].
  split; [exact A2|]. split; [exact I3|]. split; [exact Ha|].
  split; [|exact Estep].
  rewrite R. cbn [runAt].
  assert (C1 : (last + 2000 <? now') = false) by (apply Nat.ltb_ge; lia).
  assert (C2 : overdue (last + 2000) calls s' = false).
  { apply (onTime_not_overdue (nextTimer (browser s)) (Some last)); [exact I|].
    intros l Hl. injection Hl as <-. apply le_n. }
  assert (C3 : early (last + 2000) calls (Timeout id) s' = false).
  { unfold early. rewrite A2. unfold dueAt. cbn [fst snd delay]. rewrite I3.
    apply Nat.ltb_irrefl. }
  rewrite C1, C2, C3. cbn [orb]. eexists. reflexivity.
Qed.

(** C6, as the claim words it, fails: two fragments are not concatenated,
    a space separates them. *)
Lemma buffered_answer_is_not_the_concatenation :
  let fragments := ["I worked on"; "compilers"] in
  let s :=
    run sampleRender (map (fun f => RecognitionResult [(f, true)]) fragments)
      listening in
  bufferedAnswer s = Some "I worked on compilers"
  /\ bufferedAnswer s <> Some (concatenation fragments).
Proof. cbv zeta. split; [reflexivity | vm_compute; discriminate]. Qed.

End Buffer.

(** Two final fragments, 1800 ms apart, with an interim result between
    them. *)
Lemma buffered_answer_joins_fragments_witness :
  let events :=
    [(0, [("I worked on", true)]); (900, [("compil", false)]);
     (1800, [("compilers", true)])] in
  recognition (browser listening) = RecActive
  /\ wellFormed listening = true
  /\ finalTranscriptBuffer (refs listening) = EmptyString
  /\ silenceTimers listening = []
  /\ finalFragments (map snd events) <> []
  /\ withinWindow None 0 events
  /\ bufferedAnswer
       (run sampleRender (map RecognitionResult (map snd events)) listening)
     = Some "I worked on compilers".
Proof.
  cbv zeta.
  set (events := [(0, [("I worked on", true)]); (900, [("compil", false)]);
                  (1800, [("compilers", true)])]).
  assert (Hr : recognition (browser listening) = RecActive) by computed.
  assert (Hw : wellFormed listening = true) by computed.
  assert (Hb : finalTranscriptBuffer (refs listening) = EmptyString) by computed.
  assert (Hs : silenceTimers listening = []) by computed.
  assert (Hne : finalFragments (map snd events) <> []) by discriminate.
  assert (Hg : withinWindow None 0 events) by (cbn; lia).
  split; [exact Hr|]. split; [exact Hw|]. split; [exact Hb|]. split; [exact Hs|].
  split; [exact Hne|]. split; [exact Hg|].
  destruct (buffered_answer_joins_fragments sampleRender events listening
              Hr Hw Hb Hs Hne Hg) as [id [last [calls [_ [_ [_ [_ [_ [_ [H _]]]]]]]]]].
  by_value H.
Defined.

(** A fragment that comes 2500 ms after the one before it comes after the
    expiry of the silence timeout: there is no such run of results only. *)
Lemma late_fragment_is_a_second_turn :
  runAt sampleRender
    (resultsAt [(0, [("I worked on", true)]); (2500, [("compilers", true)])])
    0 listening []
  = None.
Proof. vm_compute. reflexivity. Qed.

(** ** A finish phrase *)

(** C7, as the code has it.  A text with a finish phrase and with neither an
    advance nor a repeat phrase: the submit-answer request is sent, and
    however it settles the completion request follows and the screen shows
    the analysis in progress; the number of questions plays no part. *)
Theorem finish_phrase_saves_and_completes
    (r : Render.t) (text : string) (s : State) (o : Outcome) :
  classified text Finish ->
  wellFormed s = true ->
  let asked := nth_error (Render.questions r) (Render.currentQuestion r) in
  let s1 := processUserResponse r text s in
  let s2 := step r (Settled (nextFetch (browser s)) o) s1 in
  requests (log s1) = requests (log s) ++ [SubmitAnswer asked text]
  /\ requests (log s2)
     = requests (log s) ++ [SubmitAnswer asked text; CompleteInterview]
  /\ lookup (S (nextFetch (browser s))) (fetches (browser s2)) = Some AwaitComplete
  /\ loading (ui s2) = true
  /\ statusMessage (ui s2) = StatusAnalyzing.
Proof.
  intros Hc Hwf. cbv zeta.
  apply classified_iff in Hc.
  rewrite processUserResponse_commandOf, Hc.
  destruct (thinking_fetches s) as [Hf [Hn Hl]].
  pose proof (wellFormed_fetches _ Hwf) as Hfr.
  unfold saveCurrentAnswer.
  rewrite <- Hn.
  assert (Hfr' : freshIds (nextFetch (browser (thinking s)))
                   (fetches (browser (thinking s))) = true)
    by (now rewrite Hf, Hn).
  rewrite (step_Settled_fresh r (thinking s) _ _ o _ eq_refl Hfr').
  cbn [resume resumeSave].
  set (q := SubmitAnswer _ text).
  split; [unfold fetch; cbn -[thinking]; now rewrite Hl|].
  assert (E : forall x, requests (log x) = requests (log (settled q (thinking s))) ->
                fetches (browser x) = fetches (browser (thinking s)) ->
                nextFetch (browser x) = S (nextFetch (browser (thinking s))) ->
    requests (log (completeInterview x))
      = requests (log s) ++ [q; CompleteInterview]
    /\ lookup (S (nextFetch (browser (thinking s))))
         (fetches (browser (completeInterview x))) = Some AwaitComplete
    /\ loading (ui (completeInterview x)) = true
    /\ statusMessage (ui (completeInterview x)) = StatusAnalyzing).
  { intros x Hx Hxf Hxn.
    destruct (completeInterview_sends x) as [Hr [_ [Hfs [Hld [Hst _]]]]].
    rewrite Hr, Hfs, Hld, Hst, Hx, Hxf, Hxn.
    split; [unfold settled; cbn -[thinking]; now rewrite Hl, <- app_assoc|].
    split; [apply lookup_fresh; now apply freshIds_S|].
    split; reflexivity. }
  destruct o; apply E; reflexivity.
Qed.

(** "I think I am done", said on the first of three questions. *)
Lemma finish_phrase_saves_and_completes_witness :
  let text := "I think I am done" in
  let s := step sampleRender (RecognitionResult [(text, true)]) listening in
  classified text Finish
  /\ wellFormed s = true
  /\ requests
       (log (step sampleRender (Settled 1 Rejected)
               (processUserResponse sampleRender text s)))
     = [SubmitAnswer (Some "Tell me about yourself.") text; CompleteInterview].
Proof.
  cbv zeta.
  set (text := "I think I am done").
  set (s := step sampleRender (RecognitionResult [(text, true)]) listening).
  assert (Hc : classified text Finish) by (apply classified_iff; computed).
  assert (Hw : wellFormed s = true) by computed.
  split; [exact Hc|]. split; [exact Hw|].
  pose proof (proj1 (proj2
                (finish_phrase_saves_and_completes sampleRender text s
                   Rejected Hc Hw))) as H.
  by_value H.
Defined.

(** C7, as the claim words it, fails: the text has the finish phrase "done"
    and the repeat phrase "repeat"; the question is spoken again, nothing is
    submitted and the interview is not completed. *)
Lemma finish_phrase_after_repeat_phrase_does_not_complete :
  let text := "Could you repeat that? I was not done reading" in
  let s :=
    run sampleRender
      (says text
       ++ [RecognitionEnd; Timeout 8; UtteranceStart; UtteranceEnd;
           Timeout 9; Timeout 10; RecognitionStart])
      listening in
  mentions finishPhrases text
  /\ requests (log s) = []
  /\ loading (ui s) = false
  /\ completed (log s) = [AfterGreeting; AfterQuestion; AfterRepeat]
  /\ isListening (ui s) = true.
Proof.
  cbv zeta. split; [apply mentions_finish; reflexivity|].
  repeat split; vm_compute; reflexivity.
Qed.

(** ** Leaving the screen *)

(** The cleanup stops capture, empties the speech queue and clears the
    silence timer. *)
Lemma unmount_cleans_up (s : State) :
  mounted s = true ->
  let s' := unmount s in
  mounted s' = false
  /\ utterances (browser s') = []
  /\ (recognitionRef (refs s) = true ->
      recognition (browser s') <> RecActive
      /\ recognition (browser s') <> RecStarting)
  /\ (forall id, silenceTimerRef (refs s) = Some id ->
                 lookup id (timers (browser s')) = None).
Proof.
  intros Hm. cbv zeta.
  destruct s as [u [rr st fb] [rec us sp ts nt fs nf] lg m].
  cbn in Hm. subst m.
  destruct rr, rec, st as [old|]; cbn -[lookup discard];
    (split; [reflexivity|]); (split; [reflexivity|]);
    (split; [intros H; split; discriminate|]);
    intros id Hid; try discriminate; injection Hid as <-; apply lookup_discard.
Qed.

Lemma lookup_discard_other {A : Type} (id id' : nat) (l : list (nat * A)) :
  id <> id' -> lookup id (discard id' l) = lookup id l.
Proof.
  intros Hne. unfold discard. induction l as [|[i a] l IH]; simpl; [reflexivity|].
  destruct (Nat.eqb_spec i id') as [->|Hi]; simpl.
  - destruct (Nat.eqb_spec id' id); [congruence | exact IH].
  - destruct (Nat.eqb_spec i id); [reflexivity | exact IH].
Qed.

(** Every other timeout, and every request in flight, outlives the
    cleanup. *)
Lemma unmount_keeps_the_rest (s : State) (id : nat) :
  silenceTimerRef (refs s) <> Some id ->
  lookup id (timers (browser (unmount s))) = lookup id (timers (browser s))
  /\ fetches (browser (unmount s)) = fetches (browser s).
Proof.
  intros Hne.
  destruct s as [u [rr st fb] [rec us sp ts nt fs nf] lg m].
  cbn in Hne.
  destruct m, rr, rec, st as [old|]; cbn -[lookup discard];
    (split; [|reflexivity]); try reflexivity;
    apply lookup_discard_other; congruence.
Qed.

(** C8. The screen is left after the greeting, while the timeout that asks
    the first question is pending.  The cleanup does not clear it: two
    seconds later the question is queued for playback and spoken, and after
    it capture starts, on a screen that is gone. *)
Theorem timeout_fires_after_unmount :
  let left :=
    run sampleRender [Timeout 1; Timeout 2; UtteranceStart; UtteranceEnd; Unmount]
      (mount true sampleQuestions) in
  let asked := run sampleRender [Timeout 3; Timeout 4] left in
  let s :=
    run sampleRender
      [UtteranceStart; UtteranceEnd;              (* the question is spoken *)
       Timeout 5; Timeout 6; RecognitionStart]    (* capture starts *)
      asked in
  mounted left = false
  /\ timers (browser left) = [(3, MkTimer 2000 (CbAskQuestion 0))]
  /\ utterances (browser asked)
     = [MkUtterance "Tell me about yourself." (Some AfterQuestion)]
  /\ mounted s = false
  /\ completed (log s) = [AfterGreeting; AfterQuestion]
  /\ recognition (browser s) = RecActive.
Proof. cbv zeta. repeat split; vm_compute; reflexivity. Qed.

(** ** Speaking *)



(** ** Saving an answer *)

(** C10. A rejected submit-answer request is caught inside
    [saveCurrentAnswer]: no alert is raised and the answer is not appended to
    the conversation, where a reply appends it.  The caller goes on in both
    cases, and apart from the conversation the two states are the same; after
    a normal answer the same follow-up request is in flight. *)
Theorem save_failure_is_swallowed
    (r : Render.t) (text : string) (next : AfterSave) (s : State)
    (ok : bool) (body : Body) :
  wellFormed s = true ->
  let id := nextFetch (browser s) in
  let asked := nth_error (Render.questions r) (Render.currentQuestion r) in
  let saving := saveCurrentAnswer r text next s in
  let failed := step r (Settled id Rejected) saving in
  let saved := step r (Settled id (Responded ok body)) saving in
  alerts (log failed) = alerts (log s)
  /\ conversationHistory (ui failed) = conversationHistory (ui s)
  /\ conversationHistory (ui saved)
     = conversationHistory (ui s) ++ [answer text (Render.currentQuestion r)]
  /\ log failed = log saved
  /\ browser failed = browser saved
  /\ refs failed = refs saved
  /\ (next = ThenGenerate ->
      requests (log failed)
        = requests (log s)
          ++ [SubmitAnswer asked text;
              GenerateAIResponse asked text (Render.currentQuestion r + 1)
                (length (Render.questions r))]
      /\ lookup (S id) (fetches (browser failed)) = Some (AwaitGenerate text)).
Proof.
  intros Hwf. pose proof (wellFormed_fetches _ Hwf) as Hf. cbv zeta.
  unfold saveCurrentAnswer.
  rewrite !(step_Settled_fresh r s _ _ _ _ eq_refl Hf).
  destruct next; cbn [resume resumeSave]; set (q := SubmitAnswer _ text).
  - rewrite completeInterview_history.
    destruct (completeInterview_sends (settled q s)) as [_ [Ha [_ [_ [_ Hh]]]]].
    split; [now rewrite Ha|]. split; [now rewrite Hh|].
    split; [rewrite history_append; now rewrite Hh|].
    split; [reflexivity|]. split; [reflexivity|]. split; [reflexivity|].
    discriminate.
  - repeat split; try reflexivity.
    + unfold generateAIResponse, fetch, settled, q. cbn.
      now rewrite <- app_assoc.
    + unfold generateAIResponse, fetch, settled. cbn -[lookup].
      apply lookup_fresh. now apply freshIds_S.
Qed.

(** The first answer cannot be saved: no connection. *)
Lemma save_failure_is_swallowed_witness :
  let text := "I worked on compilers" in
  let s := thinking (step sampleRender (RecognitionResult [(text, true)]) listening) in
  wellFormed s = true
  /\ alerts (log (step sampleRender (Settled 1 Rejected)
                    (saveCurrentAnswer sampleRender text ThenGenerate s))) = []
  /\ conversationHistory
       (ui (step sampleRender (Settled 1 Rejected)
              (saveCurrentAnswer sampleRender text ThenGenerate s)))
     = [question (Some "Tell me about yourself.") 0].
Proof.
  cbv zeta.
  set (text := "I worked on compilers").
  set (s := thinking (step sampleRender (RecognitionResult [(text, true)]) listening)).
  assert (Hw : wellFormed s = true) by computed.
  split; [exact Hw|].
  pose proof (save_failure_is_swallowed sampleRender text ThenGenerate s
                true BodyNull Hw) as H.
  cbv zeta in H. destruct H as [H1 [H2 _]].
  split; [by_value H1 | by_value H2].
Defined.

(** * Further properties *)

(** ** White space and results that are not final *)




(** White space outside ASCII is removed too, and the last byte of a
    character that is no white space stays. *)
Lemma trim_white_space_outside_ascii :
  let nbsp := Js.ofBytes [194; 160] in
  let lineSeparator := Js.ofBytes [226; 128; 168] in
  let voila := ("voil" ++ Js.ofBytes [195; 160])%string in
  Js.trim nbsp = EmptyString
  /\ Js.trim (nbsp ++ " I am done" ++ lineSeparator ++ nbsp) = "I am done"
  /\ Js.trim (" " ++ voila ++ nbsp) = voila.
Proof. cbv zeta. repeat split; reflexivity. Qed.







(** X2. Results that are not final change the transcript on display and
    nothing else: however many of them arrive, the buffer, the silence timer
    and every other timeout, utterance and request are as before.  Speech
    that the recogniser has not finalised does not postpone the expiry of the
    silence timer. *)
Theorem interim_results_only_show
    (r : Render.t) (events : list (list (string * bool))) (s : State) :
  recognition (browser s) = RecActive ->
  forallb (fun e => match finalsOf e with [] => true | _ => false end) events = true ->
  exists shown, run r (map RecognitionResult events) s = setTranscript shown s.
Proof.
  revert s; induction events as [|e events IH]; intros s Hrec Hall.
  - exists (transcript (ui s)). now destruct s as [[] ? ? ? ?].
  - change (run r (map RecognitionResult (e :: events)) s)
      with (run r (map RecognitionResult events) (step r (RecognitionResult e) s)).
    cbn [forallb] in Hall. apply andb_true_iff in Hall. destruct Hall as [He Hall].
    assert (He' : finalsOf e = []) by (destruct (finalsOf e); [reflexivity | discriminate]).
    assert (E : step r (RecognitionResult e) s = onresult e s)
      by (unfold step; now rewrite Hrec).
    rewrite E, (onresult_interim e s He').
    destruct (IH (setTranscript
                    (Js.orElse (concatenation (interimsOf e))
                       (finalTranscriptBuffer (refs s))) s) Hrec Hall)
      as [shown H].
    exists shown. rewrite H. reflexivity.
Qed.

(** Two events of interim results, while listening. *)
Lemma interim_results_only_show_witness :
  let events := [[("I wor", false)]; [("I worked", false); (" on", false)]] in
  recognition (browser listening) = RecActive
  /\ forallb (fun e => match finalsOf e with [] => true | _ => false end) events = true
  /\ exists shown,
       run sampleRender (map RecognitionResult events) listening
       = setTranscript shown listening.
Proof.
  cbv zeta.
  set (events := [[("I wor", false)]; [("I worked", false); (" on", false)]]).
  assert (Hr : recognition (browser listening) = RecActive) by computed.
  assert (Ha : forallb (fun e => match finalsOf e with [] => true | _ => false end)
                 events = true) by reflexivity.
  split; [exact Hr|]. split; [exact Ha|].
  exact (interim_results_only_show sampleRender events listening Hr Ha).
Defined.

(** ** The silence timer, in every session *)

(** X3. In every state of a session, whatever the order of the events
    (results after [stop()] included), at most one timeout of the silence
    callback is pending, and it is the one [silenceTimerRef] holds, set for
    two seconds: a final result replaces the timeout, [stopListening] clears
    it. *)
Theorem silence_timer_is_single
    (supported : bool) (qs : option (list string)) (s : State) :
  reachable supported qs s ->
  silenceTimers s = []
  \/ exists id, silenceTimerRef (refs s) = Some id
                /\ silenceTimers s = [(id, MkTimer 2000 CbSilence)].
Proof.
  induction 1 as [|s e _ IH]; [apply ost_mount | now apply ost_step].
Qed.

(** Two final results in a row: the second timeout has replaced the first. *)
Lemma silence_timer_is_single_witness :
  let s :=
    run sampleRender
      (untilListening ++ [RecognitionResult [("Well,", true)];
                          RecognitionResult [("I worked on", true)]])
      (mount true sampleQuestions) in
  reachable true sampleQuestions s
  /\ silenceTimerRef (refs s) = Some 8
  /\ (silenceTimers s = []
      \/ exists id, silenceTimerRef (refs s) = Some id
                    /\ silenceTimers s = [(id, MkTimer 2000 CbSilence)]).
Proof.
  cbv zeta.
  set (s := run sampleRender _ (mount true sampleQuestions)).
  assert (Hr : reachable true sampleQuestions s)
    by (apply reachable_run, reachable_mount).
  split; [exact Hr|]. split; [computed|].
  exact (silence_timer_is_single true sampleQuestions s Hr).
Defined.

Lemma stopListening_stopped (s : State) :
  oneSilenceTimer s ->
  recognitionRef (refs s) = true ->
  silenceTimers (stopListening s) = []
  /\ silenceTimerRef (refs (stopListening s)) = None
  /\ isListening (ui (stopListening s)) = false
  /\ atRest (recognition (browser (stopListening s))) = true.
Proof.
  intros H Href. unfold stopListening. cbv zeta.
  set (s1 := match silenceTimerRef (refs s) with Some _ => _ | None => _ end).
  assert (H1 : silenceTimers s1 = [] /\ silenceTimerRef (refs s1) = None
               /\ recognitionRef (refs s1) = true).
  { unfold s1. destruct (silenceTimerRef (refs s)) as [id|] eqn:E.
    - split; [exact (silenceTimers_cleared id s H E)|]. split; [reflexivity | exact Href].
    - split; [exact (silenceTimers_none s H E)|]. split; [exact E | exact Href]. }
  clearbody s1. destruct H1 as [Ha [Hb Hc]]. rewrite Hc.
  unfold recognitionStop.
  destruct (recognition (browser s1)) eqn:Hv; cbn; rewrite ?Hv;
    repeat split; try reflexivity; assumption.
Qed.

(** X4. Whatever the text, [processUserResponse] begins by ending capture:
    when it returns no silence timeout is pending and the ref is null, the
    recogniser has been told to stop, [isListening] is false, the transcript
    on display is empty and the status says that the AI is thinking. *)
Theorem turn_starts_with_capture_stopped
    (r : Render.t) (text : string) (s : State) :
  oneSilenceTimer s ->
  recognitionRef (refs s) = true ->
  let s' := processUserResponse r text s in
  silenceTimers s' = []
  /\ silenceTimerRef (refs s') = None
  /\ isListening (ui s') = false
  /\ atRest (recognition (browser s')) = true
  /\ transcript (ui s') = EmptyString
  /\ statusMessage (ui s') = StatusThinking
  /\ waitingForResponse (ui s') = true.
Proof.
  intros H Href. cbv zeta.
  destruct (stopListening_stopped s H Href) as [H1 [H2 [H3 H4]]].
  rewrite processUserResponse_commandOf.
  assert (T1 : silenceTimers (thinking s) = []) by exact H1.
  assert (T2 : silenceTimerRef (refs (thinking s)) = None) by exact H2.
  assert (T3 : isListening (ui (thinking s)) = false) by exact H3.
  assert (T4 : atRest (recognition (browser (thinking s))) = true) by exact H4.
  assert (T5 : transcript (ui (thinking s)) = EmptyString) by reflexivity.
  assert (T6 : statusMessage (ui (thinking s)) = StatusThinking) by reflexivity.
  assert (T7 : waitingForResponse (ui (thinking s)) = true) by reflexivity.
  set (x := thinking s) in *. clearbody x.
  destruct (commandOf text);
    unfold handleNextQuestion, saveCurrentAnswer, fetch;
    try destruct (Render.currentQuestion r <? length (Render.questions r) - 1);
    try destruct (nth_error (Render.questions r) (Render.currentQuestion r));
    cbn [speakAndWait orAbort]; rewrite ?silenceTimers_setTimeout;
    cbn -[silenceTimers]; rewrite ?app_nil_r;
    repeat split; assumption.
Qed.

(** A normal answer, at the expiry of its silence timeout. *)
Lemma turn_starts_with_capture_stopped_witness :
  let text := "I worked on compilers" in
  let s := clearTimeout 7 (step sampleRender (RecognitionResult [(text, true)]) listening) in
  oneSilenceTimer s
  /\ recognitionRef (refs s) = true
  /\ isListening (ui s) = true
  /\ isListening (ui (processUserResponse sampleRender text s)) = false.
Proof.
  cbv zeta.
  set (text := "I worked on compilers").
  set (s := clearTimeout 7 (step sampleRender (RecognitionResult [(text, true)]) listening)).
  assert (Ho : oneSilenceTimer s) by (left; computed).
  assert (Hr : recognitionRef (refs s) = true) by computed.
  split; [exact Ho|]. split; [exact Hr|]. split; [computed|].
  pose proof (turn_starts_with_capture_stopped sampleRender text s Ho Hr) as H.
  cbv zeta in H. exact (proj1 (proj2 (proj2 H))).
Defined.

(** ** The turns, one by one *)

Lemma step_RecognitionEnd_speak
    (r : Render.t) (d : nat) (cb : Callback) (s : State) :
  step r RecognitionEnd (setTimeout d cb (synthCancel s))
  = setTimeout d cb (synthCancel (step r RecognitionEnd s)).
Proof. unfold step. cbn. destruct (recognition (browser s)); reflexivity. Qed.

Lemma wf_stopListening (s : State) :
  wellFormed s = true -> wellFormed (stopListening s) = true.
Proof.
  intros H. unfold stopListening, recognitionStop.
  destruct (silenceTimerRef (refs s)) as [id|]; cbn.
  - pose proof (wf_clearTimeout id s H) as H'.
    destruct (recognitionRef (refs s)); [|exact H'].
    destruct (recognition (browser s)); exact H'.
  - destruct (recognitionRef (refs s)); [|exact H].
    destruct (recognition (browser s)); exact H.
Qed.

(** The state in which a turn speaks: [processUserResponse] has stopped
    capture and the recogniser has reported its end. *)
Lemma capture_ended (r : Render.t) (s : State) :
  wellFormed s = true ->
  let x := step r RecognitionEnd (thinking s) in
  wellFormed x = true
  /\ recognition (browser x) = RecInactive
  /\ recognitionRef (refs x) = recognitionRef (refs s)
  /\ nextTimer (browser x) = nextTimer (browser s)
  /\ log x = log s
  /\ fetches (browser x) = fetches (browser s)
  /\ conversationHistory (ui x) = conversationHistory (ui s)
  /\ currentQuestion (ui x) = currentQuestion (ui s)
  /\ silenceTimerRef (refs x) = None.
Proof.
  intros Hwf. cbv zeta.
  assert (Hwf' : wellFormed (thinking s) = true) by (now apply wf_stopListening).
  split; [now apply wf_step|].
  clear Hwf Hwf'.
  destruct s as [u [rr st fb] [v us sp ts nt fs nf] lg m].
  unfold thinking, stopListening, recognitionStop, step.
  destruct st, rr, v; cbn; repeat split; reflexivity.
Qed.

Lemma speak_then_listen
    (r : Render.t) (text : string) (k : OnComplete) (x : State) (p : Playback) :
  wellFormed x = true ->
  recognitionRef (refs x) = true ->
  recognition (browser x) = RecInactive ->
  resumesCapture k = true ->
  let t := nextTimer (browser x) in
  let called := setTimeout 100 (CbSpeak text (Some k)) (synthCancel x) in
  let s' := run r (spokenThenListening t p) called in
  utterances (browser (step r (Timeout t) called)) = [MkUtterance text (Some k)]
  /\ timers (browser (run r (Timeout t :: playback p) called))
     = timers (browser x) ++ [(S t, MkTimer (pause k) CbStartContinuousListening)]
  /\ isListening (ui s') = true
  /\ recognition (browser s') = RecActive
  /\ statusMessage (ui s') = StatusListening
  /\ utterances (browser s') = []
  /\ timers (browser s') = timers (browser x)
  /\ fetches (browser s') = fetches (browser x)
  /\ requests (log s') = requests (log x)
  /\ completed (log s') = completed (log x) ++ [k]
  /\ conversationHistory (ui s') = conversationHistory (ui x)
  /\ currentQuestion (ui s') = currentQuestion (ui x)
  /\ refs s' = refs x
  /\ waitingForResponse (ui s')
     = match k with AfterQuestion => waitingForResponse (ui x) | _ => false end.
Proof.
  intros Hwf Href Hrec Hk t.
  pose proof (wellFormed_timers _ Hwf) as Ht. fold t in Ht.
  pose proof (freshIds_S _ _ Ht) as Ht1.
  pose proof (freshIds_S _ _ Ht1) as Ht2.
  cbv zeta. unfold spokenThenListening.
  change (run r (Timeout t :: playback p) ?s)
    with (run r (playback p) (step r (Timeout t) s)).
  rewrite !run_app.
  change (run r [Timeout t] ?s) with (step r (Timeout t) s).
  rewrite (step_Timeout_fresh r (synthCancel x) _ _ t eq_refl Ht).
  cbn [fire].
  erewrite run_playback; [ | reflexivity | reflexivity ].
  cbn [callOnComplete utteranceOnComplete].
  assert (E : exists f : State -> State,
             (forall y, wellFormed (f y) = wellFormed y
                        /\ browser (f y) = browser y /\ refs (f y) = refs y
                        /\ requests (log (f y)) = requests (log y)
                        /\ completed (log (f y)) = completed (log y) ++ [k]
                        /\ conversationHistory (ui (f y)) = conversationHistory (ui y)
                        /\ currentQuestion (ui (f y)) = currentQuestion (ui y)
                        /\ waitingForResponse (ui (f y))
                           = match k with
                             | AfterQuestion => waitingForResponse (ui y)
                             | _ => false
                             end)
             /\ forall y, onComplete k y
                          = setTimeout (pause k) CbStartContinuousListening (f y)).
  { destruct k; try discriminate Hk.
    - exists (logCompleted AfterQuestion). split; [|reflexivity].
      intros y. repeat split.
    - exists (fun y => setWaitingForResponse false (logCompleted AfterRepeat y)).
      split; [|reflexivity]. intros y. repeat split.
    - exists (fun y => setWaitingForResponse false
                         (logCompleted (AfterAIResponse aiResponse userAnswer) y)).
      split; [intros y; repeat split|].
      intros y. cbn [onComplete]. cbn in Hk. unfold movesOn in Hk.
      apply negb_true_iff in Hk. now rewrite Hk.
    - exists (fun y => setWaitingForResponse false (logCompleted AfterFallback y)).
      split; [|reflexivity]. intros y. repeat split. }
  destruct E as [f [Hf E]]. rewrite E.
  match goal with |- context [f ?a] => set (y := a) end.
  destruct (Hf y) as [_ [Hb [Hr [Hq [Hc [Hh [Hcq Hw]]]]]]].
  assert (Hyb : browser y
                = MkBrowser RecInactive [] false (timers (browser x)) (S t)
                    (fetches (browser x)) (nextFetch (browser x)))
    by (cbn; now rewrite Hrec).
  assert (Hyr : refs y = refs x) by reflexivity.
  assert (Hyl : log y = log x) by reflexivity.
  assert (Hyh : conversationHistory (ui y) = conversationHistory (ui x)) by reflexivity.
  assert (Hyq : currentQuestion (ui y) = currentQuestion (ui x)) by reflexivity.
  assert (Hyw : waitingForResponse (ui y) = waitingForResponse (ui x)) by reflexivity.
  clearbody y. rewrite Hyb in Hb. rewrite Hyr in Hr. rewrite Hyl in Hq, Hc.
  rewrite Hyh in Hh. rewrite Hyq in Hcq. rewrite Hyw in Hw.
  set (z := f y) in *. clearbody z. clear E Hf f y Hyb Hyr Hyl Hyh Hyq Hyw.
  split; [reflexivity|].
  split; [unfold setTimeout; cbn; now rewrite Hb|].
  unfold run. cbn [fold_left].
  erewrite step_Timeout_fresh; [ | now rewrite Hb | now rewrite Hb ].
  cbn [fire].
  erewrite startContinuousListening_inactive;
    [ | cbn; now rewrite Hr | cbn; now rewrite Hb ].
  erewrite step_Timeout_fresh;
    [ | cbn; rewrite Hb; reflexivity | cbn; now rewrite Hb ].
  cbn [fire].
  erewrite recognitionStart_inactive; [ | cbn; now rewrite Hb ].
  cbn [orAbort].
  erewrite step_RecognitionStart; [ | reflexivity ].
  cbn. rewrite Hb, Hr, Hq, Hc, Hh, Hcq, Hw.
  repeat split; reflexivity.
Qed.

(** X5. A repeat phrase, with no advance phrase: the question at the index
    of the render is spoken again and, however its playback ends, capture
    restarts 1000 ms and 300 ms later.  Nothing is sent, nothing is appended
    to the conversation and the question index stays. *)
Theorem repeat_phrase_asks_again
    (r : Render.t) (text asked : string) (s : State) (p : Playback) :
  classified text Repeat ->
  nth_error (Render.questions r) (Render.currentQuestion r) = Some asked ->
  wellFormed s = true ->
  recognitionRef (refs s) = true ->
  let t := nextTimer (browser s) in
  let s1 := step r RecognitionEnd (processUserResponse r text s) in
  let s' := run r (spokenThenListening t p) s1 in
  utterances (browser (step r (Timeout t) s1)) = [MkUtterance asked (Some AfterRepeat)]
  /\ lookup (S t) (timers (browser (run r (Timeout t :: playback p) s1)))
     = Some (MkTimer 1000 CbStartContinuousListening)
  /\ isListening (ui s') = true
  /\ recognition (browser s') = RecActive
  /\ requests (log s') = requests (log s)
  /\ fetches (browser s') = fetches (browser s)
  /\ conversationHistory (ui s') = conversationHistory (ui s)
  /\ currentQuestion (ui s') = currentQuestion (ui s)
  /\ completed (log s') = completed (log s) ++ [AfterRepeat].
Proof.
  intros Hc Hq Hwf Href. cbv zeta.
  apply classified_iff in Hc.
  rewrite processUserResponse_commandOf, Hc, Hq.
  cbn [speakAndWait orAbort]. rewrite step_RecognitionEnd_speak.
  destruct (capture_ended r s Hwf) as [Hw [Hi [Hr [Hn [Hl [Hf [Hh [Hcq _]]]]]]]].
  set (x := step r RecognitionEnd (thinking s)) in *.
  rewrite <- Hn.
  assert (Href' : recognitionRef (refs x) = true) by (now rewrite Hr).
  destruct (speak_then_listen r asked AfterRepeat x p Hw Href' Hi eq_refl)
    as [H1 [H2 [H3 [H4 [_ [_ [_ [H8 [H9 [H10 [H11 [H12 _]]]]]]]]]]]].
  rewrite H2, H3, H4, H8, H9, H10, H11, H12, Hl, Hf, Hh, Hcq.
  split; [exact H1|].
  split; [apply lookup_fresh, freshIds_S, wellFormed_timers, Hw|].
  repeat split; reflexivity.
Qed.

(** The candidate asks for the first question again. *)
Lemma repeat_phrase_asks_again_witness :
  let text := "Sorry, could you say that again?" in
  let s := clearTimeout 7 (step sampleRender (RecognitionResult [(text, true)]) listening) in
  classified text Repeat
  /\ nth_error (Render.questions sampleRender) (Render.currentQuestion sampleRender)
     = Some "Tell me about yourself."
  /\ wellFormed s = true
  /\ recognitionRef (refs s) = true
  /\ requests
       (log (run sampleRender
               (RecognitionEnd :: spokenThenListening 8 PlayedToEnd)
               (processUserResponse sampleRender text s))) = [].
Proof.
  cbv zeta.
  set (text := "Sorry, could you say that again?").
  set (s := clearTimeout 7 (step sampleRender (RecognitionResult [(text, true)]) listening)).
  assert (Hc : classified text Repeat) by (apply classified_iff; computed).
  assert (Hw : wellFormed s = true) by computed.
  assert (Hr : recognitionRef (refs s) = true) by computed.
  split; [exact Hc|]. split; [reflexivity|]. split; [exact Hw|]. split; [exact Hr|].
  pose proof (repeat_phrase_asks_again sampleRender text "Tell me about yourself."
                s PlayedToEnd Hc eq_refl Hw Hr) as H.
  cbv zeta in H. destruct H as [_ [_ [_ [_ [H _]]]]].
  assert (E : requests (log s) = []) by computed.
  rewrite E in H.
  by_value H.
Defined.

(** The state in which the rest of an [async] function runs, capture having
    ended. *)
Lemma settle_after_capture
    (r : Render.t) (s : State) (id : nat) (k : Await) (o : Outcome) :
  wellFormed s = true ->
  lookup id (fetches (browser s)) = Some k ->
  let x := setFetches (discard id (fetches (browser s))) (nextFetch (browser s))
             (step r RecognitionEnd s) in
  run r [RecognitionEnd; Settled id o] s = resume r k o x
  /\ wellFormed x = true
  /\ recognition (browser x) = RecInactive
  /\ refs x = refs s
  /\ timers (browser x) = timers (browser s)
  /\ nextTimer (browser x) = nextTimer (browser s)
  /\ log x = log s
  /\ fetches (browser x) = discard id (fetches (browser s))
  /\ conversationHistory (ui x) = conversationHistory (ui s)
  /\ currentQuestion (ui x) = currentQuestion (ui s).
Proof.
  intros Hwf Hl. cbv zeta.
  destruct (RecognitionEnd_keeps r s) as [Hrec [Ht [Hn [Hf [Hnf [Hr Hlg]]]]]].
  assert (Hwf' : wellFormed (step r RecognitionEnd s) = true) by (now apply wf_step).
  split.
  { unfold run. cbn [fold_left].
    rewrite (step_Settled r _ id k o) by (now rewrite Hf).
    now rewrite Hf, Hnf. }
  split.
  { pose proof (wf_settle id _ Hwf') as H. now rewrite Hf, Hnf in H. }
  cbn -[step]. rewrite Hrec, Ht, Hn, Hr, Hlg.
  repeat split; try reflexivity.
  all: unfold step; destruct (recognition (browser s)); reflexivity.
Qed.

(** X6. The follow-up request is answered with a [response] text that has
    no cue to move on: the text is appended to the conversation and spoken,
    and when its playback is over capture restarts on the same question.  No
    request is sent on the way. *)
Theorem followup_is_spoken_then_listening
    (r : Render.t) (s : State) (id : nat) (userAnswer aiResponse : string)
    (p : Playback) :
  wellFormed s = true ->
  lookup id (fetches (browser s)) = Some (AwaitGenerate userAnswer) ->
  recognitionRef (refs s) = true ->
  movesOn aiResponse = false ->
  let t := nextTimer (browser s) in
  let o := Responded true (BodyObject (Some aiResponse)) in
  let s1 := run r [RecognitionEnd; Settled id o] s in
  let s' := run r (spokenThenListening t p) s1 in
  utterances (browser (step r (Timeout t) s1))
    = [MkUtterance aiResponse (Some (AfterAIResponse aiResponse userAnswer))]
  /\ lookup (S t) (timers (browser (run r (Timeout t :: playback p) s1)))
     = Some (MkTimer 1500 CbStartContinuousListening)
  /\ conversationHistory (ui s')
     = conversationHistory (ui s)
       ++ [ai_response (Some aiResponse) (Render.currentQuestion r)]
  /\ isListening (ui s') = true
  /\ recognition (browser s') = RecActive
  /\ waitingForResponse (ui s') = false
  /\ currentQuestion (ui s') = currentQuestion (ui s)
  /\ requests (log s') = requests (log s)
  /\ fetches (browser s') = discard id (fetches (browser s)).
Proof.
  intros Hwf Hl Href Hm. cbv zeta.
  destruct (settle_after_capture r s id _
              (Responded true (BodyObject (Some aiResponse))) Hwf Hl)
    as [E [Hw [Hi [Hr [_ [Hn [Hlg [Hf [Hh Hcq]]]]]]]]].
  rewrite E. cbn [resume resumeGenerate speakAndWait orAbort].
  set (x := setFetches _ _ _) in *. clearbody x.
  set (y := appendConversationHistory _ x).
  rewrite <- Hn.
  assert (Hk : resumesCapture (AfterAIResponse aiResponse userAnswer) = true)
    by (cbn; now rewrite Hm).
  assert (Href' : recognitionRef (refs y) = true) by (cbn; now rewrite Hr).
  destruct (speak_then_listen r aiResponse (AfterAIResponse aiResponse userAnswer)
              y p Hw Href' Hi Hk)
    as [H1 [H2 [H3 [H4 [_ [_ [_ [H8 [H9 [_ [H11 [H12 [_ H14]]]]]]]]]]]]].
  change (nextTimer (browser y)) with (nextTimer (browser x)) in *.
  rewrite H2, H3, H4, H8, H9, H11, H12, H14.
  split; [exact H1|].
  split; [apply lookup_fresh, freshIds_S, (wellFormed_timers y), Hw|].
  cbn. rewrite Hlg, Hf, Hh, Hcq.
  repeat split; reflexivity.
Qed.

(** [speakAndWait] from its call to the call of the continuation. *)
Lemma run_spoken
    (r : Render.t) (text : string) (k : option OnComplete) (x : State)
    (p : Playback) :
  wellFormed x = true ->
  run r (Timeout (nextTimer (browser x)) :: playback p)
    (setTimeout 100 (CbSpeak text k) (synthCancel x))
  = callOnComplete k (setIsSpeaking false (synthCancel (bump x))).
Proof.
  intros Hwf. pose proof (wellFormed_timers _ Hwf) as Ht.
  change (run r (Timeout ?t :: playback p) ?s)
    with (run r (playback p) (step r (Timeout t) s)).
  rewrite (step_Timeout_fresh r (synthCancel x) _ _ _ eq_refl Ht).
  cbn [fire].
  erewrite run_playback; [ | reflexivity | reflexivity ].
  reflexivity.
Qed.

Lemma step_RecognitionEnd_setCurrentQuestion (r : Render.t) (n : nat) (s : State) :
  step r RecognitionEnd (setCurrentQuestion n s)
  = setCurrentQuestion n (step r RecognitionEnd s).
Proof. unfold step. cbn. destruct (recognition (browser s)); reflexivity. Qed.

Lemma wf_bump (s : State) : wellFormed s = true -> wellFormed (bump s) = true.
Proof.
  intros H. pose proof (wellFormed_timers _ H) as Ht.
  pose proof (wellFormed_fetches _ H) as Hf.
  unfold wellFormed, bump. cbn -[freshIds].
  now rewrite Hf, (freshIds_S _ _ Ht).
Qed.

(** [handleNextQuestion] when a question follows, to the point where capture
    is back. *)
Lemma next_question_then_listening
    (r : Render.t) (currentAnswer asked : string) (x : State) (p1 p2 : Playback) :
  wellFormed x = true ->
  recognitionRef (refs x) = true ->
  recognition (browser x) = RecInactive ->
  (Render.currentQuestion r <? length (Render.questions r) - 1) = true ->
  nth_error (Render.questions r) (Render.currentQuestion r + 1) = Some asked ->
  let t := nextTimer (browser x) in
  let nextQ := Render.currentQuestion r + 1 in
  let s1 := run r (Timeout t :: playback p1) (handleNextQuestion r currentAnswer x) in
  let s2 := step r (Timeout (S t)) s1 in
  let s' := run r (spokenThenListening (S (S t)) p2) s2 in
  timers (browser s1) = timers (browser x) ++ [(S t, MkTimer 1000 (CbAskQuestion nextQ))]
  /\ utterances (browser (step r (Timeout (S (S t))) s2))
     = [MkUtterance asked (Some AfterQuestion)]
  /\ currentQuestion (ui s') = nextQ
  /\ conversationHistory (ui s') = conversationHistory (ui x) ++ [question (Some asked) nextQ]
  /\ isListening (ui s') = true
  /\ recognition (browser s') = RecActive
  /\ requests (log s') = requests (log x)
  /\ fetches (browser s') = fetches (browser x)
  /\ completed (log s') = completed (log x) ++ [AfterTransition nextQ; AfterQuestion].
Proof.
  intros Hwf Href Hrec Hlt Hq. cbv zeta.
  unfold handleNextQuestion. rewrite Hlt. cbn [speakAndWait orAbort].
  set (n := Render.currentQuestion r + 1) in *.
  pose proof (run_spoken r transitionLine (Some (AfterTransition n))
                (setCurrentQuestion n x) p1 Hwf) as E.
  change (nextTimer (browser (setCurrentQuestion n x)))
    with (nextTimer (browser x)) in E.
  rewrite E. clear E.
  cbn [callOnComplete onComplete].
  set (y := logCompleted _ _).
  assert (Hy : wellFormed y = true) by (apply (wf_bump x Hwf)).
  assert (Hyn : nextTimer (browser y) = S (nextTimer (browser x))) by reflexivity.
  split; [reflexivity|].
  rewrite <- Hyn.
  rewrite (step_Timeout_fresh r y _ _ _ eq_refl (wellFormed_timers _ Hy)).
  cbn [fire]. unfold askQuestion. fold n. rewrite Hq. cbn [speakAndWait orAbort].
  set (z := appendConversationHistory _ (bump y)).
  assert (Hz : wellFormed z = true) by (apply (wf_bump y Hy)).
  assert (Hzn : nextTimer (browser z) = S (nextTimer (browser y))) by reflexivity.
  rewrite <- Hzn.
  destruct (speak_then_listen r asked AfterQuestion z p2 Hz Href Hrec eq_refl)
    as [H1 [_ [H3 [H4 [_ [_ [_ [H8 [H9 [H10 [H11 [H12 _]]]]]]]]]]]].
  rewrite H3, H4, H8, H9, H10, H11, H12.
  split; [exact H1|].
  cbn. rewrite <- app_assoc. repeat split; reflexivity.
Qed.

Lemma nth_error_next (qs : list string) (i : nat) :
  (i <? length qs - 1) = true -> exists q, nth_error qs (i + 1) = Some q.
Proof.
  intros H. apply Nat.ltb_lt in H.
  destruct (nth_error qs (i + 1)) as [q|] eqn:E; [now exists q|].
  apply nth_error_None in E. lia.
Qed.

Lemma step_RecognitionEnd_handleNextQuestion
    (r : Render.t) (currentAnswer : string) (s : State) :
  step r RecognitionEnd (handleNextQuestion r currentAnswer s)
  = handleNextQuestion r currentAnswer (step r RecognitionEnd s).
Proof.
  unfold handleNextQuestion.
  destruct (Render.currentQuestion r <? length (Render.questions r) - 1);
    cbn [speakAndWait orAbort]; rewrite step_RecognitionEnd_speak;
    [now rewrite step_RecognitionEnd_setCurrentQuestion | reflexivity].
Qed.

(** X7. An advance phrase while a question follows the index of the
    render: the index moves to the next one, which is within the list; the
    transition line and then that question are spoken, the question is
    appended to the conversation, and capture restarts.  No request is sent:
    the answer is neither saved nor followed up. *)
Theorem advance_phrase_asks_next
    (r : Render.t) (text : string) (s : State) (p1 p2 : Playback) :
  classified text Advance ->
  (Render.currentQuestion r <? length (Render.questions r) - 1) = true ->
  wellFormed s = true ->
  recognitionRef (refs s) = true ->
  let t := nextTimer (browser s) in
  let nextQ := Render.currentQuestion r + 1 in
  let s1 := step r RecognitionEnd (processUserResponse r text s) in
  let s' := run r (nextQuestionThenListening t p1 p2) s1 in
  exists asked,
    nth_error (Render.questions r) nextQ = Some asked
    /\ currentQuestion (ui s') = nextQ
    /\ conversationHistory (ui s')
       = conversationHistory (ui s) ++ [question (Some asked) nextQ]
    /\ isListening (ui s') = true
    /\ recognition (browser s') = RecActive
    /\ requests (log s') = requests (log s)
    /\ fetches (browser s') = fetches (browser s)
    /\ completed (log s')
       = completed (log s) ++ [AfterTransition nextQ; AfterQuestion].
Proof.
  intros Hc Hlt Hwf Href. cbv zeta.
  destruct (nth_error_next _ _ Hlt) as [asked Hq]. exists asked.
  split; [exact Hq|].
  apply classified_iff in Hc.
  rewrite processUserResponse_commandOf, Hc, step_RecognitionEnd_handleNextQuestion.
  destruct (capture_ended r s Hwf) as [Hw [Hi [Hr [Hn [Hl [Hf [Hh _]]]]]]].
  set (x := step r RecognitionEnd (thinking s)) in *. clearbody x.
  rewrite <- Hn.
  assert (Href' : recognitionRef (refs x) = true) by (now rewrite Hr).
  destruct (next_question_then_listening r text asked x p1 p2 Hw Href' Hi Hlt Hq)
    as [_ [_ [H3 [H4 [H5 [H6 [H7 [H8 H9]]]]]]]].
  unfold nextQuestionThenListening.
  change (Timeout ?t :: playback p1 ++ ?l) with ((Timeout t :: playback p1) ++ l).
  rewrite !run_app.
  change (run r [Timeout ?t] ?y) with (step r (Timeout t) y).
  rewrite H3, H4, H5, H6, H7, H8, H9, Hl, Hf, Hh.
  repeat split; reflexivity.
Qed.

(** "Next question", said on the first of three questions. *)
Lemma advance_phrase_asks_next_witness :
  let text := "Next question" in
  let s := clearTimeout 7 (step sampleRender (RecognitionResult [(text, true)]) listening) in
  classified text Advance
  /\ (Render.currentQuestion sampleRender
        <? length (Render.questions sampleRender) - 1) = true
  /\ wellFormed s = true
  /\ recognitionRef (refs s) = true
  /\ exists asked,
       nth_error (Render.questions sampleRender) 1 = Some asked
       /\ currentQuestion
            (ui (run sampleRender
                   (RecognitionEnd
                    :: nextQuestionThenListening 8 PlayedToEnd PlayedToEnd)
                   (processUserResponse sampleRender text s))) = 1.
Proof.
  cbv zeta.
  set (text := "Next question").
  set (s := clearTimeout 7 (step sampleRender (RecognitionResult [(text, true)]) listening)).
  assert (Hc : classified text Advance) by (apply classified_iff; computed).
  assert (Hw : wellFormed s = true) by computed.
  assert (Hr : recognitionRef (refs s) = true) by computed.
  split; [exact Hc|]. split; [reflexivity|]. split; [exact Hw|]. split; [exact Hr|].
  destruct (advance_phrase_asks_next sampleRender text s PlayedToEnd PlayedToEnd
              Hc eq_refl Hw Hr) as [asked [H1 [H2 _]]].
  exists asked. split; [exact H1|].
  by_value H2.
Defined.

(** The follow-up of the first answer is a question. *)
Lemma followup_is_spoken_then_listening_witness :
  let s :=
    run sampleRender
      (says "I worked on compilers" ++ [Settled 1 (Responded true BodyNull)])
      listening in
  wellFormed s = true
  /\ lookup 2 (fetches (browser s)) = Some (AwaitGenerate "I worked on compilers")
  /\ recognitionRef (refs s) = true
  /\ movesOn "Which one did you like best?" = false
  /\ isListening
       (ui (run sampleRender
              ([RecognitionEnd;
                Settled 2 (Responded true
                             (BodyObject (Some "Which one did you like best?")))]
               ++ spokenThenListening 8 PlayedToEnd) s)) = true.
Proof.
  cbv zeta.
  set (s := run sampleRender _ listening).
  assert (Hw : wellFormed s = true) by computed.
  assert (Hl : lookup 2 (fetches (browser s))
               = Some (AwaitGenerate "I worked on compilers")) by computed.
  assert (Hr : recognitionRef (refs s) = true) by computed.
  split; [exact Hw|]. split; [exact Hl|]. split; [exact Hr|].
  split; [reflexivity|].
  pose proof (followup_is_spoken_then_listening sampleRender s 2
                "I worked on compilers" "Which one did you like best?" PlayedToEnd
                Hw Hl Hr eq_refl) as H.
  cbv zeta in H. destruct H as [_ [_ [_ [H _]]]].
  by_value H.
Defined.

(** X8. The follow-up text itself says "next question" or "let's move":
    after its playback and 1500 ms [handleNextQuestion] runs as for an
    advance phrase; the next question is asked and capture restarts, and no
    request is sent. *)
Theorem followup_with_cue_moves_on
    (r : Render.t) (s : State) (id : nat) (userAnswer aiResponse : string)
    (p0 p1 p2 : Playback) :
  wellFormed s = true ->
  lookup id (fetches (browser s)) = Some (AwaitGenerate userAnswer) ->
  recognitionRef (refs s) = true ->
  movesOn aiResponse = true ->
  (Render.currentQuestion r <? length (Render.questions r) - 1) = true ->
  let t := nextTimer (browser s) in
  let nextQ := Render.currentQuestion r + 1 in
  let o := Responded true (BodyObject (Some aiResponse)) in
  let s1 := run r [RecognitionEnd; Settled id o] s in
  let s2 := run r (Timeout t :: playback p0) s1 in
  let s3 := step r (Timeout (S t)) s2 in
  let s' := run r (nextQuestionThenListening (S (S t)) p1 p2) s3 in
  exists asked,
    nth_error (Render.questions r) nextQ = Some asked
    /\ timers (browser s2)
       = timers (browser s) ++ [(S t, MkTimer 1500 (CbHandleNextQuestion userAnswer))]
    /\ conversationHistory (ui s')
       = conversationHistory (ui s)
         ++ [ai_response (Some aiResponse) (Render.currentQuestion r);
             question (Some asked) nextQ]
    /\ currentQuestion (ui s') = nextQ
    /\ isListening (ui s') = true
    /\ requests (log s') = requests (log s)
    /\ fetches (browser s') = discard id (fetches (browser s)).
Proof.
  intros Hwf Hl Href Hm Hlt. cbv zeta.
  destruct (nth_error_next _ _ Hlt) as [asked Hq]. exists asked.
  split; [exact Hq|].
  destruct (settle_after_capture r s id _
              (Responded true (BodyObject (Some aiResponse))) Hwf Hl)
    as [E [Hw [Hi [Hr [Hts [Hn [Hlg [Hf [Hh Hcq]]]]]]]]].
  rewrite E. cbn [resume resumeGenerate speakAndWait orAbort].
  set (x := setFetches _ _ _) in *. clearbody x.
  set (y := appendConversationHistory _ x).
  rewrite <- Hn.
  pose proof (run_spoken r aiResponse (Some (AfterAIResponse aiResponse userAnswer))
                y p0 Hw) as E1.
  change (nextTimer (browser y)) with (nextTimer (browser x)) in E1.
  rewrite E1. clear E1.
  cbn [callOnComplete onComplete]. fold (movesOn aiResponse). rewrite Hm.
  set (z := setWaitingForResponse false _).
  assert (Hz : wellFormed z = true) by (apply (wf_bump x Hw)).
  split; [cbn; now rewrite Hts|].
  change (S (nextTimer (browser x))) with (nextTimer (browser z)).
  rewrite (step_Timeout_fresh r z _ _ _ eq_refl (wellFormed_timers _ Hz)).
  cbn [fire].
  assert (Hb : wellFormed (bump z) = true) by (now apply wf_bump).
  assert (Href' : recognitionRef (refs (bump z)) = true) by (cbn; now rewrite Hr).
  destruct (next_question_then_listening r userAnswer asked (bump z) p1 p2
              Hb Href' Hi Hlt Hq)
    as [_ [_ [H3 [H4 [H5 [_ [H7 [H8 _]]]]]]]].
  unfold nextQuestionThenListening.
  change (Timeout ?t :: playback p1 ++ ?l) with ((Timeout t :: playback p1) ++ l).
  rewrite !run_app.
  change (run r [Timeout ?t] ?y) with (step r (Timeout t) y).
  change (S (nextTimer (browser z))) with (nextTimer (browser (bump z))).
  rewrite H3, H4, H5, H7, H8.
  cbn. rewrite Hlg, Hf, Hh, <- app_assoc.
  repeat split; reflexivity.
Qed.

(** The follow-up of the first answer proposes to move on. *)
Lemma followup_with_cue_moves_on_witness :
  let s :=
    run sampleRender
      (says "I worked on compilers" ++ [Settled 1 (Responded true BodyNull)])
      listening in
  let reply := "Good. Let's move to something else." in
  wellFormed s = true
  /\ lookup 2 (fetches (browser s)) = Some (AwaitGenerate "I worked on compilers")
  /\ recognitionRef (refs s) = true
  /\ movesOn reply = true
  /\ (Render.currentQuestion sampleRender
        <? length (Render.questions sampleRender) - 1) = true
  /\ exists asked,
       nth_error (Render.questions sampleRender) 1 = Some asked
       /\ currentQuestion
            (ui (run sampleRender
                   ([RecognitionEnd;
                     Settled 2 (Responded true (BodyObject (Some reply)));
                     Timeout 8; UtteranceStart; UtteranceEnd; Timeout 9]
                    ++ nextQuestionThenListening 10 PlayedToEnd PlayedToEnd) s)) = 1.
Proof.
  cbv zeta.
  set (s := run sampleRender _ listening).
  set (reply := "Good. Let's move to something else.").
  assert (Hw : wellFormed s = true) by computed.
  assert (Hl : lookup 2 (fetches (browser s))
               = Some (AwaitGenerate "I worked on compilers")) by computed.
  assert (Hr : recognitionRef (refs s) = true) by computed.
  assert (Hm : movesOn reply = true) by computed.
  split; [exact Hw|]. split; [exact Hl|]. split; [exact Hr|].
  split; [exact Hm|]. split; [reflexivity|].
  destruct (followup_with_cue_moves_on sampleRender s 2 "I worked on compilers"
              reply PlayedToEnd PlayedToEnd PlayedToEnd Hw Hl Hr Hm eq_refl)
    as [asked [H1 [_ [_ [H2 _]]]]].
  exists asked. split; [exact H1|].
  by_value H2.
Defined.

(** X9. An advance phrase when no question follows the index of the
    render: the closing line is spoken and two seconds after its playback
    [completeInterview] sends the completion request and shows the analysis
    in progress.  The answer is not saved: the completion request is the only
    request of the turn. *)
Theorem advance_on_last_question_completes
    (r : Render.t) (text : string) (s : State) (p : Playback) :
  classified text Advance ->
  (Render.currentQuestion r <? length (Render.questions r) - 1) = false ->
  wellFormed s = true ->
  let t := nextTimer (browser s) in
  let s1 := step r RecognitionEnd (processUserResponse r text s) in
  let s2 := run r (Timeout t :: playback p) s1 in
  let s' := step r (Timeout (S t)) s2 in
  utterances (browser (step r (Timeout t) s1))
    = [MkUtterance closingLine (Some AfterClosing)]
  /\ timers (browser s2)
     = timers (browser (thinking s)) ++ [(S t, MkTimer 2000 CbCompleteInterview)]
  /\ requests (log s') = requests (log s) ++ [CompleteInterview]
  /\ lookup (nextFetch (browser s)) (fetches (browser s')) = Some AwaitComplete
  /\ loading (ui s') = true
  /\ statusMessage (ui s') = StatusAnalyzing
  /\ conversationHistory (ui s') = conversationHistory (ui s).
Proof.
  intros Hc Hlt Hwf. cbv zeta.
  apply classified_iff in Hc.
  rewrite processUserResponse_commandOf, Hc, step_RecognitionEnd_handleNextQuestion.
  destruct (capture_ended r s Hwf) as [Hw [Hi [Hr [Hn [Hl [Hf [Hh [Hcq _]]]]]]]].
  destruct (RecognitionEnd_keeps r (thinking s)) as [_ [Hts _]].
  destruct (thinking_fetches s) as [_ [Hnf _]].
  destruct (RecognitionEnd_keeps r (thinking s)) as [_ [_ [_ [_ [Hnf' _]]]]].
  set (x := step r RecognitionEnd (thinking s)) in *. clearbody x.
  unfold handleNextQuestion. rewrite Hlt. cbn [speakAndWait orAbort].
  rewrite <- Hn.
  pose proof (wellFormed_timers _ Hw) as Ht.
  split.
  { rewrite (step_Timeout_fresh r (synthCancel x) _ _ _ eq_refl Ht). reflexivity. }
  rewrite (run_spoken r closingLine (Some AfterClosing) x p Hw).
  cbn [callOnComplete onComplete].
  set (y := logCompleted _ _).
  assert (Hy : wellFormed y = true) by (apply (wf_bump x Hw)).
  split; [cbn; now rewrite Hts|].
  change (S (nextTimer (browser x))) with (nextTimer (browser y)).
  rewrite (step_Timeout_fresh r y _ _ _ eq_refl (wellFormed_timers _ Hy)).
  cbn [fire].
  destruct (completeInterview_sends (bump y)) as [H1 [_ [H3 [H4 [H5 H6]]]]].
  rewrite H1, H3, H4, H5, H6.
  cbn. rewrite Hl, Hh, Hf.
  split; [reflexivity|].
  split.
  { rewrite <- Hnf, <- Hnf'. apply lookup_fresh.
    pose proof (wellFormed_fetches _ Hw) as H. now rewrite Hf in H. }
  repeat split; reflexivity.
Qed.

(** An interview of one question. *)
Lemma advance_on_last_question_completes_witness :
  let only := Some ["Tell me about yourself."] in
  let r := firstRender only in
  let text := "Let us move on" in
  let s :=
    clearTimeout 7
      (run r (untilListening ++ [RecognitionResult [(text, true)]]) (mount true only)) in
  classified text Advance
  /\ (Render.currentQuestion r <? length (Render.questions r) - 1) = false
  /\ wellFormed s = true
  /\ requests
       (log (run r [RecognitionEnd; Timeout 8; UtteranceStart; UtteranceEnd; Timeout 9]
               (processUserResponse r text s)))
     = [CompleteInterview].
Proof.
  cbv zeta.
  set (only := Some ["Tell me about yourself."]).
  set (r := firstRender only).
  set (text := "Let us move on").
  set (s := clearTimeout 7 _).
  assert (Hc : classified text Advance) by (apply classified_iff; computed).
  assert (Hw : wellFormed s = true) by computed.
  split; [exact Hc|]. split; [reflexivity|]. split; [exact Hw|].
  pose proof (advance_on_last_question_completes r text s PlayedToEnd
                Hc eq_refl Hw) as H.
  cbv zeta in H. destruct H as [_ [_ [H _]]].
  assert (E : requests (log s) = []) by computed.
  rewrite E in H.
  by_value H.
Defined.

Lemma unmount_keeps (s : State) :
  log (unmount s) = log s
  /\ ui (unmount s) = ui s
  /\ fetches (browser (unmount s)) = fetches (browser s)
  /\ (mounted s = true -> mounted (unmount s) = false).
Proof.
  destruct s as [u [rr st fb] [v us sp ts nt fs nf] lg m].
  unfold unmount, cleanupSpeech, recognitionStop.
  destruct m, rr, v, st; cbn; repeat split; reflexivity.
Qed.

(** X10. The completion request is answered with a JSON body, whatever the
    status: the farewell line is spoken, and two seconds after its playback
    the view is set to the history and the screen is left.  No alert is
    raised, nothing is sent and [loading] is not reset. *)
Theorem completion_reply_leaves_for_history
    (r : Render.t) (s : State) (id : nat) (ok : bool) (body : Body) (p : Playback) :
  wellFormed s = true ->
  lookup id (fetches (browser s)) = Some AwaitComplete ->
  body <> BodyInvalid ->
  mounted s = true ->
  let t := nextTimer (browser s) in
  let s1 := step r (Settled id (Responded ok body)) s in
  let s2 := run r (Timeout t :: playback p) s1 in
  let s' := step r (Timeout (S t)) s2 in
  utterances (browser (step r (Timeout t) s1))
    = [MkUtterance farewellLine (Some AfterFarewell)]
  /\ timers (browser s2) = timers (browser s) ++ [(S t, MkTimer 2000 CbSetCurrentViewHistory)]
  /\ views (log s2) = views (log s)
  /\ views (log s') = views (log s) ++ ["history"]
  /\ mounted s' = false
  /\ alerts (log s') = alerts (log s)
  /\ requests (log s') = requests (log s)
  /\ loading (ui s') = loading (ui s)
  /\ conversationHistory (ui s') = conversationHistory (ui s).
Proof.
  intros Hwf Hl Hb Hm. cbv zeta.
  rewrite (step_Settled r s id _ _ Hl).
  pose proof (wf_settle id s Hwf) as Hx.
  set (x := setFetches _ _ s) in *.
  assert (E : resume r AwaitComplete (Responded ok body) x
              = setTimeout 100 (CbSpeak farewellLine (Some AfterFarewell)) (synthCancel x)).
  { destruct body; [contradiction | reflexivity | reflexivity]. }
  rewrite E. clear E.
  change (nextTimer (browser s)) with (nextTimer (browser x)).
  pose proof (wellFormed_timers _ Hx) as Ht.
  split.
  { rewrite (step_Timeout_fresh r (synthCancel x) _ _ _ eq_refl Ht). reflexivity. }
  rewrite (run_spoken r farewellLine (Some AfterFarewell) x p Hx).
  cbn [callOnComplete onComplete].
  set (y := logCompleted _ _).
  assert (Hy : wellFormed y = true) by (apply (wf_bump x Hx)).
  split; [reflexivity|]. split; [reflexivity|].
  change (S (nextTimer (browser x))) with (nextTimer (browser y)).
  rewrite (step_Timeout_fresh r y _ _ _ eq_refl (wellFormed_timers _ Hy)).
  cbn [fire].
  destruct (unmount_keeps (logView "history" (bump y))) as [H1 [H2 [_ H4]]].
  rewrite H1, H2, (H4 Hm).
  repeat split; reflexivity.
Qed.

(** The completion request after "I am done" is answered. *)
Lemma completion_reply_leaves_for_history_witness :
  let s :=
    run sampleRender
      (says "I am done" ++ [RecognitionEnd; Settled 1 (Responded true BodyNull)])
      listening in
  wellFormed s = true
  /\ lookup 2 (fetches (browser s)) = Some AwaitComplete
  /\ BodyNull <> BodyInvalid
  /\ mounted s = true
  /\ views (log (run sampleRender
                   [Settled 2 (Responded true BodyNull); Timeout 8;
                    UtteranceStart; UtteranceEnd; Timeout 9] s))
     = ["history"].
Proof.
  cbv zeta.
  set (s := run sampleRender _ listening).
  assert (Hw : wellFormed s = true) by computed.
  assert (Hl : lookup 2 (fetches (browser s)) = Some AwaitComplete) by computed.
  assert (Hb : BodyNull <> BodyInvalid) by discriminate.
  assert (Hm : mounted s = true) by computed.
  split; [exact Hw|]. split; [exact Hl|]. split; [exact Hb|]. split; [exact Hm|].
  pose proof (completion_reply_leaves_for_history sampleRender s 2 true BodyNull
                PlayedToEnd Hw Hl Hb Hm) as H.
  cbv zeta in H. destruct H as [_ [_ [_ [H _]]]].
  assert (E : views (log s) = []) by computed.
  rewrite E in H.
  by_value H.
Defined.

(** X11. With a recogniser and at least one question, whatever the
    questions: two seconds after mounting the greeting is spoken; two seconds
    after it the first question is appended to the conversation and spoken;
    1500 ms and 300 ms after it capture starts.  Nothing is sent on the way,
    however the two playbacks end. *)
Theorem interview_opens_with_first_question
    (first : string) (others : list string) (p1 p2 : Playback) :
  let qs := Some (first :: others) in
  let r := firstRender qs in
  let greeted := run r [Timeout 1; Timeout 2] (mount true qs) in
  let asked := run r (playback p1 ++ [Timeout 3; Timeout 4]) greeted in
  let s := run r (playback p2 ++ [Timeout 5; Timeout 6; RecognitionStart]) asked in
  timers (browser (mount true qs)) = [(1, MkTimer 2000 CbStartInterview)]
  /\ utterances (browser greeted) = [MkUtterance greeting (Some AfterGreeting)]
  /\ timers (browser (run r (playback p1) greeted))
     = [(3, MkTimer 2000 (CbAskQuestion 0))]
  /\ utterances (browser asked) = [MkUtterance first (Some AfterQuestion)]
  /\ timers (browser (run r (playback p2) asked))
     = [(5, MkTimer 1500 CbStartContinuousListening)]
  /\ timers (browser (run r (playback p2 ++ [Timeout 5]) asked))
     = [(6, MkTimer 300 CbRecognitionStart)]
  /\ conversationHistory (ui s) = [question (Some first) 0]
  /\ currentQuestion (ui s) = 0
  /\ isListening (ui s) = true
  /\ recognition (browser s) = RecActive
  /\ statusMessage (ui s) = StatusListening
  /\ loading (ui s) = false
  /\ completed (log s) = [AfterGreeting; AfterQuestion]
  /\ requests (log s) = []
  /\ timers (browser s) = [].
Proof.
  cbv zeta. destruct p1, p2; repeat split; reflexivity.
Qed.

(** ** Sessions as a whole *)

Ltac walk :=
  unfold step, firstRender;
  unfold fire, resume, resumeSave, resumeGenerate, resumeComplete,
    generateFallback, silenceExpired, processUserResponse, handleNextQuestion,
    completeInterview, saveCurrentAnswer, generateAIResponse, stopListening,
    startContinuousListening, askQuestion, startInterview, unmount,
    cleanupSpeech, callOnComplete, onComplete, onresult, onstart, onerror,
    onend, orAbort, speakAndWait, recognitionStart, recognitionStop,
    bufferedAnswer;
  cbv zeta;
  repeat match goal with
  | |- context [match ?c with _ => _ end] =>
      lazymatch c with
      | context [match _ with _ => _ end] => fail
      | _ => destruct c
      end
  end.

Lemma currentQuestion_step (qs : option (list string)) (e : Event) (s : State) :
  currentQuestion (ui s) <= 1 ->
  currentQuestion (ui (step (firstRender qs) e s)) <= 1.
Proof.
  intros H. destruct e; walk; cbn; auto.
Qed.

Lemma requests_step (qs : option (list string)) (e : Event) (s : State) :
  Forall (namesFirstQuestion (Render.questions (firstRender qs))) (requests (log s)) ->
  Forall (namesFirstQuestion (Render.questions (firstRender qs)))
    (requests (log (step (firstRender qs) e s))).
Proof.
  intros H. destruct e; walk; cbn -[nth_error];
    repeat (apply Forall_app; split; [|repeat constructor]); auto.
Qed.

(** X12. The callbacks of a session are those of the first render (the
    effect runs once), so they read [currentQuestion] as 0: in every state
    of a session each submit-answer and follow-up request names
    [questions[0]] with [question_number] 1, and the question index on
    display is 0 or 1. *)
Theorem session_requests_name_first_question
    (supported : bool) (qs : option (list string)) (s : State) :
  reachable supported qs s ->
  Forall (namesFirstQuestion (Render.questions (firstRender qs))) (requests (log s))
  /\ currentQuestion (ui s) <= 1.
Proof.
  induction 1 as [|s e _ [IH1 IH2]].
  - unfold mount, initializeSpeechRecognition.
    destruct qs as [l|], supported; cbn -[Nat.ltb];
      try destruct (0 <? length l); cbn; split; auto.
  - split; [now apply requests_step | now apply currentQuestion_step].
Qed.

(** The candidate moves on to the second question and answers it: the
    requests name the first one. *)
Lemma session_requests_name_first_question_witness :
  let events :=
    untilListening
    ++ says "Next question"
    ++ RecognitionEnd :: nextQuestionThenListening 8 PlayedToEnd PlayedToEnd
    ++ [RecognitionResult [("I like hard problems", true)]; Timeout 13;
        Settled 1 (Responded true BodyNull)] in
  let s := run sampleRender events (mount true sampleQuestions) in
  reachable true sampleQuestions s
  /\ requests (log s)
     = [SubmitAnswer (Some "Tell me about yourself.") "I like hard problems";
        GenerateAIResponse (Some "Tell me about yourself.") "I like hard problems" 1 3]
  /\ Forall (namesFirstQuestion (Render.questions sampleRender)) (requests (log s)).
Proof.
  cbv zeta.
  set (s := run sampleRender _ (mount true sampleQuestions)).
  assert (Hr : reachable true sampleQuestions s)
    by (apply reachable_run, reachable_mount).
  split; [exact Hr|]. split; [computed|].
  exact (proj1 (session_requests_name_first_question true sampleQuestions s Hr)).
Defined.

Lemma quiet_step (r : Render.t) (e : Event) (s : State) :
  quiet s = true ->
  quiet (step r e s) = true /\ ui (step r e s) = ui s /\ log (step r e s) = log s.
Proof.
  intros H.
  destruct s as [[cq il tr sp ld sm ch wr] [rr st fb] [v us spk ts nt fs nf]
                 [rq al vw cp] m].
  destruct ts, us, fs, v, rq, ch, il; try discriminate H.
  destruct e; try (repeat split; reflexivity).
  destruct m, rr, st; repeat split; reflexivity.
Qed.

Lemma quiet_session
    (supported : bool) (qs : option (list string)) (s : State) :
  qs = None \/ qs = Some [] ->
  reachable supported qs s ->
  timers (browser s) = []
  /\ utterances (browser s) = []
  /\ requests (log s) = []
  /\ conversationHistory (ui s) = []
  /\ isListening (ui s) = false
  /\ loading (ui s) = match qs with None => true | Some _ => false end
  /\ views (log s) = [].
Proof.
  intros Hq H.
  assert (I : quiet s = true
              /\ ui s = ui (mount supported qs) /\ log s = log (mount supported qs)).
  { induction H as [|s e _ [IH1 [IH2 IH3]]].
    - split; [|split; reflexivity].
      destruct Hq as [-> | ->], supported; reflexivity.
    - destruct (quiet_step (firstRender qs) e s IH1) as [H1 [H2 H3]].
      split; [exact H1|]. split; congruence. }
  destruct I as [I1 [I2 I3]].
  rewrite I2, I3. unfold quiet in I1.
  destruct (timers (browser s)); [|discriminate I1].
  destruct (utterances (browser s)); [|discriminate I1].
  destruct Hq as [-> | ->], supported; repeat split; reflexivity.
Qed.

(** X13. Mounted without questions ([undefined], or an empty list) the
    interview never starts: in every state of the session no timeout and no
    utterance is pending, nothing was sent, the conversation is empty and
    the view never changes; with [undefined] the loading view stays for
    ever. *)
Theorem no_questions_nothing_happens
    (supported : bool) (qs : option (list string)) (s : State) :
  qs = None \/ qs = Some [] ->
  reachable supported qs s ->
  timers (browser s) = []
  /\ utterances (browser s) = []
  /\ requests (log s) = []
  /\ conversationHistory (ui s) = []
  /\ isListening (ui s) = false
  /\ loading (ui s) = match qs with None => true | Some _ => false end
  /\ views (log s) = [].
Proof. exact (quiet_session supported qs s). Qed.

(** Mounted without questions, then left. *)
Lemma no_questions_nothing_happens_witness :
  let s := run (firstRender None) [Timeout 1; RecognitionStart; Unmount; Timeout 1]
             (mount true None) in
  (@None (list string) = None \/ @None (list string) = Some [])
  /\ reachable true None s
  /\ loading (ui s) = true
  /\ timers (browser s) = [].
Proof.
  cbv zeta.
  set (s := run (firstRender None) _ (mount true None)).
  assert (Hq : @None (list string) = None \/ @None (list string) = Some [])
    by (left; reflexivity).
  assert (Hr : reachable true None s) by (apply reachable_run, reachable_mount).
  split; [exact Hq|]. split; [exact Hr|].
  destruct (no_questions_nothing_happens true None s Hq Hr)
    as [H1 [_ [_ [_ [_ [H6 _]]]]]].
  split; [exact H6 | exact H1].
Defined.

Lemma mute_step (r : Render.t) (e : Event) (s : State) :
  mute s = true ->
  mute (step r e s) = true /\ alerts (log (step r e s)) = alerts (log s).
Proof.
  intros H.
  destruct s as [[cq il tr sp ld sm ch wr] [rr st fb] [v us spk ts nt fs nf]
                 [rq al vw cp] m].
  destruct rr, v, il, rq, fs, st; try discriminate H.
  destruct ts as [|[id [d cb]] [|? ?]], us as [|[ut uk] [|? ?]];
    try discriminate H.
  - (* nothing pending *)
    destruct e; try (split; [exact H | reflexivity]).
    destruct m; split; reflexivity.
  - (* an utterance *)
    destruct e; try (split; [exact H | reflexivity]).
    + destruct spk; split; first [exact H | reflexivity].
    + destruct spk; [|split; [exact H | reflexivity]].
      destruct uk as [[]|]; try discriminate H; split; reflexivity.
    + destruct uk as [[]|]; try discriminate H; split; reflexivity.
    + destruct m; split; first [exact H | reflexivity].
  - (* a timeout *)
    destruct e; try (split; [exact H | reflexivity]).
    + rewrite step_Timeout_only. destruct (id =? id0); [|split; [exact H | reflexivity]].
      destruct r as [qs q0 l0].
      destruct cb as [ | i | | | | | | tx k | ]; try discriminate H.
      * split; reflexivity.
      * unfold fire, askQuestion. cbn -[nth_error].
        destruct (nth_error qs i); split; reflexivity.
      * split; reflexivity.
      * destruct k as [[]|]; try discriminate H; split; reflexivity.
    + destruct m; split; first [exact H | reflexivity].
Qed.

(** X14. In a browser without [SpeechRecognition] the alert is raised once,
    and the session goes on to greet and to ask the first question, but in
    no state of it is the recogniser started or [isListening] true, no
    silence timeout and no call of [recognition.start()] is ever pending, and
    nothing is sent. *)
Theorem unsupported_browser_never_listens
    (qs : option (list string)) (s : State) :
  reachable false qs s ->
  alerts (log s) = ["Speech recognition requires Chrome or Edge browser"]
  /\ isListening (ui s) = false
  /\ recognition (browser s) = RecInactive
  /\ requests (log s) = []
  /\ forall id t, lookup id (timers (browser s)) = Some t ->
                  callback t <> CbRecognitionStart /\ callback t <> CbSilence.
Proof.
  intros H.
  assert (I : mute s = true
              /\ alerts (log s) = ["Speech recognition requires Chrome or Edge browser"]).
  { induction H as [|s e _ [IH1 IH2]].
    - unfold mount, initializeSpeechRecognition.
      destruct qs as [l|]; cbn -[Nat.ltb]; try destruct (0 <? length l);
        split; reflexivity.
    - destruct (mute_step (firstRender qs) e s IH1) as [H1 H2].
      split; [exact H1 | congruence]. }
  destruct I as [I1 I2]. split; [exact I2|].
  destruct s as [[cq il tr sp ld sm ch wr] [rr st fb] [v us spk ts nt fs nf]
                 [rq al vw cp] m].
  destruct rr, v, il, rq, fs, st; try discriminate I1.
  split; [reflexivity|]. split; [reflexivity|]. split; [reflexivity|].
  intros id t Ht.
  destruct ts as [|[id0 [d cb]] [|? ?]], us as [|[ut uk] [|? ?]];
    try discriminate I1; try discriminate Ht.
  cbn in Ht. destruct (id0 =? id); [|discriminate Ht].
  injection Ht as <-. destruct cb; try discriminate I1; split; discriminate.
Qed.

(** The opening without a recogniser: the status says that the interviewer
    is listening, and nothing is. *)
Lemma unsupported_browser_never_listens_witness :
  let s := run sampleRender untilListening (mount false sampleQuestions) in
  reachable false sampleQuestions s
  /\ isListening (ui s) = false
  /\ statusMessage (ui s) = StatusImListening
  /\ completed (log s) = [AfterGreeting; AfterQuestion].
Proof.
  cbv zeta.
  set (s := run sampleRender untilListening (mount false sampleQuestions)).
  assert (Hr : reachable false sampleQuestions s)
    by (apply reachable_run, reachable_mount).
  split; [exact Hr|].
  split; [exact (proj1 (proj2 (unsupported_browser_never_listens sampleQuestions s Hr)))|].
  split; computed.
Defined.

Lemma reachableOrderly_oneThread
    (supported : bool) (qs : option (list string)) (s : State) :
  reachableOrderly supported qs s -> oneThread s = true.
Proof.
  induction 1 as [|s e _ IH Ho]; [apply oneThread_mount | now apply oneThread_step].
Qed.

Lemma reachableOrderly_run
    (supported : bool) (qs : option (list string)) (es : list Event) (s : State) :
  reachableOrderly supported qs s ->
  orderlyRun (firstRender qs) es s ->
  reachableOrderly supported qs (run (firstRender qs) es s).
Proof.
  revert s; induction es as [|e es IH]; intros s H Ho; [exact H|].
  destruct Ho as [Ho1 Ho2]. apply IH; [now apply orderly_step | exact Ho2].
Qed.

Lemma stalled_step (r : Render.t) (e : Event) (s : State) :
  stalled s = true -> orderly e s ->
  stalled (step r e s) = true
  /\ requests (log (step r e s)) = requests (log s)
  /\ views (log (step r e s)) = views (log s)
  /\ loading (ui (step r e s)) = loading (ui s)
  /\ conversationHistory (ui (step r e s)) = conversationHistory (ui s)
  /\ (isListening (ui s) = false -> isListening (ui (step r e s)) = false).
Proof.
  intros H Ho.
  destruct s as [[cq il tr sp ld sm ch wr] [rr st fb] [v us spk ts nt fs nf]
                 [rq al vw cp] m].
  destruct ts, us, fs; try discriminate H.
  assert (T : forall x : State,
            stalled x = true ->
            requests (log x) = rq -> views (log x) = vw -> loading (ui x) = ld ->
            conversationHistory (ui x) = ch ->
            (il = false -> isListening (ui x) = false) ->
            stalled x = true /\ requests (log x) = rq /\ views (log x) = vw
            /\ loading (ui x) = ld /\ conversationHistory (ui x) = ch
            /\ (il = false -> isListening (ui x) = false)) by (intros; tauto).
  destruct v; try discriminate H;
    destruct e; try discriminate Ho;
    try (apply T; first [reflexivity | exact (fun X => X)]).
  all: try (unfold step, onerror; cbn;
            destruct (String.eqb error "network");
            apply T; first [reflexivity | exact (fun X => X)]).
  all: destruct m, rr, st; apply T; first [reflexivity | exact (fun X => X)].
Qed.

Lemma stalled_run (r : Render.t) (es : list Event) (s : State) :
  stalled s = true -> orderlyRun r es s ->
  stalled (run r es s) = true
  /\ requests (log (run r es s)) = requests (log s)
  /\ views (log (run r es s)) = views (log s)
  /\ loading (ui (run r es s)) = loading (ui s)
  /\ conversationHistory (ui (run r es s)) = conversationHistory (ui s)
  /\ (isListening (ui s) = false -> isListening (ui (run r es s)) = false).
Proof.
  revert s; induction es as [|e es IH]; intros s H Ho;
    [repeat split; auto|].
  destruct Ho as [Ho1 Ho2].
  destruct (stalled_step r e s H Ho1) as [H1 [H2 [H3 [H4 [H5 H6]]]]].
  destruct (IH _ H1 Ho2) as [I1 [I2 [I3 [I4 [I5 I6]]]]].
  change (run r (e :: es) s) with (run r es (step r e s)).
  rewrite I2, I3, I4, I5. repeat split; auto.
Qed.

Lemma stalled_nothing_pending (s : State) :
  stalled s = true ->
  timers (browser s) = [] /\ utterances (browser s) = []
  /\ fetches (browser s) = [] /\ atRest (recognition (browser s)) = true.
Proof.
  unfold stalled.
  destruct (timers (browser s)); [|discriminate].
  destruct (utterances (browser s)); [|discriminate].
  destruct (fetches (browser s)); [|discriminate].
  auto.
Qed.

(** X15. Where every result arrives while the recogniser is active: when
    the completion request is rejected or answered by something that is not
    JSON, the alert asks to try again, but nothing is pending any more and
    capture is off, so that whatever the browser delivers next, no request
    is sent, capture does not restart and the view does not change. *)
Theorem failed_completion_is_a_dead_end
    (supported : bool) (qs : option (list string)) (s : State) (id : nat)
    (o : Outcome) (events : list Event) :
  reachableOrderly supported qs s ->
  lookup id (fetches (browser s)) = Some AwaitComplete ->
  o = Rejected \/ (exists ok, o = Responded ok BodyInvalid) ->
  let r := firstRender qs in
  let failed := step r (Settled id o) s in
  orderlyRun r events failed ->
  let s' := run r events failed in
  alerts (log failed)
    = alerts (log s) ++ ["Error completing interview. Please try again."]
  /\ loading (ui s') = false
  /\ requests (log s') = requests (log s)
  /\ views (log s') = views (log s)
  /\ isListening (ui s') = false
  /\ atRest (recognition (browser s')) = true
  /\ timers (browser s') = []
  /\ utterances (browser s') = []
  /\ fetches (browser s') = [].
Proof.
  intros Hr Hl Ho. cbv zeta. intros Hrun.
  apply reachableOrderly_oneThread in Hr.
  assert (I : stalled (step (firstRender qs) (Settled id o) s) = true
              /\ alerts (log (step (firstRender qs) (Settled id o) s))
                 = alerts (log s) ++ ["Error completing interview. Please try again."]
              /\ loading (ui (step (firstRender qs) (Settled id o) s)) = false
              /\ requests (log (step (firstRender qs) (Settled id o) s))
                 = requests (log s)
              /\ views (log (step (firstRender qs) (Settled id o) s)) = views (log s)
              /\ isListening (ui (step (firstRender qs) (Settled id o) s)) = false).
  { rewrite (step_Settled _ _ _ _ _ Hl).
    apply oneThread_oneAtATime in Hr.
    destruct s as [[cq il tr sp ld sm ch wr] [rr st fb] [v us spk ts nt fs nf]
                   [rq al vw cp] m].
    destruct ts as [|[tid [d cb]] [|? ?]], us as [|? [|? ?]], fs as [|[fid k] [|? ?]];
      try discriminate Hr; try discriminate Hl.
    cbn in Hl. destruct (Nat.eqb_spec fid id) as [->|]; [|discriminate Hl].
    unfold discard. cbn. rewrite Nat.eqb_refl. cbn.
    destruct v, il; try discriminate Hr;
      destruct Ho as [-> | [ok ->]]; repeat split; reflexivity. }
  destruct I as [I1 [I2 [I3 [I4 [I5 I6]]]]].
  destruct (stalled_run _ events _ I1 Hrun) as [H1 [H2 [H3 [H4 [_ H6]]]]].
  destruct (stalled_nothing_pending _ H1) as [N1 [N2 [N3 N4]]].
  rewrite H2, H3, H4, I3, I4, I5, (H6 I6).
  repeat split; assumption.
Qed.

(** No connection when the interview is completed. *)
Lemma failed_completion_is_a_dead_end_witness :
  let before :=
    untilListening ++ says "I am done"
    ++ [RecognitionEnd; Settled 1 (Responded true BodyNull)] in
  let s := run sampleRender before (mount true sampleQuestions) in
  let after := [RecognitionError "network"; RecognitionEnd; Timeout 8; UtteranceStart] in
  reachableOrderly true sampleQuestions s
  /\ lookup 2 (fetches (browser s)) = Some AwaitComplete
  /\ orderlyRun sampleRender after (step sampleRender (Settled 2 Rejected) s)
  /\ requests (log (run sampleRender (Settled 2 Rejected :: after) s))
     = [SubmitAnswer (Some "Tell me about yourself.") "I am done"; CompleteInterview].
Proof.
  cbv zeta.
  set (before := untilListening ++ _).
  set (s := run sampleRender before (mount true sampleQuestions)).
  set (after := [RecognitionError "network"; RecognitionEnd; Timeout 8; UtteranceStart]).
  assert (Hb : orderlyRun sampleRender before (mount true sampleQuestions))
    by (vm_compute; repeat split).
  assert (Hr : reachableOrderly true sampleQuestions s)
    by (apply reachableOrderly_run; [apply orderly_mount | exact Hb]).
  assert (Hl : lookup 2 (fetches (browser s)) = Some AwaitComplete) by computed.
  assert (Ha : orderlyRun sampleRender after (step sampleRender (Settled 2 Rejected) s))
    by (cbn; repeat split).
  split; [exact Hr|]. split; [exact Hl|]. split; [exact Ha|].
  pose proof (failed_completion_is_a_dead_end true sampleQuestions s 2 Rejected after
                Hr Hl (or_introl eq_refl)) as H.
  cbv zeta in H. destruct (H Ha) as [_ [_ [H1 _]]].
  assert (E : requests (log s)
              = [SubmitAnswer (Some "Tell me about yourself.") "I am done";
                 CompleteInterview]) by computed.
  rewrite E in H1.
  by_value H1.
Defined.

(** X16. Where every result arrives while the recogniser is active, one
    thing is pending at most: a timeout, an utterance or a request.  While
    an utterance or a request is pending capture is off; so it is while a
    timeout other than the silence timeout is pending, and then nothing is
    being spoken either. *)
Theorem orderly_one_thing_at_a_time
    (supported : bool) (qs : option (list string)) (s : State) :
  reachableOrderly supported qs s ->
  length (timers (browser s)) + length (utterances (browser s))
    + length (fetches (browser s)) <= 1
  /\ (utterances (browser s) <> [] \/ fetches (browser s) <> [] ->
      atRest (recognition (browser s)) = true /\ isListening (ui s) = false)
  /\ (forall id t, lookup id (timers (browser s)) = Some t ->
        match callback t with
        | CbSilence => silenceTimerRef (refs s) = Some id /\ isSpeaking (ui s) = false
        | _ => atRest (recognition (browser s)) = true
               /\ isListening (ui s) = false /\ isSpeaking (ui s) = false
        end).
Proof.
  intros H. apply reachableOrderly_oneThread, oneThread_oneAtATime in H.
  destruct s as [[cq il tr sp ld sm ch wr] [rr st fb] [v us spk ts nt fs nf]
                 [rq al vw cp] m].
  destruct ts as [|[tid [d cb]] [|? ?]], us as [|? [|? ?]], fs as [|[fid k] [|? ?]];
    try discriminate H; cbn in *.
  - split; [lia|]. split; [intros [N | N]; now contradiction N|]. discriminate.
  - split; [lia|]. apply andb_true_iff in H. destruct H as [H1 H2].
    apply andb_true_iff in H1. destruct H1 as [H0 H1].
    apply negb_true_iff in H1. split; [now split|]. discriminate.
  - split; [lia|]. apply andb_true_iff in H. destruct H as [H1 H2].
    apply negb_true_iff in H2. split; [now split|]. discriminate.
  - split; [lia|]. split; [intros [N | N]; now contradiction N|].
    intros id t Ht. destruct (tid =? id) eqn:E; [|discriminate Ht].
    apply Nat.eqb_eq in E. subst id. injection Ht as <-. cbn.
    destruct cb; cbn in H;
      repeat (apply andb_true_iff in H; destruct H as [H ?]);
      repeat match goal with
             | X : negb _ = true |- _ => apply negb_true_iff in X
             end;
      try (repeat split; assumption).
    destruct st as [i|]; cbn in *; [|discriminate].
    match goal with X : (i =? tid) = true |- _ => apply Nat.eqb_eq in X; subst i end.
    now split.
Qed.

(** The submit-answer request of the first answer is in flight. *)
Lemma orderly_one_thing_at_a_time_witness :
  let before := untilListening ++ says "I worked on compilers" in
  let s := run sampleRender before (mount true sampleQuestions) in
  reachableOrderly true sampleQuestions s
  /\ length (fetches (browser s)) = 1
  /\ length (timers (browser s)) + length (utterances (browser s))
       + length (fetches (browser s)) <= 1.
Proof.
  cbv zeta.
  set (before := untilListening ++ _).
  set (s := run sampleRender before (mount true sampleQuestions)).
  assert (Hb : orderlyRun sampleRender before (mount true sampleQuestions))
    by (vm_compute; repeat split).
  assert (Hr : reachableOrderly true sampleQuestions s)
    by (apply reachableOrderly_run; [apply orderly_mount | exact Hb]).
  split; [exact Hr|]. split; [computed|].
  exact (proj1 (orderly_one_thing_at_a_time true sampleQuestions s Hr)).
Defined.

(** X17. Where every result arrives while the recogniser is active: the
    screen is left while [isListening] is true.  The cleanup then leaves
    nothing behind: no timeout, utterance or request is pending and the
    recogniser has been told to stop, so that whatever the browser delivers
    next, nothing is sent and neither the view nor the conversation
    changes. *)
Theorem unmount_while_listening_is_clean
    (supported : bool) (qs : option (list string)) (s : State)
    (events : list Event) :
  reachableOrderly supported qs s ->
  mounted s = true ->
  isListening (ui s) = true ->
  let r := firstRender qs in
  let left := step r Unmount s in
  orderlyRun r events left ->
  let s' := run r events left in
  timers (browser left) = []
  /\ utterances (browser left) = []
  /\ fetches (browser left) = []
  /\ atRest (recognition (browser left)) = true
  /\ timers (browser s') = []
  /\ utterances (browser s') = []
  /\ fetches (browser s') = []
  /\ atRest (recognition (browser s')) = true
  /\ requests (log s') = requests (log s)
  /\ views (log s') = views (log s)
  /\ conversationHistory (ui s') = conversationHistory (ui s).
Proof.
  intros Hr Hm Hl. cbv zeta. intros Hrun.
  apply reachableOrderly_oneThread in Hr.
  assert (I : stalled (step (firstRender qs) Unmount s) = true
              /\ log (step (firstRender qs) Unmount s) = log s
              /\ ui (step (firstRender qs) Unmount s) = ui s).
  { unfold oneThread in Hr. rewrite !andb_true_iff in Hr.
    destruct Hr as [[_ Hr1] Hr2].
    destruct s as [[cq il tr sp ld sm ch wr] [rr st fb] [v us spk ts nt fs nf]
                   [rq al vw cp] m].
    cbn in Hm, Hl. subst m il.
    destruct ts as [|[tid [d cb]] [|? ?]], us as [|? [|? ?]], fs as [|[fid k] [|? ?]];
      try discriminate Hr2; cbn in Hr1, Hr2.
    - destruct rr; [|destruct v; discriminate Hr1].
      destruct v, st; repeat split; reflexivity.
    - rewrite andb_false_r in Hr2. discriminate Hr2.
    - rewrite andb_false_r in Hr2. discriminate Hr2.
    - destruct rr; [|destruct v; discriminate Hr1].
      destruct cb; cbn in Hr2; try (rewrite andb_false_r in Hr2; discriminate Hr2).
      destruct st as [i|]; [|rewrite andb_false_r in Hr2; discriminate Hr2].
      apply andb_true_iff in Hr2. destruct Hr2 as [_ Hr2]. cbn in Hr2.
      apply Nat.eqb_eq in Hr2. subst i.
      unfold step, unmount, cleanupSpeech, recognitionStop, clearTimeout, discard.
      destruct v; cbn; rewrite Nat.eqb_refl; repeat split; reflexivity. }
  destruct I as [I1 [I2 I3]].
  destruct (stalled_nothing_pending _ I1) as [L1 [L2 [L3 L4]]].
  destruct (stalled_run _ events _ I1 Hrun) as [H1 [H2 [H3 [_ [H5 _]]]]].
  destruct (stalled_nothing_pending _ H1) as [N1 [N2 [N3 N4]]].
  rewrite H2, H3, H5, I2, I3.
  repeat split; assumption.
Qed.

(** The screen is left in the middle of an answer. *)
Lemma unmount_while_listening_is_clean_witness :
  let before := untilListening ++ [RecognitionResult [("I worked on", true)]] in
  let s := run sampleRender before (mount true sampleQuestions) in
  let after := [Timeout 7; RecognitionEnd; Timeout 8] in
  reachableOrderly true sampleQuestions s
  /\ mounted s = true
  /\ isListening (ui s) = true
  /\ timers (browser s) = [(7, MkTimer 2000 CbSilence)]
  /\ orderlyRun sampleRender after (step sampleRender Unmount s)
  /\ requests (log (run sampleRender (Unmount :: after) s)) = [].
Proof.
  cbv zeta.
  set (before := untilListening ++ _).
  set (s := run sampleRender before (mount true sampleQuestions)).
  set (after := [Timeout 7; RecognitionEnd; Timeout 8]).
  assert (Hb : orderlyRun sampleRender before (mount true sampleQuestions))
    by (vm_compute; repeat split).
  assert (Hr : reachableOrderly true sampleQuestions s)
    by (apply reachableOrderly_run; [apply orderly_mount | exact Hb]).
  assert (Hm : mounted s = true) by computed.
  assert (Hl : isListening (ui s) = true) by computed.
  assert (Ha : orderlyRun sampleRender after (step sampleRender Unmount s))
    by (cbn; repeat split).
  split; [exact Hr|]. split; [exact Hm|]. split; [exact Hl|]. split; [computed|].
  split; [exact Ha|].
  pose proof (unmount_while_listening_is_clean true sampleQuestions s after
                Hr Hm Hl) as H.
  cbv zeta in H. destruct (H Ha) as [_ [_ [_ [_ [_ [_ [_ [_ [H1 _]]]]]]]]].
  assert (E : requests (log s) = []) by computed.
  rewrite E in H1.
  by_value H1.
Defined.

(** X18. Where every result arrives while the recogniser is active: the
    recogniser ends capture by itself, with or without an error (no speech
    for a while, the network), while no silence timeout is pending.  [onend]
    turns [isListening] off and nothing is pending that would start capture
    again: whatever the browser delivers next, the interview does not go on,
    nothing is sent and the view does not change. *)
Theorem capture_ending_by_itself_stalls
    (supported : bool) (qs : option (list string)) (s : State)
    (error : option string) (events : list Event) :
  reachableOrderly supported qs s ->
  recognition (browser s) = RecActive ->
  timers (browser s) = [] ->
  let r := firstRender qs in
  let reported := match error with Some e => [RecognitionError e] | None => [] end in
  let ended := run r (reported ++ [RecognitionEnd]) s in
  orderlyRun r events ended ->
  let s' := run r events ended in
  recognition (browser ended) = RecInactive
  /\ isListening (ui ended) = false
  /\ isListening (ui s') = false
  /\ atRest (recognition (browser s')) = true
  /\ timers (browser s') = []
  /\ utterances (browser s') = []
  /\ fetches (browser s') = []
  /\ requests (log s') = requests (log s)
  /\ views (log s') = views (log s)
  /\ conversationHistory (ui s') = conversationHistory (ui s).
Proof.
  intros Hr Hv Ht. cbv zeta. intros Hrun.
  apply reachableOrderly_oneThread, oneThread_oneAtATime in Hr.
  set (ended := run (firstRender qs) _ s) in *.
  assert (I : stalled ended = true
              /\ recognition (browser ended) = RecInactive
              /\ isListening (ui ended) = false
              /\ requests (log ended) = requests (log s)
              /\ views (log ended) = views (log s)
              /\ conversationHistory (ui ended) = conversationHistory (ui s)).
  { unfold ended. clear Hrun ended.
    destruct s as [[cq il tr sp ld sm ch wr] [rr st fb] [v us spk ts nt fs nf]
                   [rq al vw cp] m].
    cbn in Hv, Ht. subst v ts.
    destruct us as [|? [|? ?]], fs as [|[fid k] [|? ?]]; try discriminate Hr.
    destruct error as [e|]; [|repeat split; reflexivity].
    unfold run. cbn. unfold onerror.
    destruct (String.eqb e "network"); repeat split; reflexivity. }
  destruct I as [I1 [I2 [I3 [I4 [I5 I6]]]]].
  destruct (stalled_run _ events _ I1 Hrun) as [H1 [H2 [H3 [_ [H5 H6]]]]].
  destruct (stalled_nothing_pending _ H1) as [N1 [N2 [N3 N4]]].
  rewrite H2, H3, H5, I4, I5, I6, (H6 I3).
  repeat split; assumption.
Qed.

(** The recogniser gives up on a silent candidate. *)
Lemma capture_ending_by_itself_stalls_witness :
  let s := run sampleRender untilListening (mount true sampleQuestions) in
  let after := [Timeout 7; RecognitionStart; UtteranceStart] in
  reachableOrderly true sampleQuestions s
  /\ recognition (browser s) = RecActive
  /\ timers (browser s) = []
  /\ orderlyRun sampleRender after
       (run sampleRender [RecognitionError "no-speech"; RecognitionEnd] s)
  /\ isListening
       (ui (run sampleRender
              ([RecognitionError "no-speech"; RecognitionEnd] ++ after) s)) = false.
Proof.
  cbv zeta.
  set (s := run sampleRender untilListening (mount true sampleQuestions)).
  set (after := [Timeout 7; RecognitionStart; UtteranceStart]).
  assert (Hb : orderlyRun sampleRender untilListening (mount true sampleQuestions))
    by (vm_compute; repeat split).
  assert (Hr : reachableOrderly true sampleQuestions s)
    by (apply reachableOrderly_run; [apply orderly_mount | exact Hb]).
  assert (Hv : recognition (browser s) = RecActive) by computed.
  assert (Ht : timers (browser s) = []) by computed.
  assert (Ha : orderlyRun sampleRender after
                 (run sampleRender [RecognitionError "no-speech"; RecognitionEnd] s))
    by (cbn; repeat split).
  split; [exact Hr|]. split; [exact Hv|]. split; [exact Ht|]. split; [exact Ha|].
  pose proof (capture_ending_by_itself_stalls true sampleQuestions s
                (Some "no-speech") after Hr Hv Ht) as H.
  cbv zeta in H. destruct (H Ha) as [_ [_ [H1 _]]].
  by_value H1.
Defined.

(** ** The setup screen and the shell *)

Lemma endsWith_spec (s sub : string) :
  Js.endsWith s sub = true <-> exists pre, s = (pre ++ sub)%string.
Proof.
  induction s as [|c s IH]; cbn [Js.endsWith].
  - rewrite orb_false_r. split.
    + intros H. apply String.eqb_eq in H. subst sub. now exists EmptyString.
    + intros [pre H]. destruct pre; [|discriminate H].
      cbn in H. subst sub. reflexivity.
  - rewrite orb_true_iff, IH, String.eqb_eq. split.
    + intros [<- | [pre ->]]; [now exists EmptyString | now exists (String c pre)].
    + intros [[|c' pre] H]; cbn in H.
      * left. exact H.
      * right. injection H as _ H. now exists pre.
Qed.

(** X19. [handleResumeUpload] takes the first file of the input when its
    name ends with ".pdf" or ".txt", in these very letters: the file is kept
    and the error cleared.  Any other name sets the error and leaves the
    file chosen before; an empty selection changes nothing. *)
Theorem resume_file_is_checked_by_suffix
    (file : InterviewSetup.File) (rest : list InterviewSetup.File)
    (s : InterviewSetup.State) :
  let named := fun ext => exists pre, InterviewSetup.name file = (pre ++ ext)%string in
  let s' := InterviewSetup.handleResumeUpload (file :: rest) s in
  InterviewSetup.handleResumeUpload [] s = s
  /\ InterviewSetup.mode s' = InterviewSetup.mode s
  /\ InterviewSetup.role s' = InterviewSetup.role s
  /\ InterviewSetup.loading s' = InterviewSetup.loading s
  /\ (named ".pdf" \/ named ".txt" ->
      InterviewSetup.resume s' = Some file /\ InterviewSetup.error s' = EmptyString)
  /\ (~ (named ".pdf" \/ named ".txt") ->
      InterviewSetup.resume s' = InterviewSetup.resume s
      /\ InterviewSetup.error s' = "Please upload a PDF or TXT file").
Proof.
  cbv zeta. unfold InterviewSetup.handleResumeUpload.
  rewrite <- !endsWith_spec.
  destruct (Js.endsWith (InterviewSetup.name file) ".pdf");
    destruct (Js.endsWith (InterviewSetup.name file) ".txt"); cbn;
    (split; [reflexivity|]); (split; [reflexivity|]); (split; [reflexivity|]);
    (split; [reflexivity|]); split.
  all: try (intros _; split; reflexivity).
  all: try (intros N; exfalso; apply N; tauto).
  intros [N | N]; discriminate N.
Qed.

(** A file the picker's filter [accept=".pdf,.txt"] lets through. *)
Lemma upper_case_extension_is_refused :
  InterviewSetup.handleResumeUpload [InterviewSetup.MkFile "CV.PDF"]
    (InterviewSetup.setMode InterviewSetup.ModeResume InterviewSetup.initialState)
  = InterviewSetup.MkState (Some InterviewSetup.ModeResume) EmptyString None false
      "Please upload a PDF or TXT file".
Proof. reflexivity. Qed.

Section StartInterviewTheorems.
Import InterviewSetup.

Ltac cases :=
  repeat match goal with
  | |- _ /\ _ => split
  | |- _ <-> _ => split
  | |- forall _, _ => intro
  | |- ~ _ => intro
  | H : _ /\ _ |- _ => destruct H
  | H : exists _, _ |- _ => destruct H
  | H : ?a = ?a -> _ |- _ => specialize (H eq_refl)
  end;
  try discriminate; try congruence;
  try (eexists; split; [reflexivity | congruence]);
  try (eexists; reflexivity).

(** X20. [startInterview] of the setup screen, however the two requests
    settle: [loading] is false at the end; [onStart] is called exactly when
    the start request is answered OK with a JSON object (and, in resume mode,
    a file is chosen and its upload is answered OK with a JSON object), with
    the [interview_id] and [questions] of that reply, and then no error is
    shown; no request at all is sent exactly in resume mode without a
    file. *)
Theorem startInterview_outcome
    (typeError : string) (uploadReply : Settles UploadData)
    (startReply : Settles StartData) (s : State) :
  let out := startInterview typeError uploadReply startReply s in
  loading (final out) = false
  /\ mode (final out) = mode s /\ role (final out) = role s
  /\ resume (final out) = resume s
  /\ (forall data,
        started out = Some data <->
        (exists d, startReply = Responds true (JsonObject d)
                   /\ data = MkInterviewData (interview_id d) (start_questions d))
        /\ (mode s = Some ModeResume ->
            resume s <> None
            /\ exists u, uploadReply = Responds true (JsonObject u)))
  /\ (started out <> None -> error (final out) = EmptyString)
  /\ (sent out = [] <-> mode s = Some ModeResume /\ resume s = None).
Proof.
  cbv zeta.
  destruct s as [[[| |]|] ro [f|] ld er];
    destruct uploadReply as [m | [|] [m | | u]];
    destruct startReply as [m' | [|] [m' | | d]];
    cbn; cases.
Qed.

(** X21. A start request, when [startInterview] sends one, is the last
    request; its [mode] is the mode chosen ("default" when none is), which is
    a chosen mode whenever the start button is enabled; [role] is the text
    of the role input in custom mode and [null] otherwise; [resume_text] is
    [null] unless the mode is resume, where the request follows an upload
    answered OK and carries the [resume_text] of its reply. *)
Theorem start_request_fields
    (typeError : string) (uploadReply : Settles UploadData)
    (startReply : Settles StartData) (s : State)
    (m : Mode) (r : option string) (t : Nullable string) :
  let out := startInterview typeError uploadReply startReply s in
  In (StartInterview m r t) (sent out) ->
  m = match mode s with Some chosen => chosen | None => ModeDefault end
  /\ (disabled s = false -> mode s = Some m)
  /\ r = match m with ModeCustom => Some (role s) | _ => None end
  /\ match m with
     | ModeResume =>
         exists file u,
           resume s = Some file
           /\ uploadReply = Responds true (JsonObject u)
           /\ sent out = [UploadResume file; StartInterview m r t]
           /\ t = match resume_text u with Some text => Is text | None => IsUndefined end
     | _ => sent out = [StartInterview m r t] /\ t = IsNull
     end.
Proof.
  cbv zeta.
  destruct s as [[[| |]|] ro [f|] ld er];
    destruct uploadReply as [m0 | [|] [m0 | | u]];
    destruct startReply as [m' | [|] [m' | | d]];
    cbn; intros H;
    repeat match goal with
    | H : _ \/ _ |- _ => destruct H
    | H : False |- _ => destruct H
    end;
    try discriminate;
    match goal with H : _ = StartInterview _ _ _ |- _ => injection H as <- <- <- end;
    cbn; cases; try (eexists; eexists; repeat split; reflexivity).
Qed.

End StartInterviewTheorems.

(** The custom mode, for a data scientist. *)
Lemma start_request_fields_witness :
  let s := InterviewSetup.setRole "Data Scientist"
             (InterviewSetup.setMode InterviewSetup.ModeCustom
                InterviewSetup.initialState) in
  let reply := InterviewSetup.Responds true
                 (InterviewSetup.JsonObject
                    (InterviewSetup.MkStartData (Some 7) (Some ["Why data?"]))) in
  let out := InterviewSetup.startInterview "null has no properties"
               (InterviewSetup.Rejects "unused") reply s in
  In (InterviewSetup.StartInterview InterviewSetup.ModeCustom
        (Some "Data Scientist") InterviewSetup.IsNull) (InterviewSetup.sent out)
  /\ InterviewSetup.sent out
     = [InterviewSetup.StartInterview InterviewSetup.ModeCustom
          (Some "Data Scientist") InterviewSetup.IsNull].
Proof.
  cbv zeta.
  assert (H : In (InterviewSetup.StartInterview InterviewSetup.ModeCustom
                    (Some "Data Scientist") InterviewSetup.IsNull)
                 (InterviewSetup.sent
                    (InterviewSetup.startInterview "null has no properties"
                       (InterviewSetup.Rejects "unused")
                       (InterviewSetup.Responds true
                          (InterviewSetup.JsonObject
                             (InterviewSetup.MkStartData (Some 7) (Some ["Why data?"]))))
                       (InterviewSetup.setRole "Data Scientist"
                          (InterviewSetup.setMode InterviewSetup.ModeCustom
                             InterviewSetup.initialState)))))
    by (left; reflexivity).
  split; [exact H|].
  exact (proj1 (proj2 (proj2 (proj2
           (start_request_fields _ _ _ _ _ _ _ H))))).
Defined.

(** X22. A token that is not empty, given to [handleSetToken], is stored:
    after a reload the shell holds it again and shows the home screen.
    After [logout] the login screen is shown, the interview data are gone,
    and a reload shows the login screen too.  An empty or [null] token is
    not stored. *)
Theorem token_is_kept_until_logout (t : string) (s : App.State) :
  Js.truthy t = true ->
  let loggedIn := App.handleSetToken (Some t) s in
  let reloaded := App.mount (App.initialState (App.localStorage loggedIn)) in
  let loggedOut := App.logout reloaded in
  App.token reloaded = Some t
  /\ App.screen reloaded = App.ShowHome
  /\ App.screen loggedOut = App.ShowLogin
  /\ App.interviewData loggedOut = None
  /\ App.screen (App.mount (App.initialState (App.localStorage loggedOut)))
     = App.ShowLogin
  /\ App.localStorage (App.handleSetToken (Some EmptyString) s) = App.localStorage s
  /\ App.localStorage (App.handleSetToken None s) = App.localStorage s.
Proof.
  intros Ht. cbv zeta. destruct t as [|c t]; [discriminate Ht|].
  repeat split; reflexivity.
Qed.

(** A first login. *)
Lemma token_is_kept_until_logout_witness :
  Js.truthy "eyJhbGciOi" = true
  /\ App.screen
       (App.mount
          (App.initialState
             (App.localStorage
                (App.handleSetToken (Some "eyJhbGciOi") (App.initialState None)))))
     = App.ShowHome.
Proof.
  split; [reflexivity|].
  exact (proj1 (proj2 (token_is_kept_until_logout "eyJhbGciOi"
                         (App.initialState None) eq_refl))).
Defined.

(** X23. The start request is answered OK with an object that has no
    [questions], or an empty list.  The setup screen reports no error and
    calls [onStart]; the shell shows the Interview screen with these data;
    and the interview never starts: in every state of its session nothing is
    pending, nothing is spoken or sent and the view is not left, the loading
    view staying for ever when [questions] is missing. *)
Theorem start_reply_without_questions_never_starts
    (typeError : string) (uploadReply : InterviewSetup.Settles InterviewSetup.UploadData)
    (d : InterviewSetup.StartData) (setup : InterviewSetup.State)
    (app : App.State) (data : InterviewSetup.InterviewData)
    (supported : bool) (s : State) :
  let out :=
    InterviewSetup.startInterview typeError uploadReply
      (InterviewSetup.Responds true (InterviewSetup.JsonObject d)) setup in
  InterviewSetup.started out = Some data ->
  App.truthy (App.token app) = true ->
  InterviewSetup.start_questions d = None \/ InterviewSetup.start_questions d = Some [] ->
  reachable supported (InterviewSetup.questions data) s ->
  InterviewSetup.error (InterviewSetup.final out) = EmptyString
  /\ App.screen (App.handleStartInterview data app) = App.ShowInterview data
  /\ InterviewSetup.questions data = InterviewSetup.start_questions d
  /\ timers (browser s) = []
  /\ utterances (browser s) = []
  /\ requests (log s) = []
  /\ conversationHistory (ui s) = []
  /\ views (log s) = []
  /\ loading (ui s)
     = match InterviewSetup.start_questions d with None => true | Some _ => false end.
Proof.
  cbv zeta. intros Hs Ht Hq Hr.
  assert (E : InterviewSetup.error
                (InterviewSetup.final
                   (InterviewSetup.startInterview typeError uploadReply
                      (InterviewSetup.Responds true (InterviewSetup.JsonObject d))
                      setup)) = EmptyString
              /\ data = InterviewSetup.MkInterviewData
                          (InterviewSetup.interview_id d)
                          (InterviewSetup.start_questions d)).
  { destruct setup as [[[| |]|] ro [f|] ld er], uploadReply as [m | [|] [m | | u]];
      cbn in Hs; try discriminate Hs; injection Hs as <-; split; reflexivity. }
  destruct E as [E1 E2].
  assert (Eq : InterviewSetup.questions data = InterviewSetup.start_questions d)
    by (now subst data).
  split; [exact E1|].
  split.
  { unfold App.screen, App.handleStartInterview. cbn. now rewrite Ht. }
  split; [exact Eq|].
  rewrite Eq in Hr.
  destruct (quiet_session supported _ s Hq Hr) as [Q1 [Q2 [Q3 [Q4 [_ [Q6 Q7]]]]]].
  repeat split; assumption.
Qed.

(** The default mode, and a reply that holds an identifier only. *)
Lemma start_reply_without_questions_never_starts_witness :
  let d := InterviewSetup.MkStartData (Some 12) None in
  let setup := InterviewSetup.setMode InterviewSetup.ModeDefault
                 InterviewSetup.initialState in
  let app := App.mount (App.initialState (Some "eyJhbGciOi")) in
  let data := InterviewSetup.MkInterviewData (Some 12) None in
  let s := run (firstRender None) [Timeout 1; RecognitionStart] (mount true None) in
  InterviewSetup.started
    (InterviewSetup.startInterview "null has no properties"
       (InterviewSetup.Rejects "unused")
       (InterviewSetup.Responds true (InterviewSetup.JsonObject d)) setup)
  = Some data
  /\ App.truthy (App.token app) = true
  /\ reachable true (InterviewSetup.questions data) s
  /\ App.screen (App.handleStartInterview data app) = App.ShowInterview data
  /\ loading (ui s) = true.
Proof.
  cbv zeta.
  set (d := InterviewSetup.MkStartData (Some 12) None).
  set (setup := InterviewSetup.setMode InterviewSetup.ModeDefault
                  InterviewSetup.initialState).
  set (app := App.mount (App.initialState (Some "eyJhbGciOi"))).
  set (data := InterviewSetup.MkInterviewData (Some 12) None).
  set (s := run (firstRender None) [Timeout 1; RecognitionStart] (mount true None)).
  assert (Hs : InterviewSetup.started
                 (InterviewSetup.startInterview "null has no properties"
                    (InterviewSetup.Rejects "unused")
                    (InterviewSetup.Responds true (InterviewSetup.JsonObject d)) setup)
               = Some data) by reflexivity.
  assert (Ht : App.truthy (App.token app) = true) by reflexivity.
  assert (Hr : reachable true (InterviewSetup.questions data) s)
    by (apply (reachable_run true None), reachable_mount).
  split; [exact Hs|]. split; [exact Ht|]. split; [exact Hr|].
  destruct (start_reply_without_questions_never_starts "null has no properties"
              (InterviewSetup.Rejects "unused") d setup app data true s
              Hs Ht (or_introl eq_refl) Hr)
    as [_ [H2 [_ [_ [_ [_ [_ [_ H9]]]]]]]].
  split; [exact H2 | exact H9].
Defined.
